(** * datapath/vport.c: the generic virtual-port layer of the Open vSwitch
      kernel datapath.

    The development embeds the C functions of [datapath/vport.c] as Rocq
    functions over an explicit model of the kernel objects they touch:
    packets ([sk_buff]) as byte lists with header offsets, the C integer
    types as [Z] with their wrap-around written out, the per-port counters
    as records, the port registry as a table of buckets.  Kernel services
    that [vport.c] only calls (the allocator, the port back ends, the hash
    function, the host byte order) are gathered in a record [host]. *)

From Stdlib Require Import ZArith List Lia Bool.
From Stdlib.Strings Require Import Byte.
Import ListNotations.
Local Open Scope Z_scope.

(** ** C integer types *)

Definition wrap16 (x : Z) : Z := x mod 2 ^ 16.
Definition wrap32 (x : Z) : Z := x mod 2 ^ 32.
Definition wrap64 (x : Z) : Z := x mod 2 ^ 64.

(** ** Constants of the kernel headers used by vport.c *)

Definition ETH_ALEN : nat := 6.
Definition ETH_HLEN : nat := 14.
Definition VLAN_HLEN : nat := 4.
Definition ETH_P_IP : Z := 0x0800.
Definition ETH_P_8021Q : Z := 0x8100.
Definition IP_DF : Z := 0x4000.
Definition IP_MF : Z := 0x2000.
Definition IP_OFFSET : Z := 0x1FFF.
Definition VLAN_TAG_PRESENT : Z := 0x1000.
Definition ENOMEM : Z := 12.
Definition EAFNOSUPPORT : Z := 97.
Definition VPORT_HASH_BUCKETS : Z := 1024.

(** ** Bytes *)

Definition byte_val (b : byte) : Z := Z.of_N (Byte.to_N b).

Definition byte_of (z : Z) : byte :=
  match Byte.of_N (Z.to_N (z mod 256)) with
  | Some b => b
  | None => x00
  end.

(** The byte at offset [i] of a buffer.  A read past the end of the data
    (which in C would read whatever follows) yields a zero byte. *)
Definition byte_at (d : list byte) (i : nat) : Z := byte_val (nth i d x00).

(** Overwrite [d] from offset [off] with the bytes [src]; the part of [src]
    that would fall behind the end of [d] is not written. *)
Definition mem_write (d : list byte) (off : nat) (src : list byte) : list byte :=
  firstn off d ++ firstn (length d - off) src ++ skipn (off + length src) d.

(** ** Packet buffers

    [skb_data] holds the bytes from [skb->data] to [skb->tail]; the header
    positions are offsets from [skb->data].  [skb_id] stands for the address
    of the buffer, so that releases of one buffer can be counted.  Of the
    control block only the field read by this file is kept. *)

Record ovs_skb_cb := {
  cb_frag_max_size : Z        (* OVS_CB(skb)->pkt_key->phy.frag_max_size *)
}.

Record sk_buff := {
  skb_id : nat;
  skb_data : list byte;
  mac_header : nat;
  network_header : nat;
  vlan_proto : Z;
  vlan_tci : Z;
  skb_cb : ovs_skb_cb
}.

Definition skb_len (skb : sk_buff) : nat := length (skb_data skb).

Definition set_data (skb : sk_buff) (d : list byte) : sk_buff :=
  {| skb_id := skb_id skb; skb_data := d;
     mac_header := mac_header skb; network_header := network_header skb;
     vlan_proto := vlan_proto skb; vlan_tci := vlan_tci skb;
     skb_cb := skb_cb skb |}.

(** [skb_push]: [n] more bytes in front of the data; their content is
    whatever the buffer held (zero here), the headers keep their place.
    The headroom is not tracked: [ovs_vport_fragment] reserves as much as
    it pushes. *)
Definition skb_push (skb : sk_buff) (n : nat) : sk_buff :=
  {| skb_id := skb_id skb; skb_data := repeat x00 n ++ skb_data skb;
     mac_header := mac_header skb + n; network_header := network_header skb + n;
     vlan_proto := vlan_proto skb; vlan_tci := vlan_tci skb;
     skb_cb := skb_cb skb |}.

(** [skb_pull]: drop [n] bytes from the front of the data.  In C the
    headers stay where they are in memory, so that their offsets from
    [skb->data] go down by [n].  A header inside the [n] bytes dropped
    would come to lie before [skb->data], which an offset from [skb->data]
    that is a natural number cannot say: for such a header the offset here
    is 0 and stands for nothing, and what is stated about a header behind
    a pull has the bound [n <= offset] with it.  vport.c pulls only in
    [ovs_vlan_untag], which resets the MAC header right after. *)
Definition skb_pull (skb : sk_buff) (n : nat) : sk_buff :=
  {| skb_id := skb_id skb; skb_data := skipn n (skb_data skb);
     mac_header := mac_header skb - n; network_header := network_header skb - n;
     vlan_proto := vlan_proto skb; vlan_tci := vlan_tci skb;
     skb_cb := skb_cb skb |}.

Definition skb_reset_mac_header (skb : sk_buff) : sk_buff :=
  {| skb_id := skb_id skb; skb_data := skb_data skb;
     mac_header := 0; network_header := network_header skb;
     vlan_proto := vlan_proto skb; vlan_tci := vlan_tci skb;
     skb_cb := skb_cb skb |}.

Definition skb_reset_network_header (skb : sk_buff) : sk_buff :=
  {| skb_id := skb_id skb; skb_data := skb_data skb;
     mac_header := mac_header skb; network_header := 0;
     vlan_proto := vlan_proto skb; vlan_tci := vlan_tci skb;
     skb_cb := skb_cb skb |}.

Definition set_cb (skb : sk_buff) (cb : ovs_skb_cb) : sk_buff :=
  {| skb_id := skb_id skb; skb_data := skb_data skb;
     mac_header := mac_header skb; network_header := network_header skb;
     vlan_proto := vlan_proto skb; vlan_tci := vlan_tci skb;
     skb_cb := cb |}.

(** [skb_copy_bits(src, offset, to, len)] with [to] the start of the data
    of [dst]: copies [len] bytes of [src] from [offset]; when [src] does not
    hold that many bytes it fails and nothing is copied.  vport.c ignores
    the result. *)
Definition skb_copy_bits (src : sk_buff) (offset : nat) (dst : sk_buff)
    (len : nat) : sk_buff :=
  if (offset + len <=? skb_len src)%nat
  then set_data dst (mem_write (skb_data dst) 0
                       (firstn len (skipn offset (skb_data src))))
  else dst.

(** [__vlan_hwaccel_put_tag(skb, proto, tci)] *)
Definition __vlan_hwaccel_put_tag (skb : sk_buff) (proto tci : Z) : sk_buff :=
  {| skb_id := skb_id skb; skb_data := skb_data skb;
     mac_header := mac_header skb; network_header := network_header skb;
     vlan_proto := proto; vlan_tci := Z.lor VLAN_TAG_PRESENT (wrap16 tci);
     skb_cb := skb_cb skb |}.

Definition vlan_tx_tag_present (skb : sk_buff) : bool :=
  negb (Z.land (vlan_tci skb) VLAN_TAG_PRESENT =? 0).

Definition vlan_tx_tag_get (skb : sk_buff) : Z :=
  Z.land (vlan_tci skb) (Z.land (Z.lnot VLAN_TAG_PRESENT) 0xFFFF).

(** The IPv4 header checksum of [ip_fast_csum]: the one's complement of the
    one's-complement sum of the header's 16-bit words. *)
Fixpoint sum16 (d : list byte) : Z :=
  match d with
  | a :: b :: r => byte_val a * 256 + byte_val b + sum16 r
  | [a] => byte_val a * 256
  | [] => 0
  end.

Definition csum_fold (s : Z) : Z :=
  let s := s mod 65536 + s / 65536 in
  let s := s mod 65536 + s / 65536 in
  (65535 - s) mod 65536.

Definition ip_fast_csum (d : list byte) (iph : nat) (ihl : Z) : Z :=
  csum_fold (sum16 (firstn (Z.to_nat (ihl * 4)) (skipn iph d))).

(** [ip_send_check(iph)]: clear the check field, then store the checksum
    of the header (a [__sum16], already in network order). *)
Definition ip_send_check (d : list byte) (iph : nat) : list byte :=
  let d0 := mem_write d (iph + 10) [x00; x00] in
  let c := ip_fast_csum d0 iph (byte_at d0 iph mod 16) in
  mem_write d0 (iph + 10) [byte_of (c / 256); byte_of c].

(** ** Statistics *)

(** [struct ovs_vport_stats]: eight [__u64] counters. *)
Record ovs_vport_stats := {
  rx_packets : Z;
  tx_packets : Z;
  rx_bytes : Z;
  tx_bytes : Z;
  rx_errors : Z;
  tx_errors : Z;
  rx_dropped : Z;
  tx_dropped : Z
}.

(** [struct vport_err_stats]: four [u64] counters. *)
Record vport_err_stats := {
  err_rx_dropped : Z;
  err_rx_errors : Z;
  err_tx_dropped : Z;
  err_tx_errors : Z
}.

(** [struct pcpu_tstats]: four [u64] counters per CPU.  The sequence
    counter [syncp] only serves concurrent readers and is left out. *)
Record pcpu_tstats := {
  cpu_rx_packets : Z;
  cpu_rx_bytes : Z;
  cpu_tx_packets : Z;
  cpu_tx_bytes : Z
}.

Inductive vport_err_type :=
| VPORT_E_RX_DROPPED
| VPORT_E_RX_ERROR
| VPORT_E_TX_DROPPED
| VPORT_E_TX_ERROR.

Definition u64_ok (x : Z) : Prop := 0 <= x < 2 ^ 64.

Definition stats_ok (s : ovs_vport_stats) : Prop :=
  u64_ok (rx_packets s) /\ u64_ok (tx_packets s) /\
  u64_ok (rx_bytes s) /\ u64_ok (tx_bytes s) /\
  u64_ok (rx_errors s) /\ u64_ok (tx_errors s) /\
  u64_ok (rx_dropped s) /\ u64_ok (tx_dropped s).

(** ** Ports *)

Definition OVS_VPORT_TYPE_NETDEV : Z := 1.
Definition OVS_VPORT_TYPE_INTERNAL : Z := 2.

(** [struct vport] with what its [ops] and private data report: the type
    and name of the back end and, for the two device-backed types, the MTU
    of the device. *)
Record vport := {
  dp_net : Z;                        (* ovs_dp_get_net(vport->dp) *)
  port_no : Z;
  upcall_portid : Z;
  ops_type : Z;                      (* vport->ops->type *)
  vport_name : list byte;            (* vport->ops->get_name(vport) *)
  dev_mtu : Z;                       (* netdev_vport_priv(vport)->dev->mtu *)
  offset_stats : ovs_vport_stats;
  err_stats : vport_err_stats;
  percpu_stats : list pcpu_tstats    (* one slot per possible CPU *)
}.

Definition set_offset_stats (v : vport) (s : ovs_vport_stats) : vport :=
  {| dp_net := dp_net v; port_no := port_no v; upcall_portid := upcall_portid v;
     ops_type := ops_type v; vport_name := vport_name v; dev_mtu := dev_mtu v;
     offset_stats := s; err_stats := err_stats v;
     percpu_stats := percpu_stats v |}.

Definition set_err_stats (v : vport) (e : vport_err_stats) : vport :=
  {| dp_net := dp_net v; port_no := port_no v; upcall_portid := upcall_portid v;
     ops_type := ops_type v; vport_name := vport_name v; dev_mtu := dev_mtu v;
     offset_stats := offset_stats v; err_stats := e;
     percpu_stats := percpu_stats v |}.

Definition set_percpu_stats (v : vport) (p : list pcpu_tstats) : vport :=
  {| dp_net := dp_net v; port_no := port_no v; upcall_portid := upcall_portid v;
     ops_type := ops_type v; vport_name := vport_name v; dev_mtu := dev_mtu v;
     offset_stats := offset_stats v; err_stats := err_stats v;
     percpu_stats := p |}.

(** [ovs_vport_set_stats] *)
Definition ovs_vport_set_stats (v : vport) (stats : ovs_vport_stats) : vport :=
  set_offset_stats v stats.

Definition add_err_stats (s : ovs_vport_stats) (e : vport_err_stats)
    : ovs_vport_stats :=
  {| rx_packets := rx_packets s; tx_packets := tx_packets s;
     rx_bytes := rx_bytes s; tx_bytes := tx_bytes s;
     rx_errors := wrap64 (rx_errors s + err_rx_errors e);
     tx_errors := wrap64 (tx_errors s + err_tx_errors e);
     rx_dropped := wrap64 (rx_dropped s + err_rx_dropped e);
     tx_dropped := wrap64 (tx_dropped s + err_tx_dropped e) |}.

Definition add_cpu_stats (s : ovs_vport_stats) (local_stats : pcpu_tstats)
    : ovs_vport_stats :=
  {| rx_packets := wrap64 (rx_packets s + cpu_rx_packets local_stats);
     tx_packets := wrap64 (tx_packets s + cpu_tx_packets local_stats);
     rx_bytes := wrap64 (rx_bytes s + cpu_rx_bytes local_stats);
     tx_bytes := wrap64 (tx_bytes s + cpu_tx_bytes local_stats);
     rx_errors := rx_errors s; tx_errors := tx_errors s;
     rx_dropped := rx_dropped s; tx_dropped := tx_dropped s |}.

(** [ovs_vport_get_stats]: the offset, plus the error counters, plus the
    counters of every possible CPU. *)
Definition ovs_vport_get_stats (v : vport) : ovs_vport_stats :=
  fold_left add_cpu_stats (percpu_stats v)
            (add_err_stats (offset_stats v) (err_stats v)).

(** [ovs_vport_record_error] *)
Definition ovs_vport_record_error (v : vport) (err_type : vport_err_type)
    : vport :=
  let e := err_stats v in
  set_err_stats v
    match err_type with
    | VPORT_E_RX_DROPPED =>
        {| err_rx_dropped := wrap64 (err_rx_dropped e + 1);
           err_rx_errors := err_rx_errors e;
           err_tx_dropped := err_tx_dropped e;
           err_tx_errors := err_tx_errors e |}
    | VPORT_E_RX_ERROR =>
        {| err_rx_dropped := err_rx_dropped e;
           err_rx_errors := wrap64 (err_rx_errors e + 1);
           err_tx_dropped := err_tx_dropped e;
           err_tx_errors := err_tx_errors e |}
    | VPORT_E_TX_DROPPED =>
        {| err_rx_dropped := err_rx_dropped e;
           err_rx_errors := err_rx_errors e;
           err_tx_dropped := wrap64 (err_tx_dropped e + 1);
           err_tx_errors := err_tx_errors e |}
    | VPORT_E_TX_ERROR =>
        {| err_rx_dropped := err_rx_dropped e;
           err_rx_errors := err_rx_errors e;
           err_tx_dropped := err_tx_dropped e;
           err_tx_errors := wrap64 (err_tx_errors e + 1) |}
    end.

(** [n] calls of [ovs_vport_record_error] with the same kind. *)
Fixpoint record_errors (n : nat) (v : vport) (k : vport_err_type) : vport :=
  match n with
  | O => v
  | S n => record_errors n (ovs_vport_record_error v k) k
  end.

(** The snapshot field an error kind is reported in. *)
Definition err_field (k : vport_err_type) (s : ovs_vport_stats) : Z :=
  match k with
  | VPORT_E_RX_DROPPED => rx_dropped s
  | VPORT_E_RX_ERROR => rx_errors s
  | VPORT_E_TX_DROPPED => tx_dropped s
  | VPORT_E_TX_ERROR => tx_errors s
  end.

(** The accumulated counter of an error kind. *)
Definition err_count (k : vport_err_type) (e : vport_err_stats) : Z :=
  match k with
  | VPORT_E_RX_DROPPED => err_rx_dropped e
  | VPORT_E_RX_ERROR => err_rx_errors e
  | VPORT_E_TX_DROPPED => err_tx_dropped e
  | VPORT_E_TX_ERROR => err_tx_errors e
  end.

Definition err_stats_zero (e : vport_err_stats) : Prop :=
  err_rx_dropped e = 0 /\ err_rx_errors e = 0 /\
  err_tx_dropped e = 0 /\ err_tx_errors e = 0.

Definition pcpu_zero (p : pcpu_tstats) : Prop :=
  cpu_rx_packets p = 0 /\ cpu_rx_bytes p = 0 /\
  cpu_tx_packets p = 0 /\ cpu_tx_bytes p = 0.

(** ** The state the transmit path works on

    The port with its counters, the frames handed to the back end's [send]
    (oldest first), the buffers released with [kfree_skb] (latest first),
    and the number of calls of [alloc_skb] so far, which also names the
    next buffer. *)
Record world := {
  w_vport : vport;
  w_sent : list sk_buff;
  w_freed : list nat;
  w_allocs : nat
}.

Definition set_vport (w : world) (v : vport) : world :=
  {| w_vport := v; w_sent := w_sent w; w_freed := w_freed w;
     w_allocs := w_allocs w |}.

(** ** The host: what vport.c takes from the kernel and the back end *)
Record host := {
  little_endian : bool;                 (* byte order of the CPU *)
  NET_IP_ALIGN : nat;
  this_cpu : nat;                       (* the CPU the code runs on *)
  ops_send : world -> sk_buff -> Z;     (* result of vport->ops->send *)
  alloc_ok : nat -> bool;               (* does the n-th alloc_skb succeed *)
  cow_head_ok : sk_buff -> bool         (* does skb_cow_head(skb, 0) succeed *)
}.

(** ** Host byte order

    A 16-bit field is read from memory in host order; [htons] and [ntohs]
    convert between host and network order.  Both are the same function: a
    byte swap on a little-endian host, the identity on a big-endian one. *)

Definition bswap16 (x : Z) : Z := (x mod 256) * 256 + (x / 256) mod 256.

Definition htons (h : host) (x : Z) : Z :=
  if little_endian h then bswap16 x else wrap16 x.

Definition ntohs (h : host) (x : Z) : Z := htons h x.

(** [*(u16 * )(d + off)] *)
Definition load16 (h : host) (d : list byte) (off : nat) : Z :=
  if little_endian h
  then byte_at d off + byte_at d (S off) * 256
  else byte_at d off * 256 + byte_at d (S off).

(** [*(u16 * )(d + off) = v] *)
Definition store16 (h : host) (d : list byte) (off : nat) (v : Z) : list byte :=
  if little_endian h
  then mem_write d off [byte_of v; byte_of (v / 256)]
  else mem_write d off [byte_of (v / 256); byte_of v].

(** The 16-bit value the two bytes at [off] have on the wire. *)
Definition be16 (d : list byte) (off : nat) : Z :=
  byte_at d off * 256 + byte_at d (S off).

(** ** Header fields *)

(** [eth_hdr(skb)->h_proto], also [vlan_eth_hdr(skb)->h_vlan_proto] *)
Definition eth_h_proto (h : host) (skb : sk_buff) : Z :=
  load16 h (skb_data skb) (mac_header skb + 12).

(** [vlan_eth_hdr(skb)->h_vlan_TCI] *)
Definition h_vlan_TCI (h : host) (skb : sk_buff) : Z :=
  load16 h (skb_data skb) (mac_header skb + 14).

(** [vlan_eth_hdr(skb)->h_vlan_encapsulated_proto] *)
Definition h_vlan_encapsulated_proto (h : host) (skb : sk_buff) : Z :=
  load16 h (skb_data skb) (mac_header skb + 16).

(** [ip_hdr(skb)->tot_len] *)
Definition ip_tot_len (h : host) (skb : sk_buff) : Z :=
  load16 h (skb_data skb) (network_header skb + 2).

(** [ip_hdr(skb)->frag_off] *)
Definition ip_frag_off (h : host) (skb : sk_buff) : Z :=
  load16 h (skb_data skb) (network_header skb + 6).

(** [ip_hdrlen(skb)]: [ip_hdr(skb)->ihl * 4] *)
Definition ip_hdrlen (skb : sk_buff) : Z :=
  (byte_at (skb_data skb) (network_header skb) mod 16) * 4.

(** ** Transmit *)

Definition kfree_skb (w : world) (skb : sk_buff) : world :=
  {| w_vport := w_vport w; w_sent := w_sent w;
     w_freed := skb_id skb :: w_freed w; w_allocs := w_allocs w |}.

(** [alloc_skb(len, GFP_KERNEL)] followed by [skb_reserve(frag, len)]: an
    empty buffer, or none. *)
Definition alloc_skb (h : host) (w : world) (len : Z) : option sk_buff * world :=
  let w' := {| w_vport := w_vport w; w_sent := w_sent w;
               w_freed := w_freed w; w_allocs := S (w_allocs w) |} in
  if alloc_ok h (w_allocs w)
  then (Some {| skb_id := w_allocs w; skb_data := [];
                mac_header := 0; network_header := 0;
                vlan_proto := 0; vlan_tci := 0;
                skb_cb := {| cb_frag_max_size := 0 |} |}, w')
  else (None, w').

Fixpoint update_nth {A : Type} (n : nat) (f : A -> A) (l : list A) : list A :=
  match l, n with
  | [], _ => []
  | x :: r, O => f x :: r
  | x :: r, S n => x :: update_nth n f r
  end.

(** [this_cpu_ptr(vport->percpu_stats)], read *)
Definition this_cpu_stats (h : host) (v : vport) : pcpu_tstats :=
  nth (this_cpu h) (percpu_stats v)
      {| cpu_rx_packets := 0; cpu_rx_bytes := 0;
         cpu_tx_packets := 0; cpu_tx_bytes := 0 |}.

(** The update of this CPU's transmit counters in [__ovs_vport_send]. *)
Definition tx_account (sent : Z) (s : pcpu_tstats) : pcpu_tstats :=
  {| cpu_rx_packets := cpu_rx_packets s;
     cpu_rx_bytes := cpu_rx_bytes s;
     cpu_tx_packets := wrap64 (cpu_tx_packets s + 1);
     cpu_tx_bytes := wrap64 (cpu_tx_bytes s + sent) |}.

(** [__ovs_vport_send] *)
Definition __ovs_vport_send (h : host) (w : world) (skb : sk_buff) : Z * world :=
  let sent := ops_send h w skb in
  let w := {| w_vport := w_vport w; w_sent := w_sent w ++ [skb];
              w_freed := w_freed w; w_allocs := w_allocs w |} in
  if 0 <? sent then
    (sent, set_vport w (set_percpu_stats (w_vport w)
                          (update_nth (this_cpu h) (tx_account sent)
                                      (percpu_stats (w_vport w)))))
  else if sent <? 0 then
    (sent, kfree_skb (set_vport w (ovs_vport_record_error (w_vport w)
                                     VPORT_E_TX_ERROR)) skb)
  else
    (sent, set_vport w (ovs_vport_record_error (w_vport w) VPORT_E_TX_DROPPED)).

(** [ovs_vlan_untag]: [None] is the NULL result; the buffer is then as it
    was. *)
Definition ovs_vlan_untag (h : host) (skb : sk_buff) : option sk_buff :=
  if negb (eth_h_proto h skb =? htons h ETH_P_8021Q) then None
  else
    let tci := h_vlan_TCI h skb in
    let proto := eth_h_proto h skb in
    if negb (cow_head_ok h skb) then None
    else
      let skb := set_data skb
                   (mem_write (skb_data skb) (mac_header skb + VLAN_HLEN)
                              (firstn (ETH_ALEN * 2) (skb_data skb))) in
      let skb := skb_pull skb VLAN_HLEN in
      let skb := skb_reset_mac_header skb in
      Some (__vlan_hwaccel_put_tag skb proto (ntohs h tci)).

(** The ceiling of a fragment: [frag_max_size > 0 ? frag_max_size : mtu] *)
Definition frag_ceiling (frag_max_size mtu : Z) : Z :=
  if 0 <? frag_max_size then frag_max_size else mtu.

(** The body of the loop of [ovs_vport_fragment] between the allocation of
    [frag] and its transmission: lines 467 to 494.  The tag is put back as
    on kernels from 3.10 on, with the packet's own [vlan_proto].  The
    offsets handed to [skb_copy_bits] are taken as they are, without the
    conversion to [int] of the C call; the two differ only beyond 2^31. *)
Definition build_frag (h : host) (skb frag : sk_buff)
    (ip_hlen flag frag_off frag_len : Z) : sk_buff :=
  let frag := skb_push frag (Z.to_nat frag_len) in
  let frag := skb_copy_bits skb (ETH_HLEN + Z.to_nat ip_hlen + Z.to_nat frag_off)
                frag (Z.to_nat frag_len) in
  let frag := skb_push frag (Z.to_nat ip_hlen) in
  let frag := skb_copy_bits skb ETH_HLEN frag (Z.to_nat ip_hlen) in
  let frag := skb_reset_network_header frag in
  let iph := network_header frag in
  let frag := set_data frag
                (store16 h (skb_data frag) (iph + 2)
                   (htons h (wrap32 (ip_hlen + frag_len)))) in
  let frag := set_data frag
                (store16 h (skb_data frag) (iph + 6)
                   (htons h (Z.land (Z.shiftr frag_off 3) IP_OFFSET))) in
  let frag := set_data frag
                (store16 h (skb_data frag) (iph + 6)
                   (Z.lor (load16 h (skb_data frag) (iph + 6)) (htons h flag))) in
  let frag := set_data frag (ip_send_check (skb_data frag) iph) in
  let frag := skb_push frag ETH_HLEN in
  let frag := skb_copy_bits skb 0 frag ETH_HLEN in
  let frag := skb_reset_mac_header frag in
  let frag := set_cb frag (skb_cb skb) in
  if vlan_tx_tag_present skb
  then __vlan_hwaccel_put_tag frag (vlan_proto skb) (vlan_tx_tag_get skb)
  else frag.

(** The [while (left > 0)] loop of [ovs_vport_fragment].  The C loop need
    not end (with [frag_max = 0] it would not while buffers can be had), so
    the model counts iterations down from [fuel] and gives [None] when they
    run out.  The result is the value returned and the state left. *)
Fixpoint fragment_loop (h : host) (fuel : nat) (w : world) (skb : sk_buff)
    (ip_hlen frag_max flag left frag_off sent : Z) : option (Z * world) :=
  match fuel with
  | O => None
  | S fuel =>
      if 0 <? left then
        let flag := if frag_max <? left
                    then Z.lor flag IP_MF
                    else Z.land flag (wrap32 (Z.lnot IP_MF)) in
        let frag_len := if frag_max <? left then frag_max else left in
        let len := wrap32 (Z.of_nat ETH_HLEN + Z.of_nat (NET_IP_ALIGN h)
                           + ip_hlen + frag_len) in
        match alloc_skb h w len with
        | (None, w) => Some (sent, w)
        | (Some frag, w) =>
            let frag := build_frag h skb frag ip_hlen flag frag_off frag_len in
            let (sent, w) := __ovs_vport_send h w frag in
            fragment_loop h fuel w skb ip_hlen frag_max flag
                          (wrap32 (left - frag_len))
                          (wrap32 (frag_off + frag_len)) sent
        end
      else Some (sent, kfree_skb w skb)
  end.

(** [ovs_vport_fragment] *)
Definition ovs_vport_fragment (h : host) (fuel : nat) (w : world)
    (skb : sk_buff) (frag_max_size mtu : Z) : option (Z * world) :=
  let ip_hlen := ip_hdrlen skb in
  let flag := Z.land (ntohs h (ip_frag_off h skb)) IP_DF in
  let left := wrap32 (ntohs h (ip_tot_len h skb) - ip_hlen) in
  let frag_max := Z.land (wrap32 (frag_ceiling frag_max_size mtu - ip_hlen))
                         (wrap32 (Z.lnot 7)) in
  fragment_loop h fuel w skb ip_hlen frag_max flag left 0 0.

(** The [mtu] of [ovs_vport_send]: the device's for the two device-backed
    port types, none (0) for the others. *)
Definition send_mtu (v : vport) : Z :=
  if (ops_type v =? OVS_VPORT_TYPE_NETDEV)
     || (ops_type v =? OVS_VPORT_TYPE_INTERNAL)
  then dev_mtu v else 0.

(** [ovs_vport_send] *)
Definition ovs_vport_send (h : host) (fuel : nat) (w : world) (skb : sk_buff)
    : option (Z * world) :=
  let mtu := send_mtu (w_vport w) in
  let frag_max_size := cb_frag_max_size (skb_cb skb) in
  let send := Some (__ovs_vport_send h w skb) in
  let fragment skb := ovs_vport_fragment h fuel w skb frag_max_size mtu in
  if 0 <? frag_max_size then fragment skb
  else if mtu =? 0 then send
  else if eth_h_proto h skb =? htons h ETH_P_IP then
    if negb (Z.land (ip_frag_off h skb) (htons h IP_DF) =? 0) then send
    else if mtu <? ntohs h (ip_tot_len h skb) then fragment skb
    else send
  else if eth_h_proto h skb =? htons h ETH_P_8021Q then
    let encap := h_vlan_encapsulated_proto h skb in
    if encap =? ntohs h ETH_P_IP then
      if negb (Z.land (ip_frag_off h skb) (htons h IP_DF) =? 0) then send
      else if mtu <? ntohs h (ip_tot_len h skb) then
        match ovs_vlan_untag h skb with
        | None => Some (0, w)
        | Some skb => fragment skb
        end
      else send
    else send
  else send.

(** ** What a frame says on the wire

    The fields of the IPv4 header of a frame as a receiver reads them,
    byte by byte and independent of the sender's byte order.  [iph] is the
    offset of the IPv4 header. *)

Definition wire_df (d : list byte) (iph : nat) : bool :=
  Z.testbit (byte_at d (iph + 6)) 6.

Definition wire_mf (d : list byte) (iph : nat) : bool :=
  Z.testbit (byte_at d (iph + 6)) 5.

Definition wire_tot_len (d : list byte) (iph : nat) : Z := be16 d (iph + 2).

(** The fragment offset field, in units of 8 bytes. *)
Definition wire_frag_offset (d : list byte) (iph : nat) : Z :=
  Z.land (be16 d (iph + 6)) IP_OFFSET.

Definition wire_ihl (d : list byte) (iph : nat) : Z := byte_at d iph mod 16.

(** The IPv4 payload of an untagged frame: what follows the Ethernet and
    IPv4 headers, up to the total length. *)
Definition ip_payload (d : list byte) : list byte :=
  firstn (Z.to_nat (wire_tot_len d ETH_HLEN - wire_ihl d ETH_HLEN * 4))
         (skipn (ETH_HLEN + Z.to_nat (wire_ihl d ETH_HLEN * 4)) d).

(** The frames a run of the transmit path handed to the back end. *)
Definition emitted (w w' : world) : list sk_buff :=
  skipn (length (w_sent w)) (w_sent w').

(** How often a buffer was released. *)
Definition released (w : world) (skb : sk_buff) : nat :=
  count_occ Nat.eq_dec (w_freed w) (skb_id skb).

(** The IPv4 payload of the frame in a buffer. *)
Definition payload_of (f : sk_buff) : list byte := ip_payload (skb_data f).

(** The payload bytes a frame made by [ovs_vport_fragment] holds, by its
    length: what the frame has behind the Ethernet header and an IPv4
    header of [ip_hlen] bytes; and the payload bytes a list of frames
    holds. *)
Definition frame_room (ip_hlen : Z) (f : sk_buff) : Z :=
  Z.of_nat (skb_len f) - Z.of_nat ETH_HLEN - ip_hlen.

Definition handed_out (ip_hlen : Z) (frs : list sk_buff) : Z :=
  fold_right Z.add 0 (map (frame_room ip_hlen) frs).

(** What the loop of [ovs_vport_fragment] is to hand to the back end when
    [left] bytes of the payload of the packet [d] remain from offset [off]
    on, fragment by fragment: each frame has the Ethernet header of the
    packet and nothing behind its payload, its IPv4 header has the header
    length of the packet's, the total length of header and payload, the
    offset [off / 8] together with the flag [dfv] of the packet and the
    more-fragments flag while payload remains, and its payload is the next
    slice of the packet's. *)
Fixpoint frag_chain (d : list byte) (ip_hlen frag_max dfv off left : Z)
    (frs : list sk_buff) : Prop :=
  match frs with
  | [] => left <= 0
  | f :: rest =>
      let n := if frag_max <? left then frag_max else left in
      let fd := skb_data f in
      0 < left /\
      firstn ETH_HLEN fd = firstn ETH_HLEN d /\
      length fd = (ETH_HLEN + Z.to_nat ip_hlen + Z.to_nat n)%nat /\
      byte_at fd ETH_HLEN = byte_at d ETH_HLEN /\
      be16 fd (ETH_HLEN + 2) = ip_hlen + n /\
      be16 fd (ETH_HLEN + 6)
      = Z.lor (off / 8)
              (Z.lor dfv (if frag_max <? left then IP_MF else 0)) /\
      skipn (ETH_HLEN + Z.to_nat ip_hlen) fd
      = firstn (Z.to_nat n)
               (skipn (ETH_HLEN + Z.to_nat ip_hlen + Z.to_nat off) d) /\
      frag_chain d ip_hlen frag_max dfv (off + n) (left - n) rest
  end.

(** ** The registry *)

Record vport_parms := {
  parms_name : list byte;
  parms_type : Z;
  parms_dp_net : Z;
  parms_port_no : Z;
  parms_upcall_portid : Z
}.

(** The result of a function that returns a port or [ERR_PTR(err)]. *)
Inductive vport_ptr :=
| ERR_PTR (err : Z)
| VPORT (v : vport).

(** [struct vport_ops], as far as [ovs_vport_add] uses it. *)
Record vport_ops := {
  vops_type : Z;
  vops_create : vport_parms -> vport_ptr
}.

(** [dev_table]: the bucket (an hlist, first entry first) at each index. *)
Definition dev_table := Z -> list vport.

(** The table with the calls made to the back ends' [create]. *)
Record registry := {
  reg_table : dev_table;
  reg_created : list (Z * vport_parms)
}.

Definition name_eqb (a b : list byte) : bool :=
  if list_eq_dec byte_eq_dec a b then true else false.

Section Registry.

(** [jhash(key, length, initval)] of the kernel and the list of the
    compiled-in back ends. *)
Variable jhash : list byte -> Z -> Z -> Z.
Variable vport_ops_list : list vport_ops.

(** [hash_bucket]: the index of the bucket *)
Definition hash_bucket (net : Z) (name : list byte) : Z :=
  Z.land (wrap32 (jhash name (Z.of_nat (length name)) net))
         (VPORT_HASH_BUCKETS - 1).

(** [ovs_vport_locate]: [None] is NULL. *)
Definition ovs_vport_locate (t : dev_table) (net : Z) (name : list byte)
    : option vport :=
  find (fun v => name_eqb name (vport_name v) && (dp_net v =? net))
       (t (hash_bucket net name)).

(** [hlist_add_head_rcu] on the bucket at index [b] *)
Definition hlist_add_head (v : vport) (b : Z) (t : dev_table) : dev_table :=
  fun i => if i =? b then v :: t i else t i.

(** The loop of [ovs_vport_add] over the back ends still to be tried. *)
Fixpoint vport_add_scan (ops : list vport_ops) (r : registry)
    (parms : vport_parms) : vport_ptr * registry :=
  match ops with
  | [] => (ERR_PTR (- EAFNOSUPPORT), r)
  | o :: ops =>
      if vops_type o =? parms_type parms then
        let r := {| reg_table := reg_table r;
                    reg_created := (vops_type o, parms) :: reg_created r |} in
        match vops_create o parms with
        | ERR_PTR err => (ERR_PTR err, r)
        | VPORT v =>
            (VPORT v,
             {| reg_table := hlist_add_head v
                               (hash_bucket (dp_net v) (vport_name v))
                               (reg_table r);
                reg_created := reg_created r |})
        end
      else vport_add_scan ops r parms
  end.

(** [ovs_vport_add] *)
Definition ovs_vport_add (r : registry) (parms : vport_parms)
    : vport_ptr * registry :=
  vport_add_scan vport_ops_list r parms.

End Registry.

(** ** Removal from the registry

    A pointer to a port that is in the table is taken as the place of its
    hash node: the bucket and the position in it. *)

Record vport_ref := {
  ref_bucket : Z;
  ref_pos : nat
}.

Definition deref (t : dev_table) (p : vport_ref) : option vport :=
  nth_error (t (ref_bucket p)) (ref_pos p).

(** The position of the first entry of a bucket that passes the test. *)
Fixpoint find_pos (test : vport -> bool) (l : list vport) : option nat :=
  match l with
  | [] => None
  | v :: l => if test v then Some O
              else option_map S (find_pos test l)
  end.

(** [ovs_vport_locate], the result as a pointer into the table. *)
Definition ovs_vport_locate_ref (jhash : list byte -> Z -> Z -> Z)
    (t : dev_table) (net : Z) (name : list byte) : option vport_ref :=
  option_map (fun i => {| ref_bucket := hash_bucket jhash net name;
                          ref_pos := i |})
             (find_pos (fun v => name_eqb name (vport_name v)
                                 && (dp_net v =? net))
                       (t (hash_bucket jhash net name))).

(** [hlist_del_rcu] of the node at position [i] of its list *)
Definition hlist_del (i : nat) (l : list vport) : list vport :=
  firstn i l ++ skipn (S i) l.

(** [ovs_vport_del]: the table without the node, and the port handed to
    the back end's [destroy]. *)
Definition ovs_vport_del (t : dev_table) (p : vport_ref)
    : dev_table * option vport :=
  (fun b => if b =? ref_bucket p then hlist_del (ref_pos p) (t b) else t b,
   deref t p).

(** [ovs_vport_init]: the result and, on success, the table of empty
    buckets that [kzalloc] gives. *)
Definition ovs_vport_init (kzalloc_ok : bool) : Z * option dev_table :=
  if kzalloc_ok then (0, Some (fun _ => [])) else (- ENOMEM, None).

(** ** Reception *)

(** The update of this CPU's receive counters in [ovs_vport_receive]. *)
Definition rx_account (len : Z) (s : pcpu_tstats) : pcpu_tstats :=
  {| cpu_rx_packets := wrap64 (cpu_rx_packets s + 1);
     cpu_rx_bytes := wrap64 (cpu_rx_bytes s + len);
     cpu_tx_packets := cpu_tx_packets s;
     cpu_tx_bytes := cpu_tx_bytes s |}.

(** [ovs_vport_receive]: the port with its counters, and the packet with
    the tunnel key as they go to [ovs_dp_process_received_packet]. *)
Definition ovs_vport_receive (h : host) (v : vport) (skb : sk_buff)
    (tun_key : Z) : vport * (sk_buff * Z) :=
  (set_percpu_stats v
     (update_nth (this_cpu h) (rx_account (Z.of_nat (skb_len skb)))
                 (percpu_stats v)),
   (skb, tun_key)).

(** The sum of one counter over the CPUs. *)
Definition cpu_sum (f : pcpu_tstats -> Z) (l : list pcpu_tstats) : Z :=
  fold_right (fun p acc => f p + acc) 0 l.

(** ** Allocation of ports

    The kernel's memory as the list of the objects that are allocated;
    objects are named by the number of the allocation. *)

Record kmem := {
  km_live : list nat;
  km_next : nat
}.

(** What [ovs_vport_alloc] takes from the kernel: whether the n-th
    allocation succeeds, the number of possible CPUs, and the size of
    [struct vport]. *)
Record mem_host := {
  kmalloc_ok : nat -> bool;
  nr_cpus : nat;
  sizeof_vport : Z
}.

Definition VPORT_ALIGN : Z := 8.

(** [ALIGN(x, a)] of the kernel, on a 64-bit [size_t]:
    [(x + (a - 1)) & ~(a - 1)]. *)
Definition ALIGN (x a : Z) : Z :=
  Z.land (wrap64 (x + (a - 1))) (wrap64 (Z.lnot (a - 1))).

(** [kzalloc] and [alloc_percpu]: a new object, or none. *)
Definition kmalloc (mh : mem_host) (m : kmem) : option nat * kmem :=
  if kmalloc_ok mh (km_next m)
  then (Some (km_next m),
        {| km_live := km_next m :: km_live m; km_next := S (km_next m) |})
  else (None, {| km_live := km_live m; km_next := S (km_next m) |}).

Fixpoint remove_one (a : nat) (l : list nat) : list nat :=
  match l with
  | [] => []
  | x :: l => if Nat.eqb x a then l else x :: remove_one a l
  end.

(** [kfree] and [free_percpu] *)
Definition kfree (a : nat) (m : kmem) : kmem :=
  {| km_live := remove_one a (km_live m); km_next := km_next m |}.

(** The [alloc_size] of [ovs_vport_alloc]. *)
Definition vport_alloc_size (mh : mem_host) (priv_size : Z) : Z :=
  if priv_size =? 0 then sizeof_vport mh
  else wrap64 (ALIGN (sizeof_vport mh) VPORT_ALIGN + priv_size).

(** A port in memory: its address and size, the address of its per-CPU
    counters, its content. *)
Record vport_mem := {
  vm_addr : nat;
  vm_size : Z;
  vm_percpu : nat;
  vm_vport : vport
}.

Inductive alloc_result :=
| ALLOC_ERR (err : Z)
| ALLOC_OK (vm : vport_mem).

Definition zero_stats : ovs_vport_stats :=
  {| rx_packets := 0; tx_packets := 0; rx_bytes := 0; tx_bytes := 0;
     rx_errors := 0; tx_errors := 0; rx_dropped := 0; tx_dropped := 0 |}.

Definition zero_tstats : pcpu_tstats :=
  {| cpu_rx_packets := 0; cpu_rx_bytes := 0;
     cpu_tx_packets := 0; cpu_tx_bytes := 0 |}.

(** [ovs_vport_alloc].  The memory comes zeroed; what the back end reports
    of the port (name, MTU) is for the back end's [create] to fill in and
    is empty here.  The field [ipv4_reasm], which vport.c only copies, is
    not kept. *)
Definition ovs_vport_alloc (mh : mem_host) (m : kmem) (priv_size : Z)
    (ops : vport_ops) (parms : vport_parms) : alloc_result * kmem :=
  let alloc_size := vport_alloc_size mh priv_size in
  match kmalloc mh m with
  | (None, m) => (ALLOC_ERR (- ENOMEM), m)
  | (Some addr, m) =>
      match kmalloc mh m with
      | (None, m) => (ALLOC_ERR (- ENOMEM), kfree addr m)
      | (Some pcpu, m) =>
          (ALLOC_OK
             {| vm_addr := addr; vm_size := alloc_size; vm_percpu := pcpu;
                vm_vport :=
                  {| dp_net := parms_dp_net parms;
                     port_no := parms_port_no parms;
                     upcall_portid := parms_upcall_portid parms;
                     ops_type := vops_type ops;
                     vport_name := [];
                     dev_mtu := 0;
                     offset_stats := zero_stats;
                     err_stats := {| err_rx_dropped := 0; err_rx_errors := 0;
                                     err_tx_dropped := 0;
                                     err_tx_errors := 0 |};
                     percpu_stats := repeat zero_tstats (nr_cpus mh) |} |},
           m)
      end
  end.

(** [ovs_vport_free] *)
Definition ovs_vport_free (m : kmem) (vm : vport_mem) : kmem :=
  kfree (vm_addr vm) (kfree (vm_percpu vm) m).

(** [ovs_vport_deferred_free]: [None] is the NULL pointer; the callbacks
    queued with [call_rcu] wait in [pending]. *)
Definition ovs_vport_deferred_free (pending : list vport_mem)
    (p : option vport_mem) : list vport_mem :=
  match p with
  | None => pending
  | Some vm => pending ++ [vm]
  end.

(** The end of a grace period: every queued [free_vport_rcu] runs. *)
Definition rcu_grace_period (m : kmem) (pending : list vport_mem) : kmem :=
  fold_left ovs_vport_free pending m.

(** ** Options over netlink

    A message buffer: the bytes written and the room left behind them. *)

Record nl_skb := {
  nl_data : list byte;
  nl_tailroom : nat
}.

Definition NLA_HDRLEN : nat := 4.
Definition OVS_VPORT_ATTR_OPTIONS : Z := 4.
Definition EMSGSIZE : Z := 90.
Definition EOPNOTSUPP : Z := 95.

(** The optional operations of a back end; [None] is a NULL function
    pointer.  [get_options] works on the message, [set_options] on the
    port, and each returns its error code. *)
Record vport_opt_ops := {
  vops_set_options : option (vport -> list byte -> Z * vport);
  vops_get_options : option (vport -> nl_skb -> Z * nl_skb)
}.

(** [nla_nest_start(skb, attrtype)]: an attribute header without payload
    at the end of the message, or NULL without room for it.  The result is
    the offset of the header. *)
Definition nla_nest_start (h : host) (skb : nl_skb) (attrtype : Z)
    : option nat * nl_skb :=
  if (nl_tailroom skb <? NLA_HDRLEN)%nat then (None, skb)
  else
    let start := length (nl_data skb) in
    let d := nl_data skb ++ repeat x00 NLA_HDRLEN in
    let d := store16 h d start (Z.of_nat NLA_HDRLEN) in
    let d := store16 h d (start + 2) attrtype in
    (Some start,
     {| nl_data := d; nl_tailroom := nl_tailroom skb - NLA_HDRLEN |}).

(** [nla_nest_end(skb, start)]: the length of the attribute is what the
    message holds from [start] on. *)
Definition nla_nest_end (h : host) (skb : nl_skb) (start : nat) : nl_skb :=
  {| nl_data := store16 h (nl_data skb) start
                  (Z.of_nat (length (nl_data skb) - start));
     nl_tailroom := nl_tailroom skb |}.

(** [nla_nest_cancel(skb, start)]: the message is cut back to [start]. *)
Definition nla_nest_cancel (skb : nl_skb) (start : nat) : nl_skb :=
  if (start <=? length (nl_data skb))%nat
  then {| nl_data := firstn start (nl_data skb);
          nl_tailroom := nl_tailroom skb + (length (nl_data skb) - start) |}
  else skb.

(** [ovs_vport_set_options] *)
Definition ovs_vport_set_options (ops : vport_opt_ops) (v : vport)
    (options : list byte) : Z * vport :=
  match vops_set_options ops with
  | None => (- EOPNOTSUPP, v)
  | Some set_options => set_options v options
  end.

(** [ovs_vport_get_options] *)
Definition ovs_vport_get_options (h : host) (ops : vport_opt_ops) (v : vport)
    (skb : nl_skb) : Z * nl_skb :=
  match vops_get_options ops with
  | None => (0, skb)
  | Some get_options =>
      match nla_nest_start h skb OVS_VPORT_ATTR_OPTIONS with
      | (None, skb) => (- EMSGSIZE, skb)
      | (Some nla, skb) =>
          let (err, skb) := get_options v skb in
          if negb (err =? 0) then (err, nla_nest_cancel skb nla)
          else (0, nla_nest_end h skb nla)
      end
  end.

(** The attribute header at [start] as a reader finds it: length and
    type in host order. *)
Definition nla_len (h : host) (d : list byte) (start : nat) : Z :=
  load16 h d start.

Definition nla_type (h : host) (d : list byte) (start : nat) : Z :=
  load16 h d (start + 2).

(** ** The header checksum as a receiver checks it: the sum over the whole
    header, checksum included, folds to zero. *)
Definition ip_csum_ok (d : list byte) (iph : nat) : bool :=
  ip_fast_csum d iph (wire_ihl d iph) =? 0.

(** [DIV_ROUND_UP] *)
Definition div_round_up (a b : Z) : Z := (a + b - 1) / b.

(** ** Names for the counters and keys the properties speak of *)

Inductive traffic_kind :=
| RX_PACKETS
| TX_PACKETS
| RX_BYTES
| TX_BYTES.

(** The snapshot field of a traffic counter. *)
Definition traffic_field (k : traffic_kind) (s : ovs_vport_stats) : Z :=
  match k with
  | RX_PACKETS => rx_packets s
  | TX_PACKETS => tx_packets s
  | RX_BYTES => rx_bytes s
  | TX_BYTES => tx_bytes s
  end.

(** The per-CPU counter of a traffic counter. *)
Definition traffic_cpu (k : traffic_kind) (p : pcpu_tstats) : Z :=
  match k with
  | RX_PACKETS => cpu_rx_packets p
  | TX_PACKETS => cpu_tx_packets p
  | RX_BYTES => cpu_rx_bytes p
  | TX_BYTES => cpu_tx_bytes p
  end.

(** What [ovs_vport_locate] compares: the namespace and the name. *)
Definition vport_key (v : vport) : Z * list byte := (dp_net v, vport_name v).

(** The test of [ovs_vport_locate] on one entry. *)
Definition key_test (net : Z) (name : list byte) (v : vport) : bool :=
  name_eqb name (vport_name v) && (dp_net v =? net).

(** Frames the port has disposed of on the transmit side, as the snapshot
    of [ovs_vport_get_stats] shows them: sent, failed and dropped. *)
Definition tx_outcomes (s : ovs_vport_stats) : Z :=
  tx_packets s + tx_errors s + tx_dropped s.

(** ** Sample objects

    A little-endian host whose back end sends every frame whole and whose
    allocations succeed, a device-backed port, and untagged and tagged
    IPv4 frames: the Ethernet header, a 20-byte IPv4 header, and a payload
    of the bytes 1, 2, 3, ... *)
Module Sample.

Definition a_host (mem_ok : nat -> bool) (cow : bool) : host :=
  {| little_endian := true; NET_IP_ALIGN := 2; this_cpu := 0%nat;
     ops_send := fun _ skb => Z.of_nat (skb_len skb);
     alloc_ok := mem_ok;
     cow_head_ok := fun _ => cow |}.

Definition the_host : host := a_host (fun _ => true) true.

Definition no_stats : ovs_vport_stats :=
  {| rx_packets := 0; tx_packets := 0; rx_bytes := 0; tx_bytes := 0;
     rx_errors := 0; tx_errors := 0; rx_dropped := 0; tx_dropped := 0 |}.

Definition a_port (mtu : Z) : vport :=
  {| dp_net := 0; port_no := 1; upcall_portid := 0;
     ops_type := OVS_VPORT_TYPE_NETDEV; vport_name := [];
     dev_mtu := mtu;
     offset_stats := no_stats;
     err_stats := {| err_rx_dropped := 0; err_rx_errors := 0;
                     err_tx_dropped := 0; err_tx_errors := 0 |};
     percpu_stats := [{| cpu_rx_packets := 0; cpu_rx_bytes := 0;
                         cpu_tx_packets := 0; cpu_tx_bytes := 0 |}] |}.

(** A state in which buffer 0 (the packet to send) is allocated. *)
Definition a_world (mtu : Z) : world :=
  {| w_vport := a_port mtu; w_sent := []; w_freed := []; w_allocs := 1 |}.

Definition eth_addrs : list Z :=
  [0x02; 0; 0; 0; 0; 0x01; 0x02; 0; 0; 0; 0; 0x02].

(** The IPv4 header: total length [len], flags and offset [frag]. *)
Definition ip_header (len frag : Z) : list Z :=
  [0x45; 0; len / 256; len mod 256; 0x12; 0x34; frag / 256; frag mod 256;
   64; 17; 0; 0; 10; 0; 0; 1; 10; 0; 0; 2].

Definition payload (n : nat) : list Z := map Z.of_nat (seq 1 n).

Definition a_packet (d : list Z) (nh : nat) (frag_max_size : Z) : sk_buff :=
  {| skb_id := 0; skb_data := map byte_of d;
     mac_header := 0; network_header := nh;
     vlan_proto := 0; vlan_tci := 0;
     skb_cb := {| cb_frag_max_size := frag_max_size |} |}.

(** Untagged, [len] bytes of IPv4. *)
Definition plain (len frag frag_max_size : Z) : sk_buff :=
  a_packet (eth_addrs ++ [0x08; 0] ++ ip_header len frag
            ++ payload (Z.to_nat (len - 20)))
           14 frag_max_size.

(** The same packet behind a VLAN tag (VLAN 5). *)
Definition tagged (len frag : Z) : sk_buff :=
  a_packet (eth_addrs ++ [0x81; 0; 0; 5; 0x08; 0] ++ ip_header len frag
            ++ payload (Z.to_nat (len - 20)))
           18 0.

End Sample.

(** * Properties *)

(** ** Bytes and byte order *)

Lemma byte_val_range (b : byte) : 0 <= byte_val b < 256.
Proof.
  unfold byte_val. pose proof (Byte.to_N_bounded b). lia.
Qed.

Lemma byte_val_of (z : Z) : byte_val (byte_of z) = z mod 256.
Proof.
  unfold byte_val, byte_of.
  assert (Hr : 0 <= z mod 256 < 256) by (apply Z.mod_pos_bound; lia).
  destruct (Byte.of_N (Z.to_N (z mod 256))) as [b|] eqn:E.
  - apply Byte.to_of_N in E. lia.
  - apply Byte.of_N_None_iff in E. lia.
Qed.

Lemma byte_of_val (b : byte) : byte_of (byte_val b) = b.
Proof.
  unfold byte_of, byte_val.
  pose proof (Byte.to_N_bounded b) as Hb.
  rewrite Z.mod_small by lia.
  rewrite N2Z.id, Byte.of_to_N. reflexivity.
Qed.

(** ** Statistics *)

Lemma wrap64_idem_r (a b : Z) : wrap64 (a + wrap64 b) = wrap64 (a + b).
Proof. unfold wrap64. apply Zplus_mod_idemp_r. Qed.

Lemma wrap64_idem_l (a b : Z) : wrap64 (wrap64 a + b) = wrap64 (a + b).
Proof. unfold wrap64. apply Zplus_mod_idemp_l. Qed.

Lemma wrap64_small (a : Z) : u64_ok a -> wrap64 a = a.
Proof. unfold u64_ok, wrap64. intros H. apply Z.mod_small. exact H. Qed.

(** The per-CPU summation leaves the four error fields alone. *)
Lemma fold_cpu_err_field (l : list pcpu_tstats) (s : ovs_vport_stats)
    (k : vport_err_type) :
  err_field k (fold_left add_cpu_stats l s) = err_field k s.
Proof.
  revert s. induction l as [|p l IH]; intros s; simpl.
  - reflexivity.
  - rewrite IH. destruct k; reflexivity.
Qed.

Lemma get_stats_err_field (v : vport) (k : vport_err_type) :
  err_field k (ovs_vport_get_stats v)
  = wrap64 (err_field k (offset_stats v) + err_count k (err_stats v)).
Proof.
  unfold ovs_vport_get_stats. rewrite fold_cpu_err_field.
  destruct k; reflexivity.
Qed.

Lemma record_error_count (v : vport) (k k' : vport_err_type) :
  err_count k' (err_stats (ovs_vport_record_error v k))
  = if (match k, k' with
        | VPORT_E_RX_DROPPED, VPORT_E_RX_DROPPED
        | VPORT_E_RX_ERROR, VPORT_E_RX_ERROR
        | VPORT_E_TX_DROPPED, VPORT_E_TX_DROPPED
        | VPORT_E_TX_ERROR, VPORT_E_TX_ERROR => true
        | _, _ => false
        end)
    then wrap64 (err_count k' (err_stats v) + 1)
    else err_count k' (err_stats v).
Proof. destruct k, k'; reflexivity. Qed.

Lemma record_errors_frame (n : nat) (v : vport) (k : vport_err_type) :
  offset_stats (record_errors n v k) = offset_stats v /\
  percpu_stats (record_errors n v k) = percpu_stats v.
Proof.
  revert v. induction n as [|n IH]; intros v; simpl.
  - split; reflexivity.
  - destruct (IH (ovs_vport_record_error v k)) as [H1 H2].
    rewrite H1, H2. destruct k; split; reflexivity.
Qed.

Lemma record_errors_same (n : nat) (v : vport) (k : vport_err_type) :
  wrap64 (err_count k (err_stats (record_errors n v k)))
  = wrap64 (err_count k (err_stats v) + Z.of_nat n).
Proof.
  revert v. induction n as [|n IH]; intros v.
  - simpl. rewrite Z.add_0_r. reflexivity.
  - cbn [record_errors]. rewrite IH, record_error_count.
    replace (match k with
             | VPORT_E_RX_DROPPED | _ => _ end) with true
      by (destruct k; reflexivity).
    rewrite wrap64_idem_l. f_equal. lia.
Qed.

Lemma record_errors_other (n : nat) (v : vport) (k k' : vport_err_type) :
  k' <> k ->
  err_count k' (err_stats (record_errors n v k)) = err_count k' (err_stats v).
Proof.
  intros Hk. revert v. induction n as [|n IH]; intros v.
  - reflexivity.
  - cbn [record_errors]. rewrite IH, record_error_count.
    destruct k, k'; try reflexivity; congruence.
Qed.

(** C7: [n] calls of [ovs_vport_record_error] with one kind raise the
    counter of that kind in the snapshot of [ovs_vport_get_stats] by [n]
    (in the 64-bit arithmetic of the counters) and leave the other three
    error counters, and the four traffic counters, as they were. *)
Theorem record_error_n_times (v : vport) (k : vport_err_type) (n : nat) :
  let s := ovs_vport_get_stats v in
  let s' := ovs_vport_get_stats (record_errors n v k) in
  err_field k s' = wrap64 (err_field k s + Z.of_nat n) /\
  (forall k', k' <> k -> err_field k' s' = err_field k' s) /\
  rx_packets s' = rx_packets s /\ tx_packets s' = tx_packets s /\
  rx_bytes s' = rx_bytes s /\ tx_bytes s' = tx_bytes s.
Proof.
  cbv zeta.
  destruct (record_errors_frame n v k) as [Hoff Hcpu].
  split; [|split].
  - rewrite !get_stats_err_field, Hoff.
    rewrite <- wrap64_idem_r, record_errors_same, wrap64_idem_r.
    rewrite wrap64_idem_l. f_equal. lia.
  - intros k' Hk. rewrite !get_stats_err_field, Hoff.
    rewrite (record_errors_other n v k k' Hk). reflexivity.
  - unfold ovs_vport_get_stats. rewrite Hoff, Hcpu.
    generalize (percpu_stats v).
    assert (Hs : forall (l : list pcpu_tstats) (a b : ovs_vport_stats),
               rx_packets a = rx_packets b -> tx_packets a = tx_packets b ->
               rx_bytes a = rx_bytes b -> tx_bytes a = tx_bytes b ->
               rx_packets (fold_left add_cpu_stats l a)
               = rx_packets (fold_left add_cpu_stats l b) /\
               tx_packets (fold_left add_cpu_stats l a)
               = tx_packets (fold_left add_cpu_stats l b) /\
               rx_bytes (fold_left add_cpu_stats l a)
               = rx_bytes (fold_left add_cpu_stats l b) /\
               tx_bytes (fold_left add_cpu_stats l a)
               = tx_bytes (fold_left add_cpu_stats l b)).
    { induction l as [|p l IH]; intros a b H1 H2 H3 H4; simpl.
      - auto.
      - apply IH; simpl; congruence. }
    intros l. apply Hs; reflexivity.
Qed.

Lemma record_error_n_times_witness :
  let v := {| dp_net := 0; port_no := 1; upcall_portid := 0;
              ops_type := OVS_VPORT_TYPE_NETDEV; vport_name := [];
              dev_mtu := 1500;
              offset_stats := {| rx_packets := 0; tx_packets := 0;
                                 rx_bytes := 0; tx_bytes := 0;
                                 rx_errors := 7; tx_errors := 2 ^ 64 - 1;
                                 rx_dropped := 0; tx_dropped := 5 |};
              err_stats := {| err_rx_dropped := 1; err_rx_errors := 2;
                              err_tx_dropped := 3; err_tx_errors := 0 |};
              percpu_stats := [] |} in
  tx_dropped (ovs_vport_get_stats (record_errors 3 v VPORT_E_TX_DROPPED)) = 11
  /\ rx_errors (ovs_vport_get_stats (record_errors 3 v VPORT_E_TX_DROPPED)) = 9.
Proof.
  intros v.
  destruct (record_error_n_times v VPORT_E_TX_DROPPED 3) as [H1 [H2 _]].
  split.
  - exact H1.
  - apply (H2 VPORT_E_RX_ERROR). discriminate.
Defined.

Lemma add_err_stats_zero (s : ovs_vport_stats) (e : vport_err_stats) :
  stats_ok s -> err_stats_zero e -> add_err_stats s e = s.
Proof.
  intros (_ & _ & _ & _ & H5 & H6 & H7 & H8) (E1 & E2 & E3 & E4).
  destruct s; unfold add_err_stats; simpl in *.
  rewrite E1, E2, E3, E4, !Z.add_0_r, !wrap64_small by assumption.
  reflexivity.
Qed.

Lemma add_cpu_stats_zero (s : ovs_vport_stats) (p : pcpu_tstats) :
  stats_ok s -> pcpu_zero p -> add_cpu_stats s p = s.
Proof.
  intros (H1 & H2 & H3 & H4 & _) (E1 & E2 & E3 & E4).
  destruct s; unfold add_cpu_stats; simpl in *.
  rewrite E1, E2, E3, E4, !Z.add_0_r, !wrap64_small by assumption.
  reflexivity.
Qed.

(** C8: on a port whose error counters and per-CPU counters are all zero,
    [ovs_vport_set_stats] with well-formed (64-bit) stats followed by
    [ovs_vport_get_stats] gives back exactly those stats. *)
Theorem set_stats_get_stats (v : vport) (stats : ovs_vport_stats) :
  stats_ok stats ->
  err_stats_zero (err_stats v) ->
  Forall pcpu_zero (percpu_stats v) ->
  ovs_vport_get_stats (ovs_vport_set_stats v stats) = stats.
Proof.
  intros Hs He Hp. unfold ovs_vport_get_stats, ovs_vport_set_stats. simpl.
  rewrite add_err_stats_zero by assumption.
  induction Hp as [|p l Hp0 _ IH]; simpl.
  - reflexivity.
  - rewrite add_cpu_stats_zero by assumption. exact IH.
Qed.

Lemma set_stats_get_stats_witness :
  let z := {| cpu_rx_packets := 0; cpu_rx_bytes := 0;
              cpu_tx_packets := 0; cpu_tx_bytes := 0 |} in
  let s := {| rx_packets := 10; tx_packets := 20; rx_bytes := 3000;
              tx_bytes := 2 ^ 64 - 1; rx_errors := 1; tx_errors := 2;
              rx_dropped := 3; tx_dropped := 4 |} in
  let v := {| dp_net := 0; port_no := 1; upcall_portid := 0;
              ops_type := OVS_VPORT_TYPE_INTERNAL; vport_name := [];
              dev_mtu := 1500;
              offset_stats := {| rx_packets := 9; tx_packets := 9;
                                 rx_bytes := 9; tx_bytes := 9;
                                 rx_errors := 9; tx_errors := 9;
                                 rx_dropped := 9; tx_dropped := 9 |};
              err_stats := {| err_rx_dropped := 0; err_rx_errors := 0;
                              err_tx_dropped := 0; err_tx_errors := 0 |};
              percpu_stats := [z; z] |} in
  ovs_vport_get_stats (ovs_vport_set_stats v s) = s.
Proof.
  intros z s v. apply (set_stats_get_stats v s).
  - unfold stats_ok, u64_ok. simpl. lia.
  - unfold err_stats_zero. simpl. auto.
  - simpl. repeat constructor.
Defined.

(** ** Direct transmission *)

Lemma update_nth_length {A : Type} (n : nat) (f : A -> A) (l : list A) :
  length (update_nth n f l) = length l.
Proof.
  revert n. induction l as [|x l IH]; intros [|n]; simpl; auto.
Qed.

Lemma update_nth_same {A : Type} (n : nat) (f : A -> A) (l : list A) (d : A) :
  (n < length l)%nat -> nth n (update_nth n f l) d = f (nth n l d).
Proof.
  revert n. induction l as [|x l IH]; intros [|n] Hn; simpl in *; try lia.
  - reflexivity.
  - apply IH. lia.
Qed.

Lemma update_nth_other {A : Type} (n m : nat) (f : A -> A) (l : list A) (d : A) :
  m <> n -> nth m (update_nth n f l) d = nth m l d.
Proof.
  revert n m. induction l as [|x l IH]; intros [|n] [|m] Hm; simpl;
    try reflexivity; try congruence.
  apply IH. congruence.
Qed.

(** C6: [__ovs_vport_send] hands the packet to the back end once and
    returns the back end's result.  A positive result [n] adds one packet
    and [n] bytes to the transmit counters of the current CPU and changes
    no error counter; a negative one counts a transmit error and releases
    the buffer; zero counts a transmit drop and releases nothing. *)
Theorem vport_send_accounting (h : host) (w : world) (skb : sk_buff) :
  (this_cpu h < length (percpu_stats (w_vport w)))%nat ->
  let sent := ops_send h w skb in
  let r := fst (__ovs_vport_send h w skb) in
  let w' := snd (__ovs_vport_send h w skb) in
  let e := err_stats (w_vport w) in
  let e' := err_stats (w_vport w') in
  r = sent /\
  w_sent w' = w_sent w ++ [skb] /\
  (0 < sent ->
     cpu_tx_packets (this_cpu_stats h (w_vport w'))
     = wrap64 (cpu_tx_packets (this_cpu_stats h (w_vport w)) + 1) /\
     cpu_tx_bytes (this_cpu_stats h (w_vport w'))
     = wrap64 (cpu_tx_bytes (this_cpu_stats h (w_vport w)) + sent) /\
     e' = e /\ w_freed w' = w_freed w) /\
  (sent < 0 ->
     err_tx_errors e' = wrap64 (err_tx_errors e + 1) /\
     err_tx_dropped e' = err_tx_dropped e /\
     err_rx_errors e' = err_rx_errors e /\
     err_rx_dropped e' = err_rx_dropped e /\
     percpu_stats (w_vport w') = percpu_stats (w_vport w) /\
     w_freed w' = skb_id skb :: w_freed w) /\
  (sent = 0 ->
     err_tx_dropped e' = wrap64 (err_tx_dropped e + 1) /\
     err_tx_errors e' = err_tx_errors e /\
     err_rx_errors e' = err_rx_errors e /\
     err_rx_dropped e' = err_rx_dropped e /\
     percpu_stats (w_vport w') = percpu_stats (w_vport w) /\
     w_freed w' = w_freed w).
Proof.
  intros Hcpu. cbv zeta. unfold __ovs_vport_send.
  destruct (0 <? ops_send h w skb) eqn:Hpos;
    [|destruct (ops_send h w skb <? 0) eqn:Hneg]; simpl;
    rewrite ?Z.ltb_lt, ?Z.ltb_ge in *;
    (split; [reflexivity|]); (split; [reflexivity|]);
    (split; [|split]); intros Hs; try lia.
  - unfold this_cpu_stats; simpl.
    rewrite update_nth_same by exact Hcpu. repeat split; reflexivity.
  - repeat split; reflexivity.
  - repeat split; reflexivity.
Qed.

Lemma vport_send_accounting_witness :
  let h := Sample.the_host in
  let w := Sample.a_world 1500 in
  let skb := Sample.plain 50 0 0 in
  fst (__ovs_vport_send h w skb) = 64 /\
  cpu_tx_bytes (this_cpu_stats h (w_vport (snd (__ovs_vport_send h w skb)))) = 64.
Proof.
  intros h w skb.
  assert (Hcpu : (this_cpu h < length (percpu_stats (w_vport w)))%nat)
    by (simpl; lia).
  destruct (vport_send_accounting h w skb Hcpu) as (Hr & _ & Hpos & _).
  split.
  - exact Hr.
  - destruct Hpos as (_ & Hb & _); [reflexivity | exact Hb].
Defined.

(** ** The registry *)

Lemma vport_add_scan_no_match (jhash : list byte -> Z -> Z -> Z)
    (ops : list vport_ops) (r : registry) (parms : vport_parms) :
  Forall (fun o => vops_type o <> parms_type parms) ops ->
  vport_add_scan jhash ops r parms = (ERR_PTR (- EAFNOSUPPORT), r).
Proof.
  induction 1 as [|o ops Ho _ IH]; simpl.
  - reflexivity.
  - apply Z.eqb_neq in Ho. rewrite Ho. exact IH.
Qed.

(** C9: when no compiled-in back end has the requested type,
    [ovs_vport_add] returns [ERR_PTR(-EAFNOSUPPORT)], which is not the
    out-of-memory error, calls no back end's [create], and leaves the table
    as it was: every bucket, and so every lookup, is unchanged. *)
Theorem vport_add_unsupported
    (jhash : list byte -> Z -> Z -> Z) (vport_ops_list : list vport_ops)
    (r : registry) (parms : vport_parms) :
  Forall (fun o => vops_type o <> parms_type parms) vport_ops_list ->
  let res := ovs_vport_add jhash vport_ops_list r parms in
  fst res = ERR_PTR (- EAFNOSUPPORT) /\
  - EAFNOSUPPORT <> - ENOMEM /\
  reg_created (snd res) = reg_created r /\
  (forall b, reg_table (snd res) b = reg_table r b) /\
  (forall net name,
      ovs_vport_locate jhash (reg_table (snd res)) net name
      = ovs_vport_locate jhash (reg_table r) net name).
Proof.
  intros Hno. cbv zeta. unfold ovs_vport_add.
  rewrite (vport_add_scan_no_match jhash _ r parms Hno). simpl.
  repeat split. discriminate.
Qed.

Lemma vport_add_unsupported_witness :
  let ops := [ {| vops_type := OVS_VPORT_TYPE_NETDEV;
                  vops_create := fun p => VPORT (Sample.a_port 1500) |};
               {| vops_type := OVS_VPORT_TYPE_INTERNAL;
                  vops_create := fun p => ERR_PTR (- ENOMEM) |} ] in
  let r := {| reg_table := fun _ => []; reg_created := [] |} in
  let parms := {| parms_name := []; parms_type := 77; parms_dp_net := 0;
                  parms_port_no := 3; parms_upcall_portid := 0 |} in
  fst (ovs_vport_add (fun _ _ _ => 0) ops r parms) = ERR_PTR (- 97).
Proof.
  intros ops r parms.
  apply (vport_add_unsupported (fun _ _ _ => 0) ops r parms).
  repeat constructor; simpl; discriminate.
Defined.

(** ** Byte order *)

Lemma byte_at_range (d : list byte) (i : nat) : 0 <= byte_at d i < 256.
Proof. apply byte_val_range. Qed.

Lemma ntohs_load16 (h : host) (d : list byte) (off : nat) :
  ntohs h (load16 h d off) = be16 d off.
Proof.
  pose proof (byte_at_range d off) as Ha.
  pose proof (byte_at_range d (S off)) as Hb.
  unfold ntohs, htons, load16, be16, bswap16, wrap16.
  destruct (little_endian h).
  - change (2 ^ 16) with 65536 in *. Z.div_mod_to_equations. lia.
  - change (2 ^ 16) with 65536 in *. Z.div_mod_to_equations. lia.
Qed.

Lemma htons_be16 (h : host) (d : list byte) (off : nat) :
  htons h (be16 d off) = load16 h d off.
Proof.
  pose proof (byte_at_range d off) as Ha.
  pose proof (byte_at_range d (S off)) as Hb.
  unfold htons, load16, be16, bswap16, wrap16.
  destruct (little_endian h).
  - Z.div_mod_to_equations. lia.
  - change (2 ^ 16) with 65536 in *. Z.div_mod_to_equations. lia.
Qed.

Lemma htons_htons (h : host) (x : Z) : htons h (htons h x) = wrap16 x.
Proof.
  unfold htons, bswap16, wrap16. change (2 ^ 16) with 65536.
  destruct (little_endian h); Z.div_mod_to_equations; lia.
Qed.

(** A field holds [htons(c)] exactly when its bytes spell [c]. *)
Lemma load16_eqb_htons (h : host) (d : list byte) (off : nat) (c : Z) :
  0 <= c < 65536 ->
  (load16 h d off =? htons h c) = (be16 d off =? c).
Proof.
  intros Hc.
  destruct (Z.eqb_spec (be16 d off) c) as [E|E].
  - apply Z.eqb_eq. rewrite <- E. symmetry. apply htons_be16.
  - apply Z.eqb_neq. intros E'. apply E.
    rewrite <- ntohs_load16 with (h := h), E'. unfold ntohs.
    rewrite htons_htons. unfold wrap16. apply Z.mod_small.
    change (2 ^ 16) with 65536. lia.
Qed.

Lemma land_pow2 (x n : Z) :
  0 <= n -> Z.land x (2 ^ n) = if Z.testbit x n then 2 ^ n else 0.
Proof.
  intros Hn. apply Z.bits_inj'. intros m Hm.
  rewrite Z.land_spec, Z.pow2_bits_eqb by exact Hn.
  destruct (Z.eqb_spec n m) as [->|Hne].
  - destruct (Z.testbit x m).
    + rewrite Z.pow2_bits_eqb, Z.eqb_refl by exact Hm. reflexivity.
    + rewrite Z.bits_0. reflexivity.
  - rewrite andb_false_r.
    destruct (Z.testbit x n).
    + rewrite Z.pow2_bits_eqb by exact Hn.
      symmetry. apply Z.eqb_neq. exact Hne.
    + rewrite Z.bits_0. reflexivity.
Qed.

Lemma testbit_low_byte (a b k : Z) :
  0 <= a < 256 -> 0 <= k < 8 ->
  Z.testbit (a + b * 256) k = Z.testbit a k.
Proof.
  intros Ha Hk.
  rewrite <- (Z.mod_pow2_bits_low (a + b * 256) 8 k) by lia.
  change (2 ^ 8) with 256. rewrite Z_mod_plus_full.
  rewrite Z.mod_small by exact Ha. reflexivity.
Qed.

Lemma testbit_high_byte (a b k : Z) :
  0 <= b < 256 -> 0 <= k ->
  Z.testbit (a * 256 + b) (k + 8) = Z.testbit a k.
Proof.
  intros Hb Hk.
  rewrite <- (Z.div_pow2_bits (a * 256 + b) 8 k) by lia.
  change (2 ^ 8) with 256.
  replace ((a * 256 + b) / 256) with a by (Z.div_mod_to_equations; lia).
  reflexivity.
Qed.

(** The test [frag_off & htons(IP_DF)] of [ovs_vport_send] reads the
    don't-fragment bit of the wire format on either byte order. *)
Lemma df_test (h : host) (d : list byte) (iph : nat) :
  negb (Z.land (load16 h d (iph + 6)) (htons h IP_DF) =? 0) = wire_df d iph.
Proof.
  pose proof (byte_at_range d (iph + 6)) as Ha.
  pose proof (byte_at_range d (S (iph + 6))) as Hb.
  unfold wire_df, load16, htons. destruct (little_endian h).
  - change (bswap16 IP_DF) with (2 ^ 6).
    rewrite land_pow2, testbit_low_byte by lia.
    destruct (Z.testbit (byte_at d (iph + 6)) 6); reflexivity.
  - change (wrap16 IP_DF) with (2 ^ 14).
    rewrite land_pow2 by lia. change 14 with (6 + 8).
    rewrite testbit_high_byte by lia.
    destruct (Z.testbit (byte_at d (iph + 6)) 6); reflexivity.
Qed.

(** ** The decision of [ovs_vport_send] *)

(** C1: an untagged IPv4 packet without a fragment-size override, on a
    port with a nonzero MTU, is sent directly when its don't-fragment bit
    is set, whatever its size; otherwise it is sent directly when its total
    length is at most the MTU and is handed to [ovs_vport_fragment] when
    the total length is larger. *)
Theorem send_plain_ipv4 (h : host) (fuel : nat) (w : world) (skb : sk_buff) :
  cb_frag_max_size (skb_cb skb) = 0 ->
  send_mtu (w_vport w) <> 0 ->
  be16 (skb_data skb) (mac_header skb + 12) = ETH_P_IP ->
  ovs_vport_send h fuel w skb =
  if wire_df (skb_data skb) (network_header skb)
  then Some (__ovs_vport_send h w skb)
  else if wire_tot_len (skb_data skb) (network_header skb)
          <=? send_mtu (w_vport w)
       then Some (__ovs_vport_send h w skb)
       else ovs_vport_fragment h fuel w skb 0 (send_mtu (w_vport w)).
Proof.
  intros Hfms Hmtu Hip. unfold ovs_vport_send.
  rewrite Hfms. simpl (0 <? 0).
  apply Z.eqb_neq in Hmtu. rewrite Hmtu.
  unfold eth_h_proto. rewrite load16_eqb_htons by (unfold ETH_P_IP; lia).
  rewrite Hip, Z.eqb_refl.
  unfold ip_frag_off. rewrite df_test.
  destruct (wire_df (skb_data skb) (network_header skb)); [reflexivity|].
  unfold ip_tot_len. rewrite ntohs_load16. unfold wire_tot_len.
  rewrite Z.leb_antisym.
  destruct (send_mtu (w_vport w) <? be16 (skb_data skb) (network_header skb + 2));
    reflexivity.
Qed.

(** At the boundary: with an MTU of 50, the 50-byte packet goes out whole
    and the 51-byte packet is fragmented. *)
Lemma send_plain_ipv4_witness :
  let h := Sample.the_host in
  let w := Sample.a_world 50 in
  (ovs_vport_send h 9 w (Sample.plain 50 0 0)
   = Some (__ovs_vport_send h w (Sample.plain 50 0 0))) /\
  (ovs_vport_send h 9 w (Sample.plain 51 0 0)
   = ovs_vport_fragment h 9 w (Sample.plain 51 0 0) 0 50) /\
  (ovs_vport_send h 9 w (Sample.plain 51 0x4000 0)
   = Some (__ovs_vport_send h w (Sample.plain 51 0x4000 0))).
Proof.
  intros h w.
  assert (Hmtu : send_mtu (w_vport w) <> 0) by (vm_compute; discriminate).
  assert (Hip : forall len frag,
             be16 (skb_data (Sample.plain len frag 0))
                  (mac_header (Sample.plain len frag 0) + 12) = ETH_P_IP)
    by (intros; vm_compute; reflexivity).
  split; [|split].
  - rewrite (send_plain_ipv4 h 9 w (Sample.plain 50 0 0) eq_refl Hmtu (Hip _ _)).
    vm_compute. reflexivity.
  - rewrite (send_plain_ipv4 h 9 w (Sample.plain 51 0 0) eq_refl Hmtu (Hip _ _)).
    vm_compute. reflexivity.
  - rewrite (send_plain_ipv4 h 9 w (Sample.plain 51 0x4000 0) eq_refl Hmtu
               (Hip _ _)).
    vm_compute. reflexivity.
Defined.



(** ** VLAN-tagged packets *)

(** The branch of [ovs_vport_send] for an oversize tagged IPv4 packet
    without the don't-fragment bit: the result hangs on [ovs_vlan_untag]. *)
Lemma send_tagged_ipv4 (h : host) (fuel : nat) (w : world) (skb : sk_buff) :
  cb_frag_max_size (skb_cb skb) = 0 ->
  send_mtu (w_vport w) <> 0 ->
  be16 (skb_data skb) (mac_header skb + 12) = ETH_P_8021Q ->
  be16 (skb_data skb) (mac_header skb + 16) = ETH_P_IP ->
  wire_df (skb_data skb) (network_header skb) = false ->
  send_mtu (w_vport w) < wire_tot_len (skb_data skb) (network_header skb) ->
  ovs_vport_send h fuel w skb =
  match ovs_vlan_untag h skb with
  | None => Some (0, w)
  | Some skb' => ovs_vport_fragment h fuel w skb' 0 (send_mtu (w_vport w))
  end.
Proof.
  intros Hfms Hmtu Hq Hip Hdf Hbig. unfold ovs_vport_send.
  rewrite Hfms. simpl (0 <? 0).
  apply Z.eqb_neq in Hmtu. rewrite Hmtu.
  unfold eth_h_proto, h_vlan_encapsulated_proto, ntohs.
  rewrite !load16_eqb_htons by (unfold ETH_P_IP, ETH_P_8021Q; lia).
  rewrite Hq, Hip. simpl (ETH_P_8021Q =? ETH_P_IP).
  rewrite !Z.eqb_refl.
  unfold ip_frag_off. rewrite df_test, Hdf.
  unfold ip_tot_len. fold (ntohs h). rewrite ntohs_load16.
  apply Z.ltb_lt in Hbig. unfold wire_tot_len in Hbig. rewrite Hbig.
  reflexivity.
Qed.

(** What [memmove] and [skb_pull] of [ovs_vlan_untag] do to the bytes:
    the four bytes of the tag go. *)
Lemma untag_bytes (d : list byte) :
  (16 <= length d)%nat ->
  skipn 4 (mem_write d 4 (firstn 12 d)) = firstn 12 d ++ skipn 16 d.
Proof.
  intros Hlen. unfold mem_write.
  rewrite length_firstn, (Nat.min_l 12) by lia.
  rewrite firstn_firstn, (Nat.min_r (length d - 4)) by lia.
  rewrite skipn_app, length_firstn, (Nat.min_l 4) by lia.
  rewrite skipn_all2 by (rewrite length_firstn; lia).
  reflexivity.
Qed.

Lemma put_tag_present (skb : sk_buff) (proto tci : Z) :
  vlan_tx_tag_present (__vlan_hwaccel_put_tag skb proto tci) = true.
Proof.
  unfold vlan_tx_tag_present, __vlan_hwaccel_put_tag. cbn [vlan_tci].
  change VLAN_TAG_PRESENT with (2 ^ 12).
  rewrite land_pow2 by lia. rewrite Z.lor_spec.
  rewrite Z.pow2_bits_true by lia. reflexivity.
Qed.

(** [ovs_vlan_untag] on a tagged frame fails exactly when [skb_cow_head]
    does. *)
Lemma vlan_untag_result (h : host) (skb : sk_buff) :
  be16 (skb_data skb) (mac_header skb + 12) = ETH_P_8021Q ->
  (cow_head_ok h skb = false -> ovs_vlan_untag h skb = None) /\
  (cow_head_ok h skb = true ->
   exists skb', ovs_vlan_untag h skb = Some skb' /\
                skb_id skb' = skb_id skb /\
                vlan_tx_tag_present skb' = true /\
                (mac_header skb = 0%nat -> (16 <= skb_len skb)%nat ->
                 skb_data skb' = firstn 12 (skb_data skb)
                                 ++ skipn 16 (skb_data skb))).
Proof.
  intros Hq. unfold ovs_vlan_untag, eth_h_proto.
  rewrite load16_eqb_htons by (unfold ETH_P_8021Q; lia).
  rewrite Hq, Z.eqb_refl. simpl (negb true).
  split; intros Hcow; rewrite Hcow; simpl (negb _); [reflexivity|].
  eexists. split; [reflexivity|]. split; [reflexivity|]. split.
  - apply put_tag_present.
  - intros Hmac Hlen.
    unfold __vlan_hwaccel_put_tag, skb_reset_mac_header, skb_pull, set_data.
    cbn [skb_data mac_header]. rewrite Hmac.
    apply untag_bytes. exact Hlen.
Qed.

(** C5 (where the code departs from the claim): when [skb_cow_head] fails
    for an oversize tagged IPv4 packet without the don't-fragment bit,
    [ovs_vport_send] returns 0 and leaves the state exactly as it was: no
    back end is called and no counter moves, but neither is the buffer
    released. *)
Theorem send_untag_failure_keeps_buffer (h : host) (fuel : nat) (w : world)
    (skb : sk_buff) :
  cb_frag_max_size (skb_cb skb) = 0 ->
  send_mtu (w_vport w) <> 0 ->
  be16 (skb_data skb) (mac_header skb + 12) = ETH_P_8021Q ->
  be16 (skb_data skb) (mac_header skb + 16) = ETH_P_IP ->
  wire_df (skb_data skb) (network_header skb) = false ->
  send_mtu (w_vport w) < wire_tot_len (skb_data skb) (network_header skb) ->
  cow_head_ok h skb = false ->
  ovs_vport_send h fuel w skb = Some (0, w).
Proof.
  intros Hfms Hmtu Hq Hip Hdf Hbig Hcow.
  rewrite send_tagged_ipv4 by assumption.
  destruct (vlan_untag_result h skb Hq) as [Hnone _].
  rewrite (Hnone Hcow). reflexivity.
Qed.

(** The failing input: a tagged 50-byte packet on a port with MTU 36 when
    the head cannot be made writable.  The buffer is released zero times. *)
Lemma send_untag_failure_keeps_buffer_witness :
  let h := Sample.a_host (fun _ => true) false in
  let w := Sample.a_world 36 in
  let skb := Sample.tagged 50 0 in
  ovs_vport_send h 9 w skb = Some (0, w) /\ released w skb = 0%nat.
Proof.
  intros h w skb. split.
  - apply (send_untag_failure_keeps_buffer h 9 w skb).
    + reflexivity.
    + vm_compute. discriminate.
    + vm_compute. reflexivity.
    + vm_compute. reflexivity.
    + vm_compute. reflexivity.
    + vm_compute. reflexivity.
    + reflexivity.
  - reflexivity.
Defined.

(** When the head can be made writable, the same packet is stripped of its
    tag and fragmented, each fragment carrying the tag out of band, and the
    buffer is released once. *)
Example send_tagged_sample :
  let h := Sample.the_host in
  let w := Sample.a_world 36 in
  let skb := Sample.tagged 50 0 in
  option_map (fun r => (map (fun f => (skb_len f, vlan_tx_tag_get f))
                            (w_sent (snd r)),
                        released (snd r) skb))
             (ovs_vport_send h 9 w skb)
  = Some ([(50%nat, 5); (48%nat, 5)], 1%nat).
Proof. vm_compute. reflexivity. Qed.

(** ** Allocation failure in [ovs_vport_fragment] *)

(** C4 (where the code departs from the claim): when the allocation of a
    fragment fails, the loop of [ovs_vport_fragment] ends at once with the
    result of the send before it (initially 0); what was sent stands and no
    counter moves, but the function returns before its [kfree_skb], so the
    original buffer is not released. *)
Theorem fragment_alloc_failure_keeps_buffer (h : host) (fuel : nat)
    (w : world) (skb : sk_buff)
    (ip_hlen frag_max flag left frag_off sent : Z) :
  0 < left ->
  alloc_ok h (w_allocs w) = false ->
  exists w',
    fragment_loop h (S fuel) w skb ip_hlen frag_max flag left frag_off sent
    = Some (sent, w') /\
    w_sent w' = w_sent w /\
    w_vport w' = w_vport w /\
    w_freed w' = w_freed w /\
    released w' skb = released w skb.
Proof.
  intros Hleft Hfail. apply Z.ltb_lt in Hleft.
  simpl. rewrite Hleft. unfold alloc_skb. rewrite Hfail.
  eexists. split; [reflexivity|]. repeat split.
Qed.

(** The failing input: a 50-byte packet on a port with MTU 36 when no
    buffer can be had.  The function returns 0 and the packet is released
    zero times. *)
Lemma fragment_alloc_failure_keeps_buffer_witness :
  let h := Sample.a_host (fun _ => false) true in
  let w := Sample.a_world 36 in
  let skb := Sample.plain 50 0 0 in
  exists w', ovs_vport_fragment h 9 w skb 0 36 = Some (0, w') /\
             released w' skb = 0%nat.
Proof.
  intros h w skb.
  assert (Hleft : 0 < 30) by lia.
  destruct (fragment_alloc_failure_keeps_buffer h 8 w skb 20 16 0 30 0 0
              Hleft eq_refl) as (w' & Hrun & _ & _ & _ & Hrel).
  exists w'. split.
  - rewrite <- Hrun. vm_compute. reflexivity.
  - rewrite Hrel. reflexivity.
Defined.

(** The same packet when the second allocation fails: the first fragment
    is sent and its result (50) returned; the packet is not released. *)
Example fragment_second_alloc_fails :
  let h := Sample.a_host (fun n => Nat.eqb n 1) true in
  let w := Sample.a_world 36 in
  let skb := Sample.plain 50 0 0 in
  option_map (fun r => (fst r, map skb_len (w_sent (snd r)),
                        released (snd r) skb))
             (ovs_vport_fragment h 9 w skb 0 36)
  = Some (50, [50%nat], 0%nat).
Proof. vm_compute. reflexivity. Qed.

(** ** Memory writes *)

Lemma mem_write_length (d : list byte) (off : nat) (src : list byte) :
  length (mem_write d off src) = length d.
Proof.
  unfold mem_write.
  rewrite !length_app, !length_firstn, length_skipn. lia.
Qed.

Lemma mem_write_in (d : list byte) (off : nat) (src : list byte) :
  (off + length src <= length d)%nat ->
  mem_write d off src = firstn off d ++ src ++ skipn (off + length src) d.
Proof.
  intros H. unfold mem_write. rewrite (firstn_all2 src) by lia. reflexivity.
Qed.

Lemma mem_write_app_l (a b : list byte) (off : nat) (src : list byte) :
  (off + length src <= length a)%nat ->
  mem_write (a ++ b) off src = mem_write a off src ++ b.
Proof.
  intros H.
  rewrite !mem_write_in by (rewrite ?length_app; lia).
  rewrite firstn_app, skipn_app.
  replace (off - length a)%nat with 0%nat by lia.
  replace (off + length src - length a)%nat with 0%nat by lia.
  simpl. rewrite app_nil_r, <- !app_assoc. reflexivity.
Qed.

(** A copy to the start of the data that fills exactly what was pushed. *)
Lemma mem_write_pushed (n : nat) (t src : list byte) :
  length src = n ->
  mem_write (repeat x00 n ++ t) 0 src = src ++ t.
Proof.
  intros H.
  rewrite mem_write_in by (rewrite length_app, repeat_length; lia).
  simpl. rewrite skipn_app, repeat_length, H.
  rewrite skipn_all2 by (rewrite repeat_length; lia).
  rewrite Nat.sub_diag. reflexivity.
Qed.

Lemma nth_mem_write_other (d : list byte) (off : nat) (src : list byte)
    (i : nat) :
  (off + length src <= length d)%nat ->
  (i < off \/ off + length src <= i)%nat ->
  nth i (mem_write d off src) x00 = nth i d x00.
Proof.
  intros Hin Hi. rewrite mem_write_in by exact Hin.
  assert (Hf : length (firstn off d) = off) by (rewrite length_firstn; lia).
  destruct Hi as [Hi|Hi].
  - rewrite app_nth1 by lia. rewrite nth_firstn.
    apply Nat.ltb_lt in Hi. rewrite Hi. reflexivity.
  - rewrite app_nth2 by lia. rewrite app_nth2 by lia.
    rewrite nth_skipn. f_equal. lia.
Qed.

Lemma nth_mem_write_in (d : list byte) (off : nat) (src : list byte)
    (i : nat) :
  (off + length src <= length d)%nat ->
  (i < length src)%nat ->
  nth (off + i) (mem_write d off src) x00 = nth i src x00.
Proof.
  intros Hin Hi. rewrite mem_write_in by exact Hin.
  assert (Hf : length (firstn off d) = off) by (rewrite length_firstn; lia).
  rewrite app_nth2 by lia. rewrite app_nth1 by lia. f_equal. lia.
Qed.

Lemma mem_write_mid (a s1 s2 c : list byte) (off : nat) :
  length a = off -> length s1 = length s2 ->
  mem_write (a ++ s1 ++ c) off s2 = a ++ s2 ++ c.
Proof.
  intros Ha Hs.
  rewrite mem_write_in by (rewrite !length_app; lia).
  assert (H1 : firstn off (a ++ s1 ++ c) = a).
  { rewrite firstn_app, (@firstn_all2 _ off a) by lia.
    replace (off - length a)%nat with 0%nat by lia.
    simpl. apply app_nil_r. }
  assert (H2 : skipn (off + length s2) (a ++ s1 ++ c) = c).
  { rewrite skipn_app, (@skipn_all2 _ _ a) by lia.
    replace (off + length s2 - length a)%nat with (length s1) by lia.
    simpl. rewrite skipn_app, (@skipn_all2 _ _ s1) by lia.
    rewrite Nat.sub_diag. reflexivity. }
  rewrite H1, H2. reflexivity.
Qed.

Lemma mem_write_twice (d : list byte) (off : nat) (s1 s2 : list byte) :
  (off + length s1 <= length d)%nat ->
  length s1 = length s2 ->
  mem_write (mem_write d off s1) off s2 = mem_write d off s2.
Proof.
  intros Hin Hl.
  rewrite (mem_write_in d off s1), (mem_write_in d off s2) by lia.
  rewrite mem_write_mid by (rewrite ?length_firstn; lia).
  rewrite Hl. reflexivity.
Qed.

Lemma byte_at_mem_write_other (d : list byte) (off : nat) (src : list byte)
    (i : nat) :
  (off + length src <= length d)%nat ->
  (i < off \/ off + length src <= i)%nat ->
  byte_at (mem_write d off src) i = byte_at d i.
Proof.
  intros Hin Hi. unfold byte_at.
  rewrite nth_mem_write_other by assumption. reflexivity.
Qed.

Lemma be16_mem_write_other (d : list byte) (off : nat) (src : list byte)
    (i : nat) :
  (off + length src <= length d)%nat ->
  (i + 2 <= off \/ off + length src <= i)%nat ->
  be16 (mem_write d off src) i = be16 d i.
Proof.
  intros Hin Hi. unfold be16.
  rewrite !byte_at_mem_write_other by (assumption || lia). reflexivity.
Qed.

Lemma be16_mem_write (d : list byte) (off : nat) (x y : byte) :
  (off + 2 <= length d)%nat ->
  be16 (mem_write d off [x; y]) off = byte_val x * 256 + byte_val y.
Proof.
  intros Hin. unfold be16, byte_at.
  pose proof (nth_mem_write_in d off [x; y] 0) as H0.
  pose proof (nth_mem_write_in d off [x; y] 1) as H1.
  rewrite Nat.add_0_r in H0. rewrite Nat.add_1_r in H1.
  rewrite H0, H1 by (simpl; lia). reflexivity.
Qed.

Lemma byte_at_app_l (a b : list byte) (i : nat) :
  (i < length a)%nat -> byte_at (a ++ b) i = byte_at a i.
Proof. intros H. unfold byte_at. rewrite app_nth1 by exact H. reflexivity. Qed.

Lemma byte_at_app_r (a b : list byte) (i : nat) :
  byte_at (a ++ b) (length a + i) = byte_at b i.
Proof.
  unfold byte_at. rewrite app_nth2 by lia. f_equal. f_equal. lia.
Qed.

Lemma be16_app_l (a b : list byte) (i : nat) :
  (i + 2 <= length a)%nat -> be16 (a ++ b) i = be16 a i.
Proof.
  intros H. unfold be16. rewrite !byte_at_app_l by lia. reflexivity.
Qed.

Lemma be16_app_r (a b : list byte) (i : nat) :
  be16 (a ++ b) (length a + i) = be16 b i.
Proof.
  unfold be16. rewrite <- Nat.add_succ_r, !byte_at_app_r. reflexivity.
Qed.

(** ** Stores of 16-bit fields *)

Lemma store16_write (h : host) (d : list byte) (off : nat) (v : Z) :
  exists x y, store16 h d off v = mem_write d off [x; y].
Proof.
  unfold store16. destruct (little_endian h); eexists; eexists; reflexivity.
Qed.

Lemma store16_length (h : host) (d : list byte) (off : nat) (v : Z) :
  length (store16 h d off v) = length d.
Proof.
  destruct (store16_write h d off v) as (x & y & ->). apply mem_write_length.
Qed.

Lemma store16_app_l (h : host) (a b : list byte) (off : nat) (v : Z) :
  (off + 2 <= length a)%nat ->
  store16 h (a ++ b) off v = store16 h a off v ++ b.
Proof.
  intros H. unfold store16.
  destruct (little_endian h); apply mem_write_app_l; simpl; lia.
Qed.

Lemma store16_twice (h : host) (d : list byte) (off : nat) (v1 v2 : Z) :
  (off + 2 <= length d)%nat ->
  store16 h (store16 h d off v1) off v2 = store16 h d off v2.
Proof.
  intros H. unfold store16.
  destruct (little_endian h); apply mem_write_twice; simpl; lia.
Qed.

Lemma be16_store16 (h : host) (d : list byte) (off : nat) (v : Z) :
  (off + 2 <= length d)%nat ->
  be16 (store16 h d off v) off = ntohs h v.
Proof.
  intros H. unfold store16, ntohs, htons.
  destruct (little_endian h); rewrite be16_mem_write by exact H;
    rewrite !byte_val_of.
  - reflexivity.
  - unfold wrap16. change (2 ^ 16) with 65536.
    Z.div_mod_to_equations. lia.
Qed.

Lemma load16_store16 (h : host) (d : list byte) (off : nat) (v : Z) :
  (off + 2 <= length d)%nat ->
  load16 h (store16 h d off v) off = wrap16 v.
Proof.
  intros H. rewrite <- htons_be16, be16_store16 by exact H.
  unfold ntohs. apply htons_htons.
Qed.

Lemma be16_store16_other (h : host) (d : list byte) (off i : nat) (v : Z) :
  (off + 2 <= length d)%nat ->
  (i + 2 <= off \/ off + 2 <= i)%nat ->
  be16 (store16 h d off v) i = be16 d i.
Proof.
  intros Hin Hi. destruct (store16_write h d off v) as (x & y & ->).
  apply be16_mem_write_other; simpl; lia.
Qed.

Lemma byte_at_store16_other (h : host) (d : list byte) (off i : nat) (v : Z) :
  (off + 2 <= length d)%nat ->
  (i < off \/ off + 2 <= i)%nat ->
  byte_at (store16 h d off v) i = byte_at d i.
Proof.
  intros Hin Hi. destruct (store16_write h d off v) as (x & y & ->).
  apply byte_at_mem_write_other; simpl; lia.
Qed.

Lemma wrap16_land (x : Z) : wrap16 x = Z.land x (Z.ones 16).
Proof. unfold wrap16. symmetry. apply Z.land_ones. lia. Qed.

Lemma wrap16_lor (x y : Z) : wrap16 (Z.lor x y) = Z.lor (wrap16 x) (wrap16 y).
Proof. rewrite !wrap16_land. apply Z.land_lor_distr_l. Qed.

Lemma bswap16_testbit (x m : Z) :
  0 <= m ->
  Z.testbit (bswap16 x) m
  = if m <? 8 then Z.testbit x (m + 8)
    else if m <? 16 then Z.testbit x (m - 8) else false.
Proof.
  intros Hm. unfold bswap16.
  assert (Hlo : 0 <= (x / 256) mod 256 < 256) by (apply Z.mod_pos_bound; lia).
  destruct (Z.ltb_spec m 8) as [H8|H8].
  - rewrite Z.add_comm, testbit_low_byte by lia.
    change 256 with (2 ^ 8).
    rewrite Z.mod_pow2_bits_low by lia.
    apply Z.div_pow2_bits; lia.
  - replace m with (m - 8 + 8) at 1 by lia.
    rewrite testbit_high_byte by lia.
    change 256 with (2 ^ 8).
    destruct (Z.ltb_spec m 16) as [H16|H16].
    + apply Z.mod_pow2_bits_low. lia.
    + apply Z.mod_pow2_bits_high. lia.
Qed.

Lemma bswap16_lor (x y : Z) :
  bswap16 (Z.lor x y) = Z.lor (bswap16 x) (bswap16 y).
Proof.
  apply Z.bits_inj'. intros m Hm.
  rewrite Z.lor_spec, !bswap16_testbit by exact Hm.
  destruct (m <? 8); [|destruct (m <? 16)];
    rewrite ?Z.lor_spec; reflexivity.
Qed.

Lemma ntohs_lor (h : host) (x y : Z) :
  ntohs h (Z.lor x y) = Z.lor (ntohs h x) (ntohs h y).
Proof.
  unfold ntohs, htons. destruct (little_endian h).
  - apply bswap16_lor.
  - apply wrap16_lor.
Qed.

Lemma ntohs_wrap16 (h : host) (x : Z) : ntohs h (wrap16 x) = ntohs h x.
Proof.
  unfold ntohs, htons, bswap16, wrap16. change (2 ^ 16) with 65536.
  destruct (little_endian h); Z.div_mod_to_equations; lia.
Qed.

(** The value the two stores of lines 476 and 477 leave on the wire. *)
Lemma frag_off_stores (h : host) (d : list byte) (off : nat) (a flag : Z) :
  (off + 2 <= length d)%nat ->
  let d1 := store16 h d off (htons h a) in
  let d2 := store16 h d1 off (Z.lor (load16 h d1 off) (htons h flag)) in
  d2 = store16 h d off (Z.lor (load16 h d1 off) (htons h flag)) /\
  be16 d2 off = Z.lor (wrap16 a) (wrap16 flag).
Proof.
  intros Hin d1 d2. subst d2.
  assert (Hd1 : d1 = store16 h d off (htons h a)) by reflexivity.
  clearbody d1. subst d1.
  rewrite store16_twice by exact Hin. split; [reflexivity|].
  rewrite be16_store16, load16_store16 by exact Hin.
  rewrite ntohs_lor, ntohs_wrap16. unfold ntohs. rewrite !htons_htons.
  reflexivity.
Qed.

(** ** One fragment *)

Lemma load16_app_l (h : host) (a b : list byte) (off : nat) :
  (off + 2 <= length a)%nat -> load16 h (a ++ b) off = load16 h a off.
Proof.
  intros H. unfold load16. rewrite !byte_at_app_l by lia. reflexivity.
Qed.

Lemma ip_send_check_write (d : list byte) (iph : nat) :
  (iph + 12 <= length d)%nat ->
  exists x y, ip_send_check d iph = mem_write d (iph + 10) [x; y].
Proof.
  intros H. unfold ip_send_check. eexists. eexists.
  apply mem_write_twice; simpl; lia.
Qed.

Lemma skb_copy_bits_ok (src : sk_buff) (offset : nat) (dst : sk_buff)
    (len : nat) :
  (offset + len <= skb_len src)%nat ->
  skb_copy_bits src offset dst len
  = set_data dst (mem_write (skb_data dst) 0
                    (firstn len (skipn offset (skb_data src)))).
Proof.
  intros H. unfold skb_copy_bits. apply Nat.leb_le in H. rewrite H.
  reflexivity.
Qed.

Lemma build_frag_id (h : host) (skb frag : sk_buff)
    (ip_hlen flag frag_off frag_len : Z) :
  skb_id (build_frag h skb frag ip_hlen flag frag_off frag_len) = skb_id frag.
Proof.
  unfold build_frag, skb_copy_bits. cbv zeta.
  repeat match goal with
         | |- context [if ?c then _ else _] => destruct c
         end; reflexivity.
Qed.

(** The bytes of the fragment built in one turn of the loop, when the
    packet holds the payload asked for: the Ethernet header of the packet,
    an IPv4 header [hdr] as long as the packet's and with its first byte,
    the payload slice. *)
Lemma build_frag_data (h : host) (skb frag : sk_buff)
    (ip_hlen flag frag_off frag_len : Z) :
  20 <= ip_hlen -> 0 <= frag_off -> 0 <= frag_len ->
  (ETH_HLEN + Z.to_nat ip_hlen + Z.to_nat frag_off + Z.to_nat frag_len
   <= skb_len skb)%nat ->
  skb_data frag = [] ->
  exists hdr,
    skb_data (build_frag h skb frag ip_hlen flag frag_off frag_len)
    = firstn ETH_HLEN (skb_data skb) ++ hdr
      ++ firstn (Z.to_nat frag_len)
           (skipn (ETH_HLEN + Z.to_nat ip_hlen + Z.to_nat frag_off)
                  (skb_data skb)) /\
    length hdr = Z.to_nat ip_hlen /\
    byte_at hdr 0 = byte_at (skb_data skb) ETH_HLEN /\
    be16 hdr 2 = wrap16 (wrap32 (ip_hlen + frag_len)) /\
    be16 hdr 6 = Z.lor (wrap16 (Z.land (Z.shiftr frag_off 3) IP_OFFSET))
                       (wrap16 flag).
Proof.
  intros Hh Ho Hn Hlen Hempty.
  unfold build_frag. cbv zeta.
  rewrite !skb_copy_bits_ok by lia.
  assert (Hd : forall s,
             skb_data (if vlan_tx_tag_present skb
                       then __vlan_hwaccel_put_tag s (vlan_proto skb)
                                                   (vlan_tx_tag_get skb)
                       else s) = skb_data s)
    by (intros s; destruct (vlan_tx_tag_present skb); reflexivity).
  rewrite Hd. clear Hd.
  cbn [skb_data set_data skb_push skb_reset_network_header
       skb_reset_mac_header set_cb network_header].
  rewrite Hempty. unfold skb_len in Hlen.
  change (0 + 2)%nat with 2%nat. change (0 + 6)%nat with 6%nat.
  change (skipn 0 (skb_data skb)) with (skb_data skb).
  set (d := skb_data skb) in *.
  set (pay := firstn (Z.to_nat frag_len)
                (skipn (ETH_HLEN + Z.to_nat ip_hlen + Z.to_nat frag_off) d)).
  set (hdr0 := firstn (Z.to_nat ip_hlen) (skipn ETH_HLEN d)).
  assert (Hpay : length pay = Z.to_nat frag_len)
    by (subst pay; rewrite length_firstn, length_skipn; lia).
  assert (Hhdr0 : length hdr0 = Z.to_nat ip_hlen)
    by (subst hdr0; rewrite length_firstn, length_skipn; lia).
  assert (Heth : length (firstn ETH_HLEN d) = ETH_HLEN)
    by (rewrite length_firstn; lia).
  rewrite (mem_write_pushed _ [] pay Hpay), app_nil_r.
  rewrite (mem_write_pushed _ pay hdr0 Hhdr0).
  set (v1 := htons h (wrap32 (ip_hlen + frag_len))).
  set (a := Z.land (Z.shiftr frag_off 3) IP_OFFSET).
  set (x2 := store16 h hdr0 2 v1).
  assert (Hx2 : length x2 = Z.to_nat ip_hlen)
    by (subst x2; rewrite store16_length; exact Hhdr0).
  rewrite (store16_app_l h hdr0 pay 2 v1) by lia. fold x2.
  rewrite (store16_app_l h x2 pay 6 (htons h a)) by lia.
  set (x3 := store16 h x2 6 (htons h a)).
  assert (Hx3 : length x3 = Z.to_nat ip_hlen)
    by (subst x3; rewrite store16_length; exact Hx2).
  rewrite (load16_app_l h x3 pay 6) by lia.
  rewrite (store16_app_l h x3 pay 6) by lia.
  set (x4 := store16 h x3 6 (Z.lor (load16 h x3 6) (htons h flag))).
  assert (Hx4 : length x4 = Z.to_nat ip_hlen)
    by (subst x4; rewrite store16_length; exact Hx3).
  destruct (ip_send_check_write (x4 ++ pay) 0) as (c1 & c2 & Hck);
    [rewrite length_app; lia|].
  rewrite Hck. simpl (0 + 10)%nat.
  rewrite (mem_write_app_l x4 pay 10) by (simpl; lia).
  rewrite (mem_write_pushed _ _ (firstn ETH_HLEN d) Heth).
  exists (mem_write x4 10 [c1; c2]).
  split; [reflexivity|]. split; [|split; [|split]].
  - rewrite mem_write_length. exact Hx4.
  - rewrite byte_at_mem_write_other by (simpl; lia).
    subst x4 x3 x2. rewrite !byte_at_store16_other
      by (rewrite ?store16_length; lia).
    subst hdr0. unfold byte_at. rewrite nth_firstn, nth_skipn.
    replace (0 <? Z.to_nat ip_hlen)%nat with true
      by (symmetry; apply Nat.ltb_lt; lia).
    rewrite Nat.add_0_r. reflexivity.
  - rewrite be16_mem_write_other by (simpl; lia).
    subst x4 x3. rewrite !be16_store16_other
      by (rewrite ?store16_length; lia).
    subst x2. rewrite be16_store16 by lia.
    subst v1. unfold ntohs. apply htons_htons.
  - rewrite be16_mem_write_other by (simpl; lia).
    destruct (frag_off_stores h x2 6 a flag) as [_ Hbe]; [lia|].
    exact Hbe.
Qed.

(** ** The loop of [ovs_vport_fragment] *)

Lemma send_frame (h : host) (w : world) (f : sk_buff) :
  let w' := snd (__ovs_vport_send h w f) in
  w_sent w' = w_sent w ++ [f] /\
  w_allocs w' = w_allocs w /\
  (w_freed w' = w_freed w \/ w_freed w' = skb_id f :: w_freed w).
Proof.
  unfold __ovs_vport_send.
  destruct (0 <? ops_send h w f); [|destruct (ops_send h w f <? 0)];
    simpl; auto.
Qed.

Lemma wrap32_small (x : Z) : 0 <= x < 2 ^ 32 -> wrap32 x = x.
Proof. intros H. unfold wrap32. apply Z.mod_small. exact H. Qed.

Lemma wrap16_small (x : Z) : 0 <= x < 2 ^ 16 -> wrap16 x = x.
Proof. intros H. unfold wrap16. apply Z.mod_small. exact H. Qed.

(** The flags kept in [flag]: the don't-fragment bit of the packet, with
    or without the more-fragments bit of the turn before. *)
Lemma flag_update (dfv flag : Z) (more : bool) :
  dfv = 0 \/ dfv = IP_DF ->
  flag = dfv \/ flag = Z.lor dfv IP_MF ->
  (if more then Z.lor flag IP_MF else Z.land flag (wrap32 (Z.lnot IP_MF)))
  = Z.lor dfv (if more then IP_MF else 0).
Proof.
  intros [-> | ->] [-> | ->]; destruct more; reflexivity.
Qed.

Lemma offset_field (off : Z) :
  0 <= off < 65536 ->
  wrap16 (Z.land (Z.shiftr off 3) IP_OFFSET) = off / 8.
Proof.
  intros H. change IP_OFFSET with (Z.ones 13).
  rewrite Z.land_ones, Z.shiftr_div_pow2 by lia.
  change (2 ^ 3) with 8. unfold wrap16.
  change (2 ^ 13) with 8192. change (2 ^ 16) with 65536.
  Z.div_mod_to_equations. lia.
Qed.

Lemma frame_byte_at (eth hdr pay : list byte) (i : nat) :
  length eth = ETH_HLEN -> (i < length hdr)%nat ->
  byte_at (eth ++ hdr ++ pay) (ETH_HLEN + i) = byte_at hdr i.
Proof.
  intros He Hi. rewrite <- He, byte_at_app_r, byte_at_app_l by exact Hi.
  reflexivity.
Qed.

Lemma frame_be16 (eth hdr pay : list byte) (i : nat) :
  length eth = ETH_HLEN -> (i + 2 <= length hdr)%nat ->
  be16 (eth ++ hdr ++ pay) (ETH_HLEN + i) = be16 hdr i.
Proof.
  intros He Hi. rewrite <- He, be16_app_r, be16_app_l by exact Hi.
  reflexivity.
Qed.

Section FragmentRun.

Variable h : host.
Variable skb : sk_buff.
Variables ip_hlen frag_max dfv : Z.

Hypothesis Halloc : forall n, alloc_ok h n = true.
Hypothesis Hhlen : 20 <= ip_hlen.
Hypothesis Hfmax : 0 < frag_max.
Hypothesis Hdfv : dfv = 0 \/ dfv = IP_DF.

(** With buffers to be had and room for payload in a fragment, the loop
    ends, hands the back end the chain of fragments, and releases the
    packet once. *)
Lemma fragment_loop_chain (fuel : nat) :
  forall (w : world) (flag left off sent : Z),
    0 <= left -> 0 <= off -> ip_hlen + off + left < 65536 ->
    (ETH_HLEN + Z.to_nat ip_hlen + Z.to_nat off + Z.to_nat left
     <= skb_len skb)%nat ->
    flag = dfv \/ flag = Z.lor dfv IP_MF ->
    left < Z.of_nat fuel ->
    exists ret w' frs,
      fragment_loop h fuel w skb ip_hlen frag_max flag left off sent
      = Some (ret, w') /\
      w_sent w' = w_sent w ++ frs /\
      frag_chain (skb_data skb) ip_hlen frag_max dfv off left frs /\
      ((skb_id skb < w_allocs w)%nat -> released w' skb = S (released w skb)).
Proof.
  induction fuel as [|fuel IH]; intros w flag left off sent Hl Ho Hsum Hlen
                                       Hflag Hfuel.
  - simpl in Hfuel. lia.
  - cbn [fragment_loop].
    destruct (Z.ltb_spec 0 left) as [Hpos|Hzero].
    + unfold alloc_skb. rewrite Halloc.
      set (more := frag_max <? left).
      set (n := if more then frag_max else left).
      assert (Hn : 0 < n <= left)
        by (subst n more; destruct (Z.ltb_spec frag_max left); lia).
      rewrite (flag_update dfv flag more Hdfv Hflag).
      set (frag0 := {| skb_id := w_allocs w; skb_data := [];
                       mac_header := 0; network_header := 0;
                       vlan_proto := 0; vlan_tci := 0;
                       skb_cb := {| cb_frag_max_size := 0 |} |}).
      set (flag' := Z.lor dfv (if more then IP_MF else 0)).
      set (frag := build_frag h skb frag0 ip_hlen flag' off n).
      set (w1 := {| w_vport := w_vport w; w_sent := w_sent w;
                    w_freed := w_freed w; w_allocs := S (w_allocs w) |}).
      destruct (send_frame h w1 frag) as (Hsent & Hallocs & Hfreed).
      destruct (__ovs_vport_send h w1 frag) as [s w2] eqn:Hsend.
      cbn [snd] in Hsent, Hallocs, Hfreed.
      rewrite (wrap32_small (left - n)), (wrap32_small (off + n)) by lia.
      destruct (IH w2 flag' (left - n) (off + n) s) as
          (ret & w' & frs & Hrun & Hfrs & Hchain & Hrel);
        try lia.
      { subst flag'. destruct more; [right|left]; try reflexivity.
        destruct Hdfv as [-> | ->]; reflexivity. }
      exists ret, w', (frag :: frs).
      split; [exact Hrun|]. split; [|split].
      * rewrite Hfrs, Hsent. subst w1. cbn [w_sent].
        rewrite <- app_assoc. reflexivity.
      * destruct (build_frag_data h skb frag0 ip_hlen flag' off n)
          as (hdr & Hdata & Hhdr & Hb0 & Htot & Hoff); try lia;
          [reflexivity|].
        fold frag in Hdata.
        assert (Heth : length (firstn ETH_HLEN (skb_data skb)) = ETH_HLEN)
          by (rewrite length_firstn; unfold skb_len in Hlen; lia).
        cbn [frag_chain]. fold more. fold n.
        split; [exact Hpos|]. rewrite Hdata.
        split; [|split; [|split; [|split; [|split; [|split]]]]].
        -- rewrite firstn_app, Heth, Nat.sub_diag, firstn_firstn, Nat.min_id.
           simpl. apply app_nil_r.
        -- rewrite !length_app, Heth, Hhdr, length_firstn, length_skipn.
           unfold skb_len in Hlen. lia.
        -- pose proof (frame_byte_at _ hdr
                         (firstn (Z.to_nat n)
                            (skipn (ETH_HLEN + Z.to_nat ip_hlen + Z.to_nat off)
                                   (skb_data skb))) 0 Heth) as Hb.
           rewrite Nat.add_0_r in Hb. rewrite Hb by lia. exact Hb0.
        -- rewrite frame_be16 by (exact Heth || lia). rewrite Htot.
           rewrite wrap32_small, wrap16_small;
             change (2 ^ 16) with 65536; change (2 ^ 32) with 4294967296;
             lia.
        -- rewrite frame_be16 by (exact Heth || lia). rewrite Hoff.
           rewrite offset_field by lia. f_equal.
           subst flag'. apply wrap16_small.
           change (2 ^ 16) with 65536.
           destruct Hdfv as [-> | ->]; destruct more;
             unfold IP_DF, IP_MF; cbn; lia.
        -- rewrite app_assoc, skipn_app.
           rewrite skipn_all2 by (rewrite length_app; lia).
           rewrite length_app, Heth, Hhdr, Nat.sub_diag. reflexivity.
        -- exact Hchain.
      * intros Hid.
        rewrite Hrel by (rewrite Hallocs; subst w1; cbn [w_allocs]; lia).
        f_equal. unfold released.
        destruct Hfreed as [-> | ->]; [reflexivity|].
        subst w1. cbn [w_freed count_occ].
        destruct (Nat.eq_dec (skb_id frag) (skb_id skb)) as [E|E];
          [|reflexivity].
        subst frag. rewrite build_frag_id in E. simpl in E. lia.
    + exists sent, (kfree_skb w skb), [].
      split; [reflexivity|]. split; [|split].
      * simpl. rewrite app_nil_r. reflexivity.
      * simpl. exact Hzero.
      * intros _. unfold released, kfree_skb. cbn [w_freed count_occ].
        destruct (Nat.eq_dec (skb_id skb) (skb_id skb)); [reflexivity|].
        congruence.
Qed.

End FragmentRun.

(** ** What the chain of fragments says *)

Lemma firstn_add {A : Type} (a b : nat) (l : list A) :
  firstn (a + b) l = firstn a l ++ firstn b (skipn a l).
Proof.
  rewrite <- (firstn_skipn a (firstn (a + b) l)).
  rewrite firstn_firstn, Nat.min_l by lia.
  rewrite firstn_skipn_comm. reflexivity.
Qed.

Lemma testbit_small (x n : Z) :
  0 <= n -> 0 <= x < 2 ^ n -> Z.testbit x n = false.
Proof.
  intros Hn Hx. apply Z.testbit_false; [exact Hn|].
  rewrite Z.div_small by exact Hx. reflexivity.
Qed.

(** Bit [k] of the first byte of a 16-bit field is bit [k + 8] of its
    value. *)
Lemma be16_testbit (d : list byte) (off : nat) (k : Z) :
  0 <= k ->
  Z.testbit (byte_at d off) k = Z.testbit (be16 d off) (k + 8).
Proof.
  intros Hk. unfold be16. symmetry. apply testbit_high_byte.
  - apply byte_at_range.
  - exact Hk.
Qed.

Section ChainFacts.

Variable d : list byte.
Variables ip_hlen frag_max dfv : Z.

Hypothesis Hihl : ip_hlen = wire_ihl d ETH_HLEN * 4.
Hypothesis Hfmax : 0 < frag_max.
Hypothesis Hfmax8 : frag_max mod 8 = 0.
Hypothesis Hdfv : dfv = 0 \/ dfv = IP_DF.

Local Abbreviation chain := (frag_chain d ip_hlen frag_max dfv).

(** The head of a chain: its header length, payload and flags. *)
Lemma chain_head (off left : Z) (f : sk_buff) (rest : list sk_buff) :
  chain off left (f :: rest) ->
  0 <= off -> off + left < 65536 ->
  let n := if frag_max <? left then frag_max else left in
  0 < n <= left /\
  wire_ihl (skb_data f) ETH_HLEN * 4 = ip_hlen /\
  wire_tot_len (skb_data f) ETH_HLEN = ip_hlen + n /\
  payload_of f
  = firstn (Z.to_nat n)
           (skipn (ETH_HLEN + Z.to_nat ip_hlen + Z.to_nat off) d) /\
  Z.of_nat (length (payload_of f)) = n /\
  wire_mf (skb_data f) ETH_HLEN = (frag_max <? left) /\
  wire_df (skb_data f) ETH_HLEN = negb (dfv =? 0) /\
  wire_frag_offset (skb_data f) ETH_HLEN = off / 8 /\
  (frag_max <? left) = negb (match rest with [] => true | _ => false end) /\
  chain (off + n) (left - n) rest.
Proof.
  intros Hc Ho Hsum. cbn [frag_chain] in Hc.
  destruct Hc as (Hpos & Heth & Hlen & Hb0 & Htot & Hfo & Hpay & Hrest).
  cbv zeta.
  set (n := if frag_max <? left then frag_max else left) in *.
  assert (Hn : 0 < n <= left)
    by (subst n; destruct (Z.ltb_spec frag_max left); lia).
  assert (Hi : wire_ihl (skb_data f) ETH_HLEN * 4 = ip_hlen)
    by (unfold wire_ihl; rewrite Hb0; symmetry; exact Hihl).
  assert (Hp : payload_of f
               = firstn (Z.to_nat n)
                   (skipn (ETH_HLEN + Z.to_nat ip_hlen + Z.to_nat off) d)).
  { unfold payload_of, ip_payload. unfold wire_tot_len at 1.
    rewrite Htot, Hi, Hpay.
    replace (Z.to_nat (ip_hlen + n - ip_hlen)) with (Z.to_nat n) by lia.
    rewrite firstn_firstn, Nat.min_id. reflexivity. }
  assert (Hq : Z.lor (off / 8)
                     (Z.lor dfv (if frag_max <? left then IP_MF else 0))
               = off / 8 + dfv + (if frag_max <? left then IP_MF else 0)
               /\ 0 <= off / 8 < 8192).
  { assert (Hr : 0 <= off / 8 < 8192) by (Z.div_mod_to_equations; lia).
    split; [|exact Hr].
    assert (Hb : forall m, 0 <= m -> 13 <= m -> Z.testbit (off / 8) m = false).
    { intros m _ Hm. apply Z.testbit_false; [lia|].
      rewrite Z.div_small; [reflexivity|].
      split; [lia|].
      apply Z.lt_le_trans with (2 ^ 13); [change (2 ^ 13) with 8192; lia|].
      apply Z.pow_le_mono_r; lia. }
    rewrite <- Z.add_assoc.
    assert (Hfl : exists k, 0 <= k < 4 /\
                  Z.lor dfv (if frag_max <? left then IP_MF else 0) = k * 2 ^ 13
                  /\ dfv + (if frag_max <? left then IP_MF else 0) = k * 2 ^ 13).
    { destruct Hdfv as [-> | ->]; destruct (frag_max <? left);
        [exists 1 | exists 0 | exists 3 | exists 2];
        repeat split; try lia; reflexivity. }
    destruct Hfl as (k & Hk & -> & ->).
    rewrite <- Z.shiftl_mul_pow2 by lia.
    rewrite <- Z.lxor_lor, <- Z.add_nocarry_lxor; try reflexivity;
      apply Z.bits_inj'; intros m Hm;
      rewrite Z.land_spec, Z.bits_0;
      destruct (Z.ltb_spec m 13) as [Hlt|Hge];
      try (rewrite Z.shiftl_spec_low by lia; apply andb_false_r);
      rewrite Hb by lia; reflexivity. }
  destruct Hq as [Hq Hr]. rewrite Hq in Hfo.
  split; [exact Hn|]. split; [exact Hi|]. split; [exact Htot|].
  split; [exact Hp|]. split; [|split; [|split; [|split; [|split]]]].
  - unfold payload_of, ip_payload. unfold wire_tot_len at 1.
    rewrite Htot, Hi, length_firstn, length_skipn, Hlen. lia.
  - unfold wire_mf. rewrite be16_testbit, Hfo by lia.
    apply eq_true_iff_eq. rewrite Z.testbit_true by lia.
    change (2 ^ (5 + 8)) with 8192.
    destruct Hdfv as [-> | ->]; destruct (frag_max <? left);
      unfold IP_DF, IP_MF; split; intros H; try reflexivity;
      try discriminate; revert H; Z.div_mod_to_equations; lia.
  - unfold wire_df. rewrite be16_testbit, Hfo by lia.
    apply eq_true_iff_eq. rewrite Z.testbit_true by lia.
    change (2 ^ (6 + 8)) with 16384.
    destruct Hdfv as [-> | ->]; destruct (frag_max <? left);
      unfold IP_DF, IP_MF; simpl (negb _); split; intros H;
      try reflexivity; try discriminate; revert H;
      Z.div_mod_to_equations; lia.
  - unfold wire_frag_offset. rewrite Hfo.
    change IP_OFFSET with (Z.ones 13). rewrite Z.land_ones by lia.
    change (2 ^ 13) with 8192.
    destruct Hdfv as [-> | ->]; destruct (frag_max <? left);
      unfold IP_DF, IP_MF; Z.div_mod_to_equations; lia.
  - destruct rest as [|f' rest'].
    + cbn [frag_chain] in Hrest. simpl.
      subst n. destruct (Z.ltb_spec frag_max left); [lia|reflexivity].
    + cbn [frag_chain] in Hrest. destruct Hrest as [Hr' _]. simpl.
      subst n. destruct (Z.ltb_spec frag_max left); [reflexivity|lia].
  - exact Hrest.
Qed.

(** The payloads of a chain, one after the other, are the payload of the
    packet from [off] on. *)
Lemma chain_concat (frs : list sk_buff) :
  forall off left,
    chain off left frs -> 0 <= off -> 0 <= left -> off + left < 65536 ->
    concat (map payload_of frs)
    = firstn (Z.to_nat left)
             (skipn (ETH_HLEN + Z.to_nat ip_hlen + Z.to_nat off) d).
Proof.
  induction frs as [|f rest IH]; intros off left Hc Ho Hl Hsum.
  - cbn [frag_chain] in Hc.
    replace (Z.to_nat left) with 0%nat by lia. reflexivity.
  - destruct (chain_head off left f rest Hc Ho Hsum)
      as (Hn & _ & _ & Hp & _ & _ & _ & _ & _ & Hrest).
    cbn [map concat]. rewrite Hp, (IH _ _ Hrest) by lia.
    set (n := if frag_max <? left then frag_max else left) in *.
    replace (Z.to_nat left) with (Z.to_nat n + Z.to_nat (left - n))%nat
      by lia.
    rewrite firstn_add, skipn_skipn. do 3 f_equal. lia.
Qed.

(** Every fragment of a chain states its own length, ends with its
    payload, and keeps the Ethernet header, the header length and the
    don't-fragment flag of the packet. *)
Lemma chain_each (frs : list sk_buff) :
  forall off left,
    chain off left frs -> 0 <= off -> 0 <= left -> off + left < 65536 ->
    Forall (fun f =>
              wire_tot_len (skb_data f) ETH_HLEN
              = wire_ihl (skb_data f) ETH_HLEN * 4
                + Z.of_nat (length (payload_of f)) /\
              wire_ihl (skb_data f) ETH_HLEN * 4 = ip_hlen /\
              Z.of_nat (skb_len f)
              = Z.of_nat ETH_HLEN + wire_tot_len (skb_data f) ETH_HLEN /\
              firstn ETH_HLEN (skb_data f) = firstn ETH_HLEN d /\
              wire_df (skb_data f) ETH_HLEN = negb (dfv =? 0)) frs.
Proof.
  induction frs as [|f rest IH]; intros off left Hc Ho Hl Hsum.
  - constructor.
  - destruct (chain_head off left f rest Hc Ho Hsum)
      as (Hn & Hi & Ht & _ & Hlen & _ & Hdf & _ & _ & Hrest).
    cbn [frag_chain] in Hc. destruct Hc as (_ & Heth & Hfl & _).
    constructor.
    + rewrite Ht, Hi, Hlen. unfold skb_len. rewrite Hfl.
      repeat split; try assumption; try reflexivity.
      assert (0 <= ip_hlen) by (rewrite <- Hi; unfold wire_ihl;
                                Z.div_mod_to_equations; lia).
      lia.
    + apply (IH _ _ Hrest); lia.
Qed.

(** A chain for a nonempty payload ends in one fragment without the
    more-fragments flag; all before it carry [frag_max] bytes and the
    flag. *)
Lemma chain_split (frs : list sk_buff) :
  forall off left,
    chain off left frs -> 0 <= off -> 0 < left -> off + left < 65536 ->
    exists init lst,
      frs = init ++ [lst] /\
      Forall (fun f => Z.of_nat (length (payload_of f)) = frag_max /\
                       wire_mf (skb_data f) ETH_HLEN = true) init /\
      wire_mf (skb_data lst) ETH_HLEN = false.
Proof.
  induction frs as [|f rest IH]; intros off left Hc Ho Hl Hsum.
  - cbn [frag_chain] in Hc. lia.
  - destruct (chain_head off left f rest Hc Ho Hsum)
      as (Hn & _ & _ & _ & Hlen & Hmf & _ & _ & Hnil & Hrest).
    destruct rest as [|f' rest'].
    + exists [], f. simpl in Hnil. rewrite Hnil in Hmf.
      split; [reflexivity|]. split; [constructor|exact Hmf].
    + simpl in Hnil. rewrite Hnil in *.
      assert (Hlt : frag_max < left) by (apply Z.ltb_lt; exact Hnil).
      destruct (IH _ _ Hrest) as (init & lst & Heq & Hinit & Hlst);
        try lia.
      exists (f :: init), lst. rewrite Heq.
      split; [reflexivity|]. split; [|exact Hlst].
      constructor; [|exact Hinit]. split; [exact Hlen|exact Hmf].
Qed.

(** The fragment at position [i] of a chain: its offset field counts the
    payload bytes of the fragments before it, its more-fragments flag says
    whether another follows, and the whole field is made of these two and
    [dfv]. *)
Lemma chain_nth (frs : list sk_buff) :
  forall off left i f,
    chain off left frs -> 0 <= off -> off mod 8 = 0 -> 0 <= left ->
    off + left < 65536 ->
    nth_error frs i = Some f ->
    let count :=
      off + Z.of_nat (length (concat (map payload_of (firstn i frs)))) in
    let more := (S i <? length frs)%nat in
    be16 (skb_data f) (ETH_HLEN + 6)
    = Z.lor (count / 8) (Z.lor dfv (if more then IP_MF else 0)) /\
    wire_frag_offset (skb_data f) ETH_HLEN * 8 = count /\
    wire_mf (skb_data f) ETH_HLEN = more /\
    wire_df (skb_data f) ETH_HLEN = negb (dfv =? 0).
Proof.
  induction frs as [|f0 rest IH]; intros off left i f Hc Ho Ho8 Hl Hsum Hnth.
  - destruct i; discriminate.
  - destruct (chain_head off left f0 rest Hc Ho Hsum)
      as (Hn & _ & _ & _ & Hlen & Hmf & Hdf & Hfo & Hnil & Hrest).
    destruct i as [|i].
    + injection Hnth as <-. cbn [firstn map concat length]. cbv zeta.
      rewrite Z.add_0_r.
      assert (Hmore : (1 <? S (length rest))%nat = (frag_max <? left))
        by (rewrite Hnil; destruct rest; reflexivity).
      rewrite Hmore.
      split; [|split; [|split]].
      * cbn [frag_chain] in Hc. apply Hc.
      * rewrite Hfo. Z.div_mod_to_equations. lia.
      * exact Hmf.
      * exact Hdf.
    + cbn [nth_error] in Hnth.
      assert (Hlt : frag_max < left).
      { apply Z.ltb_lt. rewrite Hnil. destruct rest; [|reflexivity].
        destruct i; discriminate. }
      assert (Hb : (frag_max <? left) = true) by (apply Z.ltb_lt; exact Hlt).
      rewrite Hb in *.
      destruct (IH (off + frag_max) (left - frag_max) i f Hrest)
        as (H1 & H2 & H3 & H4); try lia; try exact Hnth.
      { rewrite Z.add_mod, Ho8, Hfmax8 by lia. reflexivity. }
      cbv zeta in H1, H2, H3, H4 |- *.
      cbn [firstn map concat]. rewrite length_app, Nat2Z.inj_add, Hlen.
      replace (S (S i) <? length (f0 :: rest))%nat
        with (S i <? length rest)%nat by reflexivity.
      rewrite Z.add_assoc.
      split; [exact H1|]. split; [exact H2|]. split; [exact H3|exact H4].
Qed.

End ChainFacts.

(** ** [ovs_vport_fragment] on a well-formed packet *)

Lemma be16_range (d : list byte) (off : nat) : 0 <= be16 d off < 65536.
Proof.
  unfold be16. pose proof (byte_at_range d off).
  pose proof (byte_at_range d (S off)). lia.
Qed.

(** [(x) & ~7] rounds down to a multiple of 8. *)
Lemma frag_max_round (x : Z) :
  0 <= x < 2 ^ 32 ->
  Z.land (wrap32 x) (wrap32 (Z.lnot 7)) = 8 * (x / 8).
Proof.
  intros Hx. rewrite (wrap32_small x) by exact Hx.
  unfold wrap32. rewrite <- (Z.land_ones (Z.lnot 7)) by lia.
  rewrite (Z.land_comm (Z.lnot 7)), Z.land_assoc, Z.land_ones by lia.
  rewrite Z.mod_small by exact Hx.
  rewrite <- Z.ldiff_land. change 7 with (Z.ones 3).
  rewrite Z.ldiff_ones_r by lia.
  rewrite Z.shiftl_mul_pow2, Z.shiftr_div_pow2 by lia.
  change (2 ^ 3) with 8. lia.
Qed.

Lemma emitted_app (w w' : world) (frs : list sk_buff) :
  w_sent w' = w_sent w ++ frs -> emitted w w' = frs.
Proof.
  intros H. unfold emitted. rewrite H, skipn_app, skipn_all, Nat.sub_diag.
  reflexivity.
Qed.

(** On an untagged IPv4 packet that holds its datagram, with buffers to be
    had and a ceiling that leaves room for eight bytes of payload,
    [ovs_vport_fragment] ends, hands the back end a chain of fragments for
    the whole payload, and releases the packet once. *)
Lemma fragment_run (h : host) (fuel : nat) (w : world) (skb : sk_buff)
    (frag_max_size mtu : Z) :
  let d := skb_data skb in
  let ip_hlen := wire_ihl d ETH_HLEN * 4 in
  let tot := wire_tot_len d ETH_HLEN in
  let ceiling := frag_ceiling frag_max_size mtu in
  (forall n, alloc_ok h n = true) ->
  network_header skb = ETH_HLEN ->
  20 <= ip_hlen -> ip_hlen + 8 <= ceiling -> ceiling < 2 ^ 32 ->
  ip_hlen <= tot ->
  (ETH_HLEN + Z.to_nat tot <= skb_len skb)%nat ->
  tot < Z.of_nat fuel ->
  exists ret w',
    ovs_vport_fragment h fuel w skb frag_max_size mtu = Some (ret, w') /\
    frag_chain d ip_hlen (8 * ((ceiling - ip_hlen) / 8))
               (Z.land (be16 d (ETH_HLEN + 6)) IP_DF)
               0 (tot - ip_hlen) (emitted w w') /\
    ((skb_id skb < w_allocs w)%nat -> released w' skb = S (released w skb)).
Proof.
  intros d ip_hlen tot ceiling Halloc Hnh Hh Hc Hc32 Htot Hlen Hfuel.
  pose proof (be16_range d (ETH_HLEN + 2)) as Hr.
  fold (wire_tot_len d ETH_HLEN) in Hr. fold tot in Hr.
  unfold ovs_vport_fragment, ip_hdrlen, ip_tot_len, ip_frag_off.
  rewrite !ntohs_load16, Hnh.
  fold d. fold (wire_ihl d ETH_HLEN). fold ip_hlen.
  fold (wire_tot_len d ETH_HLEN). fold tot. fold ceiling.
  rewrite frag_max_round by lia.
  rewrite (wrap32_small (tot - ip_hlen))
    by (change (2 ^ 32) with 4294967296; lia).
  set (dfv := Z.land (be16 d (ETH_HLEN + 6)) IP_DF).
  assert (Hdfv : dfv = 0 \/ dfv = IP_DF).
  { subst dfv. change IP_DF with (2 ^ 14). rewrite land_pow2 by lia.
    destruct (Z.testbit (be16 d (ETH_HLEN + 6)) 14); auto. }
  destruct (fragment_loop_chain h skb ip_hlen
              (8 * ((ceiling - ip_hlen) / 8)) dfv Halloc Hh
              ltac:(Z.div_mod_to_equations; lia) Hdfv fuel w dfv
              (tot - ip_hlen) 0 0)
    as (ret & w' & frs & Hrun & Hfrs & Hchain & Hrel); try lia.
  exists ret, w'. split; [exact Hrun|].
  rewrite (emitted_app w w' frs Hfrs). split; [exact Hchain|exact Hrel].
Qed.

(** C3, amended: [ovs_vport_fragment] on an oversize untagged IPv4 packet
    (the IPv4 header, of at least 20 bytes, right behind the Ethernet
    header, and the buffer holding the datagram), under a ceiling with room
    for at least eight bytes of payload behind the header, when every
    allocation succeeds.  The fragments handed to the back end are
    some [init] and a final one.  Each of [init] carries [frag_unit], the
    room under the ceiling rounded down to a multiple of eight, bytes of
    payload and has the more-fragments flag; the final one has not.  The
    payloads in order are the payload of the packet, each fragment's total
    length is its header length (the packet's) plus its payload and is all
    the frame holds behind the Ethernet header, and each fragment's offset
    is the number of payload bytes in the fragments before it. *)
Theorem fragment_coverage (h : host) (fuel : nat) (w : world) (skb : sk_buff)
    (frag_max_size mtu : Z) :
  let d := skb_data skb in
  let ip_hlen := wire_ihl d ETH_HLEN * 4 in
  let tot := wire_tot_len d ETH_HLEN in
  let ceiling := frag_ceiling frag_max_size mtu in
  let frag_unit := 8 * ((ceiling - ip_hlen) / 8) in
  (forall n, alloc_ok h n = true) ->
  network_header skb = ETH_HLEN ->
  20 <= ip_hlen -> ip_hlen + 8 <= ceiling -> ceiling < tot ->
  (ETH_HLEN + Z.to_nat tot <= skb_len skb)%nat ->
  tot < Z.of_nat fuel ->
  exists ret w' init lst,
    ovs_vport_fragment h fuel w skb frag_max_size mtu = Some (ret, w') /\
    emitted w w' = init ++ [lst] /\
    Forall (fun f => Z.of_nat (length (payload_of f)) = frag_unit /\
                     wire_mf (skb_data f) ETH_HLEN = true) init /\
    wire_mf (skb_data lst) ETH_HLEN = false /\
    concat (map payload_of (init ++ [lst])) = ip_payload d /\
    Forall (fun f => wire_tot_len (skb_data f) ETH_HLEN
                     = wire_ihl (skb_data f) ETH_HLEN * 4
                       + Z.of_nat (length (payload_of f)) /\
                     wire_ihl (skb_data f) ETH_HLEN * 4 = ip_hlen /\
                     Z.of_nat (skb_len f)
                     = Z.of_nat ETH_HLEN + wire_tot_len (skb_data f) ETH_HLEN)
           (init ++ [lst]) /\
    (forall i f,
        nth_error (init ++ [lst]) i = Some f ->
        wire_frag_offset (skb_data f) ETH_HLEN * 8
        = Z.of_nat (length (concat (map payload_of
                                        (firstn i (init ++ [lst])))))).
Proof.
  intros d ip_hlen tot ceiling frag_unit Halloc Hnh Hh Hc Hbig Hlen Hfuel.
  pose proof (be16_range d (ETH_HLEN + 2)) as Hr.
  fold (wire_tot_len d ETH_HLEN) in Hr. fold tot in Hr.
  assert (Hc32 : ceiling < 2 ^ 32)
    by (change (2 ^ 32) with 4294967296; lia).
  assert (Htot : ip_hlen <= tot) by lia.
  destruct (fragment_run h fuel w skb frag_max_size mtu Halloc Hnh Hh Hc
              Hc32 Htot Hlen Hfuel)
    as (ret & w' & Hrun & Hchain & _).
  fold d ip_hlen tot ceiling frag_unit in Hchain.
  set (dfv := Z.land (be16 d (ETH_HLEN + 6)) IP_DF) in Hchain.
  assert (Hdfv : dfv = 0 \/ dfv = IP_DF).
  { subst dfv. change IP_DF with (2 ^ 14). rewrite land_pow2 by lia.
    destruct (Z.testbit (be16 d (ETH_HLEN + 6)) 14); auto. }
  assert (Hu : 0 < frag_unit /\ frag_unit mod 8 = 0)
    by (subst frag_unit; Z.div_mod_to_equations; lia).
  destruct Hu as [Hu Hu8].
  destruct (chain_split d ip_hlen frag_unit dfv eq_refl Hu Hu8 Hdfv
              (emitted w w') 0 (tot - ip_hlen) Hchain)
    as (init & lst & Heq & Hinit & Hlst); try lia.
  exists ret, w', init, lst. rewrite <- Heq.
  split; [exact Hrun|]. split; [reflexivity|].
  split; [exact Hinit|]. split; [exact Hlst|]. split; [|split].
  - rewrite (chain_concat d ip_hlen frag_unit dfv eq_refl Hu Hu8 Hdfv
               (emitted w w') 0 (tot - ip_hlen) Hchain) by lia.
    unfold ip_payload. fold tot. fold ip_hlen.
    rewrite Nat.add_0_r. reflexivity.
  - pose proof (chain_each d ip_hlen frag_unit dfv eq_refl Hu Hu8 Hdfv
                  (emitted w w') 0 (tot - ip_hlen) Hchain) as He.
    eapply Forall_impl; [|apply He; lia].
    intros f (H1 & H2 & H3 & _). repeat split; assumption.
  - intros i f Hnth.
    destruct (chain_nth d ip_hlen frag_unit dfv eq_refl Hu Hu8 Hdfv
                (emitted w w') 0 (tot - ip_hlen) i f Hchain
                ltac:(lia) eq_refl ltac:(lia) ltac:(lia) Hnth)
      as (_ & Ho & _).
    cbv zeta in Ho. rewrite Z.add_0_l in Ho. exact Ho.
Qed.

(** A 50-byte packet on a port with MTU 36: fragments of 16 and 14 bytes
    of payload. *)
Lemma fragment_coverage_witness :
  let h := Sample.the_host in
  let w := Sample.a_world 36 in
  let skb := Sample.plain 50 0 0 in
  exists ret w' init lst,
    ovs_vport_fragment h 60 w skb 0 36 = Some (ret, w') /\
    emitted w w' = init ++ [lst] /\
    wire_mf (skb_data lst) ETH_HLEN = false /\
    concat (map payload_of (init ++ [lst])) = ip_payload (skb_data skb).
Proof.
  intros h w skb.
  destruct (fragment_coverage h 60 w skb 0 36)
    as (ret & w' & init & lst & Hrun & Hem & _ & Hlst & Hcat & _).
  - intros n. reflexivity.
  - reflexivity.
  - vm_compute. discriminate.
  - vm_compute. discriminate.
  - vm_compute. reflexivity.
  - apply Nat.leb_le. vm_compute. reflexivity.
  - vm_compute. reflexivity.
  - exists ret, w', init, lst. auto.
Defined.

(** A packet that is itself a fragment (offset 5, more-fragments set),
    fragmented again: offsets 0 and 2, the more-fragments flag only on the
    first piece, although the packet had it. *)
Example refragment_sample :
  let h := Sample.the_host in
  let w := Sample.a_world 36 in
  let skb := Sample.plain 50 0x2005 0 in
  option_map (fun r => map (fun f => (wire_frag_offset (skb_data f) ETH_HLEN,
                                      wire_mf (skb_data f) ETH_HLEN))
                           (w_sent (snd r)))
             (ovs_vport_fragment h 60 w skb 0 36)
  = Some [(0, true); (2, false)].
Proof. vm_compute. reflexivity. Qed.

(** Without room for payload under the ceiling ([frag_max = 0]) and with
    buffers always to be had, the loop does not end: no amount of
    iterations reaches a result.  This is why the statements above ask for
    eight bytes of room. *)
Lemma fragment_loop_no_room (h : host) (skb : sk_buff) (ip_hlen : Z)
    (fuel : nat) :
  (forall n, alloc_ok h n = true) ->
  forall (w : world) (flag left off sent : Z),
    0 < left < 2 ^ 32 ->
    fragment_loop h fuel w skb ip_hlen 0 flag left off sent = None.
Proof.
  intros Halloc. induction fuel as [|fuel IH]; intros w flag left off sent Hl.
  - reflexivity.
  - cbn [fragment_loop].
    replace (0 <? left) with true by (symmetry; apply Z.ltb_lt; lia).
    unfold alloc_skb. rewrite Halloc.
    destruct (__ovs_vport_send h _ _) as [s w2].
    rewrite Z.sub_0_r, (wrap32_small left) by lia.
    apply IH. exact Hl.
Qed.

(** C3, the claim as it was worded, without a lower bound on the ceiling:
    a 50-byte packet (header 20 bytes) under a ceiling of 24 bytes is
    oversize, but under the ceiling there is room for less than eight
    bytes of payload, so that [frag_max] is 0.  With all allocations
    succeeding [ovs_vport_fragment] never returns, whatever the number of
    iterations; when the buffers run out after three fragments, what it
    has handed to the back end is three frames without payload, all with
    the more-fragments flag.  No final fragment comes, and the payload is
    not reconstructed. *)
Lemma fragment_coverage_counterexample :
  let h := Sample.the_host in
  let h3 := Sample.a_host (fun n => Nat.ltb n 4) true in
  let w := Sample.a_world 24 in
  let skb := Sample.plain 50 0 0 in
  (forall n, alloc_ok h n = true) /\
  network_header skb = ETH_HLEN /\
  wire_ihl (skb_data skb) ETH_HLEN * 4 = 20 /\
  wire_tot_len (skb_data skb) ETH_HLEN = 50 /\
  skb_len skb = (ETH_HLEN + 50)%nat /\
  frag_ceiling 0 24 = 24 /\
  (forall fuel, ovs_vport_fragment h fuel w skb 0 24 = None) /\
  exists ret w',
    ovs_vport_fragment h3 60 w skb 0 24 = Some (ret, w') /\
    length (emitted w w') = 3%nat /\
    forallb (fun f => (length (payload_of f) =? 0)%nat
                      && wire_mf (skb_data f) ETH_HLEN) (emitted w w')
    = true.
Proof.
  intros h h3 w skb.
  split; [intros n; reflexivity|].
  split; [reflexivity|].
  split; [vm_compute; reflexivity|].
  split; [vm_compute; reflexivity|].
  split; [vm_compute; reflexivity|].
  split; [reflexivity|].
  split.
  - intros fuel. unfold ovs_vport_fragment. cbv zeta.
    replace (Z.land (wrap32 (frag_ceiling 0 24 - ip_hdrlen skb))
                    (wrap32 (Z.lnot 7))) with 0
      by (vm_compute; reflexivity).
    replace (wrap32 (ntohs h (ip_tot_len h skb) - ip_hdrlen skb)) with 30
      by (vm_compute; reflexivity).
    apply fragment_loop_no_room.
    + intros n. reflexivity.
    + change (2 ^ 32) with 4294967296. lia.
  - let r := eval vm_compute in (ovs_vport_fragment h3 60 w skb 0 24) in
    match r with
    | Some (?R, ?W) =>
        exists R, W; split; [vm_compute; reflexivity|];
        split; vm_compute; reflexivity
    end.
Qed.

(** * Further properties of vport.c *)

(** ** The registry: insertion, lookup, removal *)

Lemma name_eqb_eq (a b : list byte) : name_eqb a b = true <-> a = b.
Proof.
  unfold name_eqb. destruct (list_eq_dec byte_eq_dec a b); split;
    intros H; try reflexivity; try assumption; try discriminate.
  contradiction.
Qed.

Lemma key_test_iff (net : Z) (name : list byte) (v : vport) :
  key_test net name v = true <-> vport_key v = (net, name).
Proof.
  unfold key_test, vport_key. rewrite andb_true_iff, name_eqb_eq, Z.eqb_eq.
  split.
  - intros [-> ->]. reflexivity.
  - intros H. injection H as -> ->. split; reflexivity.
Qed.

Lemma locate_as_find (jhash : list byte -> Z -> Z -> Z) (t : dev_table)
    (net : Z) (name : list byte) :
  ovs_vport_locate jhash t net name
  = find (key_test net name) (t (hash_bucket jhash net name)).
Proof. reflexivity. Qed.

(** What [ovs_vport_add] does, by the first back end of the type asked
    for. *)
Lemma vport_add_scan_first (jhash : list byte -> Z -> Z -> Z)
    (ops : list vport_ops) (r : registry) (parms : vport_parms) :
  vport_add_scan jhash ops r parms =
  match find (fun o => vops_type o =? parms_type parms) ops with
  | None => (ERR_PTR (- EAFNOSUPPORT), r)
  | Some o =>
      let log := (vops_type o, parms) :: reg_created r in
      match vops_create o parms with
      | ERR_PTR err =>
          (ERR_PTR err, {| reg_table := reg_table r; reg_created := log |})
      | VPORT v =>
          (VPORT v,
           {| reg_table := hlist_add_head v
                             (hash_bucket jhash (dp_net v) (vport_name v))
                             (reg_table r);
              reg_created := log |})
      end
  end.
Proof.
  induction ops as [|o ops IH]; simpl.
  - reflexivity.
  - destruct (vops_type o =? parms_type parms); [reflexivity|exact IH].
Qed.

(** X1: a port that [ovs_vport_add] returns is found by
    [ovs_vport_locate] under its name in its namespace, whatever the table
    held before; it was made by a back end of the type asked for, and one
    [create] was called. *)
Theorem add_then_locate (jhash : list byte -> Z -> Z -> Z)
    (vport_ops_list : list vport_ops) (r r' : registry)
    (parms : vport_parms) (v : vport) :
  ovs_vport_add jhash vport_ops_list r parms = (VPORT v, r') ->
  ovs_vport_locate jhash (reg_table r') (dp_net v) (vport_name v) = Some v /\
  (exists o, In o vport_ops_list /\ vops_type o = parms_type parms /\
             vops_create o parms = VPORT v /\
             reg_created r' = (vops_type o, parms) :: reg_created r).
Proof.
  unfold ovs_vport_add. rewrite vport_add_scan_first.
  destruct (find _ vport_ops_list) as [o|] eqn:Hfind; [|discriminate].
  apply find_some in Hfind. destruct Hfind as [Hin Hty].
  apply Z.eqb_eq in Hty. cbv zeta.
  destruct (vops_create o parms) as [e|v0] eqn:Hcreate; [discriminate|].
  intros H. injection H as -> <-. split.
  - rewrite locate_as_find. cbn [reg_table]. unfold hlist_add_head.
    rewrite Z.eqb_refl. cbn [find].
    replace (key_test (dp_net v) (vport_name v) v) with true; [reflexivity|].
    symmetry. apply key_test_iff. reflexivity.
  - exists o. auto.
Qed.

Lemma add_then_locate_witness :
  let ops := [ {| vops_type := OVS_VPORT_TYPE_INTERNAL;
                  vops_create := fun p => ERR_PTR (- ENOMEM) |};
               {| vops_type := OVS_VPORT_TYPE_NETDEV;
                  vops_create := fun p => VPORT (Sample.a_port 1500) |} ] in
  let r := {| reg_table := fun _ => [Sample.a_port 9]; reg_created := [] |} in
  let parms := {| parms_name := []; parms_type := OVS_VPORT_TYPE_NETDEV;
                  parms_dp_net := 0; parms_port_no := 1;
                  parms_upcall_portid := 0 |} in
  ovs_vport_locate (fun _ _ _ => 5)
    (reg_table (snd (ovs_vport_add (fun _ _ _ => 5) ops r parms))) 0 []
  = Some (Sample.a_port 1500).
Proof.
  intros ops r parms.
  apply (add_then_locate (fun _ _ _ => 5) ops r
           (snd (ovs_vport_add (fun _ _ _ => 5) ops r parms)) parms
           (Sample.a_port 1500)).
  reflexivity.
Defined.

(** X2: when the back end's [create] fails, [ovs_vport_add] returns that
    error and no bucket changes; the back ends after the first of the type
    asked for are not tried. *)
Theorem add_create_error (jhash : list byte -> Z -> Z -> Z)
    (vport_ops_list : list vport_ops) (r : registry)
    (parms : vport_parms) (o : vport_ops) (err : Z) :
  find (fun o => vops_type o =? parms_type parms) vport_ops_list = Some o ->
  vops_create o parms = ERR_PTR err ->
  let res := ovs_vport_add jhash vport_ops_list r parms in
  fst res = ERR_PTR err /\
  (forall b, reg_table (snd res) b = reg_table r b) /\
  reg_created (snd res) = (vops_type o, parms) :: reg_created r.
Proof.
  intros Hfind Hcreate. cbv zeta. unfold ovs_vport_add.
  rewrite vport_add_scan_first, Hfind. cbv zeta. rewrite Hcreate.
  simpl. auto.
Qed.

Lemma add_create_error_witness :
  let o1 := {| vops_type := OVS_VPORT_TYPE_NETDEV;
               vops_create := fun p => ERR_PTR (- 19) |} in
  let o2 := {| vops_type := OVS_VPORT_TYPE_NETDEV;
               vops_create := fun p => VPORT (Sample.a_port 1500) |} in
  let r := {| reg_table := fun _ => []; reg_created := [] |} in
  let parms := {| parms_name := []; parms_type := OVS_VPORT_TYPE_NETDEV;
                  parms_dp_net := 0; parms_port_no := 1;
                  parms_upcall_portid := 0 |} in
  fst (ovs_vport_add (fun _ _ _ => 5) [o1; o2] r parms) = ERR_PTR (- 19).
Proof.
  intros o1 o2 r parms.
  apply (add_create_error (fun _ _ _ => 5) [o1; o2] r parms o1 (- 19));
    reflexivity.
Defined.

(** X3: a port added leaves every lookup under another name or in another
    namespace as it was. *)
Theorem add_keeps_other_lookups (jhash : list byte -> Z -> Z -> Z)
    (vport_ops_list : list vport_ops) (r r' : registry)
    (parms : vport_parms) (v : vport) (net : Z) (name : list byte) :
  ovs_vport_add jhash vport_ops_list r parms = (VPORT v, r') ->
  (net, name) <> vport_key v ->
  ovs_vport_locate jhash (reg_table r') net name
  = ovs_vport_locate jhash (reg_table r) net name.
Proof.
  unfold ovs_vport_add. rewrite vport_add_scan_first.
  destruct (find _ vport_ops_list) as [o|]; [|discriminate]. cbv zeta.
  destruct (vops_create o parms) as [e|v0]; [discriminate|].
  intros H Hkey. injection H as -> <-.
  rewrite !locate_as_find. cbn [reg_table]. unfold hlist_add_head.
  destruct (hash_bucket jhash net name
            =? hash_bucket jhash (dp_net v) (vport_name v)); [|reflexivity].
  cbn [find].
  destruct (key_test net name v) eqn:Ht; [|reflexivity].
  apply key_test_iff in Ht. congruence.
Qed.

Lemma add_keeps_other_lookups_witness :
  let ops := [ {| vops_type := OVS_VPORT_TYPE_NETDEV;
                  vops_create := fun p => VPORT (Sample.a_port 1500) |} ] in
  let r := {| reg_table := fun _ => [Sample.a_port 9]; reg_created := [] |} in
  let parms := {| parms_name := []; parms_type := OVS_VPORT_TYPE_NETDEV;
                  parms_dp_net := 0; parms_port_no := 1;
                  parms_upcall_portid := 0 |} in
  ovs_vport_locate (fun _ _ _ => 5)
    (reg_table (snd (ovs_vport_add (fun _ _ _ => 5) ops r parms))) 7 []
  = ovs_vport_locate (fun _ _ _ => 5) (reg_table r) 7 [].
Proof.
  intros ops r parms.
  apply (add_keeps_other_lookups (fun _ _ _ => 5) ops r
           (snd (ovs_vport_add (fun _ _ _ => 5) ops r parms)) parms
           (Sample.a_port 1500) 7 []).
  - reflexivity.
  - unfold vport_key. simpl. intros H. discriminate H.
Defined.

(** X4: [ovs_vport_locate] returns only a port of the bucket that has the
    name asked for and lives in the namespace asked for, and it returns
    NULL only when the bucket holds no such port: a port of the same name
    in another namespace is never returned. *)
Theorem locate_sound_complete (jhash : list byte -> Z -> Z -> Z)
    (t : dev_table) (net : Z) (name : list byte) :
  (forall v, ovs_vport_locate jhash t net name = Some v ->
             vport_name v = name /\ dp_net v = net /\
             In v (t (hash_bucket jhash net name))) /\
  (ovs_vport_locate jhash t net name = None <->
   forall v, In v (t (hash_bucket jhash net name)) ->
             vport_key v <> (net, name)).
Proof.
  rewrite locate_as_find. split.
  - intros v Hf. apply find_some in Hf. destruct Hf as [Hin Ht].
    apply key_test_iff in Ht. unfold vport_key in Ht.
    injection Ht as Hn Hm. auto.
  - split.
    + intros Hnone v Hin Hk.
      pose proof (find_none _ _ Hnone v Hin) as Hf.
      apply key_test_iff in Hk. congruence.
    + intros Hall.
      destruct (find (key_test net name) (t (hash_bucket jhash net name)))
        as [v|] eqn:Hf; [|reflexivity].
      apply find_some in Hf. destruct Hf as [Hin Ht].
      apply key_test_iff in Ht. exfalso. exact (Hall v Hin Ht).
Qed.

Lemma locate_sound_complete_witness :
  let t : dev_table := fun _ => [Sample.a_port 9] in
  ovs_vport_locate (fun _ _ _ => 5) t 7 [] = None.
Proof.
  intros t.
  apply (locate_sound_complete (fun _ _ _ => 5) t 7 []).
  intros v [<- | []]. unfold vport_key. simpl. discriminate.
Defined.

(** X5: the index [hash_bucket] computes is within the table of
    [VPORT_HASH_BUCKETS] buckets, whatever the hash function returns. *)
Theorem hash_bucket_in_table (jhash : list byte -> Z -> Z -> Z) (net : Z)
    (name : list byte) :
  0 <= hash_bucket jhash net name < VPORT_HASH_BUCKETS.
Proof.
  unfold hash_bucket, VPORT_HASH_BUCKETS.
  change (1024 - 1) with (Z.ones 10).
  rewrite Z.land_ones by lia. change (2 ^ 10) with 1024.
  apply Z.mod_pos_bound. lia.
Qed.

Lemma find_app {A : Type} (f : A -> bool) (a b : list A) :
  find f (a ++ b) = match find f a with
                    | Some x => Some x
                    | None => find f b
                    end.
Proof.
  induction a as [|x a IH]; simpl; [reflexivity|].
  destruct (f x); [reflexivity|exact IH].
Qed.

(** Where [find_pos] points: the first entry that passes the test. *)
Lemma find_pos_spec (test : vport -> bool) (l : list vport) (i : nat) :
  find_pos test l = Some i ->
  exists v, nth_error l i = Some v /\ test v = true /\
            find test l = Some v /\
            find test (firstn i l) = None /\
            l = firstn i l ++ v :: skipn (S i) l.
Proof.
  revert i. induction l as [|x l IH]; intros i H; simpl in H.
  - discriminate.
  - destruct (test x) eqn:Hx.
    + injection H as <-. exists x. simpl. rewrite Hx. auto.
    + destruct (find_pos test l) as [j|] eqn:Hj; [|discriminate].
      injection H as <-. destruct (IH j eq_refl) as (v & H1 & H2 & H3 & H4 & H5).
      exists v. cbn [nth_error find firstn skipn app]. rewrite Hx.
      repeat split; try assumption. f_equal. exact H5.
Qed.

Lemma find_pos_none (test : vport -> bool) (l : list vport) :
  find_pos test l = None -> find test l = None.
Proof.
  induction l as [|x l IH]; simpl; [reflexivity|].
  destruct (test x); [discriminate|].
  destruct (find_pos test l); [discriminate|]. intros _. apply IH.
  reflexivity.
Qed.

(** X6: the pointer form of the lookup names the port that
    [ovs_vport_locate] returns.  When no two ports of a bucket share name
    and namespace, [ovs_vport_del] of a located port hands that port to the
    back end's [destroy], after which the lookup under its name gives NULL
    and every other lookup gives what it gave before. *)
Theorem del_located (jhash : list byte -> Z -> Z -> Z) (t : dev_table)
    (net : Z) (name : list byte) (p : vport_ref) :
  ovs_vport_locate_ref jhash t net name = Some p ->
  NoDup (map vport_key (t (hash_bucket jhash net name))) ->
  let res := ovs_vport_del t p in
  deref t p = ovs_vport_locate jhash t net name /\
  snd res = ovs_vport_locate jhash t net name /\
  snd res <> None /\
  ovs_vport_locate jhash (fst res) net name = None /\
  (forall net' name',
      (net', name') <> (net, name) ->
      ovs_vport_locate jhash (fst res) net' name'
      = ovs_vport_locate jhash t net' name').
Proof.
  unfold ovs_vport_locate_ref. fold (key_test net name).
  set (b := hash_bucket jhash net name).
  destruct (find_pos (key_test net name) (t b)) as [i|] eqn:Hpos;
    [|discriminate].
  intros H Hnd. injection H as <-. cbv zeta.
  destruct (find_pos_spec _ _ _ Hpos) as (v & Hnth & Htest & Hfind & Hpre & Hl).
  unfold ovs_vport_del, deref. cbn [ref_bucket ref_pos fst snd].
  rewrite !locate_as_find. fold b. rewrite Hfind, Hnth.
  split; [reflexivity|]. split; [reflexivity|]. split; [discriminate|].
  assert (Hkv : vport_key v = (net, name)) by (apply key_test_iff; exact Htest).
  split.
  - rewrite Z.eqb_refl. unfold hlist_del. rewrite find_app, Hpre.
    destruct (find (key_test net name) (skipn (S i) (t b))) as [u|] eqn:Hu;
      [|reflexivity].
    exfalso. apply find_some in Hu. destruct Hu as [Hin Hq].
    apply key_test_iff in Hq.
    rewrite Hl, map_app in Hnd. cbn [map] in Hnd.
    apply NoDup_remove_2 in Hnd. apply Hnd.
    apply in_or_app. right. rewrite Hkv, <- Hq. apply in_map. exact Hin.
  - intros net' name' Hne. rewrite !locate_as_find. cbv beta.
    destruct (Z.eqb_spec (hash_bucket jhash net' name') b) as [E|E];
      [|reflexivity].
    rewrite E. unfold hlist_del.
    assert (Hq : key_test net' name' v = false).
    { destruct (key_test net' name' v) eqn:Hq; [|reflexivity].
      apply key_test_iff in Hq. congruence. }
    transitivity (find (key_test net' name')
                       (firstn i (t b) ++ v :: skipn (S i) (t b))).
    + rewrite !find_app. cbn [find]. rewrite Hq. reflexivity.
    + rewrite <- Hl. reflexivity.
Qed.

Lemma del_located_witness :
  let t : dev_table := fun _ => [Sample.a_port 9] in
  let p := {| ref_bucket := 5; ref_pos := 0 |} in
  ovs_vport_locate (fun _ _ _ => 5) (fst (ovs_vport_del t p)) 0 [] = None /\
  snd (ovs_vport_del t p) = Some (Sample.a_port 9).
Proof.
  intros t p.
  destruct (del_located (fun _ _ _ => 5) t 0 [] p) as (_ & H2 & _ & H4 & _).
  - reflexivity.
  - simpl. repeat constructor. intros [].
  - split; [exact H4|]. rewrite H2. reflexivity.
Defined.

(** X7: [ovs_vport_del] of the port just added undoes [ovs_vport_add]:
    the new port is the head of its bucket, it is what [destroy] gets, and
    every bucket is as before the addition. *)
Theorem add_del_restores (jhash : list byte -> Z -> Z -> Z)
    (vport_ops_list : list vport_ops) (r r' : registry)
    (parms : vport_parms) (v : vport) :
  ovs_vport_add jhash vport_ops_list r parms = (VPORT v, r') ->
  exists p,
    ovs_vport_locate_ref jhash (reg_table r') (dp_net v) (vport_name v)
    = Some p /\
    ref_pos p = 0%nat /\
    snd (ovs_vport_del (reg_table r') p) = Some v /\
    (forall b, fst (ovs_vport_del (reg_table r') p) b = reg_table r b).
Proof.
  unfold ovs_vport_add. rewrite vport_add_scan_first.
  destruct (find _ vport_ops_list) as [o|]; [|discriminate]. cbv zeta.
  destruct (vops_create o parms) as [e|v0]; [discriminate|].
  intros H. injection H as -> <-.
  set (bv := hash_bucket jhash (dp_net v) (vport_name v)).
  exists {| ref_bucket := bv; ref_pos := 0 |}.
  assert (Ht : key_test (dp_net v) (vport_name v) v = true)
    by (apply key_test_iff; reflexivity).
  unfold ovs_vport_locate_ref, ovs_vport_del, deref, hlist_add_head.
  fold (key_test (dp_net v) (vport_name v)). fold bv.
  cbn [reg_table ref_bucket ref_pos fst snd].
  rewrite Z.eqb_refl. cbn [find_pos nth_error]. rewrite Ht.
  split; [reflexivity|]. split; [reflexivity|]. split; [reflexivity|].
  intros b. destruct (b =? bv); reflexivity.
Qed.

Lemma add_del_restores_witness :
  let ops := [ {| vops_type := OVS_VPORT_TYPE_NETDEV;
                  vops_create := fun p => VPORT (Sample.a_port 1500) |} ] in
  let r := {| reg_table := fun _ => [Sample.a_port 9]; reg_created := [] |} in
  let parms := {| parms_name := []; parms_type := OVS_VPORT_TYPE_NETDEV;
                  parms_dp_net := 0; parms_port_no := 1;
                  parms_upcall_portid := 0 |} in
  let r' := snd (ovs_vport_add (fun _ _ _ => 5) ops r parms) in
  exists p, snd (ovs_vport_del (reg_table r') p) = Some (Sample.a_port 1500)
            /\ fst (ovs_vport_del (reg_table r') p) 5 = [Sample.a_port 9].
Proof.
  intros ops r parms r'.
  destruct (add_del_restores (fun _ _ _ => 5) ops r r' parms
              (Sample.a_port 1500) eq_refl) as (p & _ & _ & H3 & H4).
  exists p. split; [exact H3|]. rewrite H4. reflexivity.
Defined.

(** ** The snapshot as a sum *)

Lemma traffic_add_cpu (k : traffic_kind) (s : ovs_vport_stats)
    (p : pcpu_tstats) :
  traffic_field k (add_cpu_stats s p)
  = wrap64 (traffic_field k s + traffic_cpu k p).
Proof. destruct k; reflexivity. Qed.

Lemma traffic_add_err (k : traffic_kind) (s : ovs_vport_stats)
    (e : vport_err_stats) :
  traffic_field k (add_err_stats s e) = traffic_field k s.
Proof. destruct k; reflexivity. Qed.

Lemma fold_traffic (k : traffic_kind) (l : list pcpu_tstats) :
  forall s,
    wrap64 (traffic_field k (fold_left add_cpu_stats l s))
    = wrap64 (traffic_field k s + cpu_sum (traffic_cpu k) l).
Proof.
  induction l as [|p l IH]; intros s; simpl.
  - rewrite Z.add_0_r. reflexivity.
  - rewrite IH, traffic_add_cpu, wrap64_idem_l. f_equal. lia.
Qed.

Lemma wrap64_wrap64 (x : Z) : wrap64 (wrap64 x) = wrap64 x.
Proof. unfold wrap64. apply Z.mod_mod. lia. Qed.

Lemma fold_traffic_nonempty (k : traffic_kind) (l : list pcpu_tstats) :
  forall s,
    l <> [] ->
    traffic_field k (fold_left add_cpu_stats l s)
    = wrap64 (traffic_field k s + cpu_sum (traffic_cpu k) l).
Proof.
  induction l as [|p l IH]; intros s Hne; [congruence|].
  destruct l as [|q l].
  - simpl. rewrite traffic_add_cpu, Z.add_0_r. reflexivity.
  - cbn [fold_left] in *. rewrite IH by discriminate.
    rewrite traffic_add_cpu, wrap64_idem_l. f_equal.
    cbn [cpu_sum fold_right]. lia.
Qed.

Lemma get_stats_is_sum_any (v : vport) :
  stats_ok (offset_stats v) ->
  (forall k, traffic_field k (ovs_vport_get_stats v)
             = wrap64 (traffic_field k (offset_stats v)
                       + cpu_sum (traffic_cpu k) (percpu_stats v))) /\
  (forall k, err_field k (ovs_vport_get_stats v)
             = wrap64 (err_field k (offset_stats v)
                       + err_count k (err_stats v))).
Proof.
  intros Hok. split; intros k.
  - unfold ovs_vport_get_stats.
    destruct (percpu_stats v) as [|p l] eqn:Hl.
    + simpl. rewrite traffic_add_err, Z.add_0_r. symmetry.
      apply wrap64_small.
      destruct Hok as (H1 & H2 & H3 & H4 & _). destruct k; assumption.
    + rewrite fold_traffic_nonempty by discriminate.
      rewrite traffic_add_err. reflexivity.
  - apply get_stats_err_field.
Qed.

(** X8: the snapshot of [ovs_vport_get_stats] is the offset plus, for an
    error counter, the errors recorded and, for a traffic counter, the sum
    of that counter over all CPUs, in 64-bit arithmetic. *)
Theorem get_stats_is_sum (v : vport) :
  stats_ok (offset_stats v) ->
  (forall k, traffic_field k (ovs_vport_get_stats v)
             = wrap64 (traffic_field k (offset_stats v)
                       + cpu_sum (traffic_cpu k) (percpu_stats v))) /\
  (forall k, err_field k (ovs_vport_get_stats v)
             = wrap64 (err_field k (offset_stats v)
                       + err_count k (err_stats v))).
Proof. apply get_stats_is_sum_any. Qed.

Lemma get_stats_is_sum_witness :
  let p1 := {| cpu_rx_packets := 3; cpu_rx_bytes := 300;
               cpu_tx_packets := 1; cpu_tx_bytes := 2 ^ 64 - 1 |} in
  let p2 := {| cpu_rx_packets := 4; cpu_rx_bytes := 400;
               cpu_tx_packets := 2; cpu_tx_bytes := 11 |} in
  let v := set_percpu_stats (Sample.a_port 1500) [p1; p2] in
  rx_packets (ovs_vport_get_stats v) = 7 /\
  tx_bytes (ovs_vport_get_stats v) = 10.
Proof.
  intros p1 p2 v.
  assert (Hok : stats_ok (offset_stats v))
    by (unfold stats_ok, u64_ok; simpl; lia).
  destruct (get_stats_is_sum v Hok) as [Ht _].
  split; [exact (Ht RX_PACKETS)|exact (Ht TX_BYTES)].
Defined.

Lemma cpu_sum_update (c : pcpu_tstats -> Z) (g : pcpu_tstats -> pcpu_tstats)
    (delta : Z) (n : nat) (l : list pcpu_tstats) :
  (forall p, wrap64 (c (g p)) = wrap64 (c p + delta)) ->
  (n < length l)%nat ->
  wrap64 (cpu_sum c (update_nth n g l)) = wrap64 (cpu_sum c l + delta).
Proof.
  intros Hg. revert n. induction l as [|x l IH]; intros n Hn; simpl in Hn.
  - lia.
  - destruct n as [|n]; cbn [update_nth cpu_sum fold_right].
    + rewrite <- wrap64_idem_l, Hg, wrap64_idem_l. f_equal. lia.
    + fold (cpu_sum c (update_nth n g l)). fold (cpu_sum c l).
      rewrite <- wrap64_idem_r, IH, wrap64_idem_r by lia. f_equal. lia.
Qed.

(** The snapshot after an update of one CPU's counters. *)
Lemma get_stats_update (v : vport) (n : nat) (g : pcpu_tstats -> pcpu_tstats)
    (k : traffic_kind) (delta : Z) :
  (forall p, wrap64 (traffic_cpu k (g p))
             = wrap64 (traffic_cpu k p + delta)) ->
  (n < length (percpu_stats v))%nat ->
  traffic_field k (ovs_vport_get_stats
                     (set_percpu_stats v (update_nth n g (percpu_stats v))))
  = wrap64 (traffic_field k (ovs_vport_get_stats v) + delta).
Proof.
  intros Hg Hn. unfold ovs_vport_get_stats.
  cbn [percpu_stats offset_stats err_stats set_percpu_stats].
  assert (H1 : update_nth n g (percpu_stats v) <> [])
    by (intros E; apply (f_equal (@length _)) in E;
        rewrite update_nth_length in E; simpl in E; lia).
  assert (H2 : percpu_stats v <> [])
    by (intros E; rewrite E in Hn; simpl in Hn; lia).
  rewrite !fold_traffic_nonempty by assumption.
  rewrite wrap64_idem_l, <- Z.add_assoc.
  rewrite <- wrap64_idem_r, (cpu_sum_update _ g delta) by assumption.
  rewrite wrap64_idem_r. reflexivity.
Qed.

Lemma get_stats_update_err (v : vport) (l : list pcpu_tstats)
    (k : vport_err_type) :
  err_field k (ovs_vport_get_stats (set_percpu_stats v l))
  = err_field k (ovs_vport_get_stats v).
Proof. rewrite !get_stats_err_field. reflexivity. Qed.

Lemma get_stats_same_cpus (v v' : vport) (k : traffic_kind) :
  offset_stats v' = offset_stats v ->
  percpu_stats v' = percpu_stats v ->
  traffic_field k (ovs_vport_get_stats v')
  = traffic_field k (ovs_vport_get_stats v).
Proof.
  intros Ho Hp. unfold ovs_vport_get_stats. rewrite Ho, Hp.
  generalize (percpu_stats v) (add_err_stats (offset_stats v) (err_stats v'))
             (add_err_stats (offset_stats v) (err_stats v))
             (fun k => eq_trans (traffic_add_err k (offset_stats v) (err_stats v'))
                          (eq_sym (traffic_add_err k (offset_stats v)
                                                   (err_stats v)))).
  intros l. induction l as [|p l IH]; intros a b Hab; simpl.
  - apply Hab.
  - apply IH. intros k'. rewrite !traffic_add_cpu, Hab. reflexivity.
Qed.

(** One recorded error in the snapshot. *)
Lemma record_error_count_one (v : vport) (k : vport_err_type) :
  let s := ovs_vport_get_stats v in
  let s' := ovs_vport_get_stats (record_errors 1 v k) in
  err_field k s' = wrap64 (err_field k s + 1) /\
  (forall k', k' <> k -> err_field k' s' = err_field k' s) /\
  (forall t, traffic_field t s' = traffic_field t s).
Proof.
  cbv zeta. destruct (record_errors_frame 1 v k) as [Hoff Hcpu].
  split; [|split].
  - rewrite !get_stats_err_field, Hoff.
    rewrite <- wrap64_idem_r, record_errors_same, wrap64_idem_r.
    rewrite wrap64_idem_l. f_equal. simpl. lia.
  - intros k' Hk. rewrite !get_stats_err_field, Hoff.
    rewrite (record_errors_other 1 v k k' Hk). reflexivity.
  - intros t. apply get_stats_same_cpus; assumption.
Qed.

(** The port after [__ovs_vport_send]. *)
Lemma send_vport (h : host) (w : world) (skb : sk_buff) :
  w_vport (snd (__ovs_vport_send h w skb))
  = if 0 <? ops_send h w skb
    then set_percpu_stats (w_vport w)
           (update_nth (this_cpu h) (tx_account (ops_send h w skb))
                       (percpu_stats (w_vport w)))
    else record_errors 1 (w_vport w)
           (if ops_send h w skb <? 0 then VPORT_E_TX_ERROR
            else VPORT_E_TX_DROPPED).
Proof.
  unfold __ovs_vport_send.
  destruct (0 <? ops_send h w skb); [reflexivity|].
  destruct (ops_send h w skb <? 0); reflexivity.
Qed.

(** The snapshot after [__ovs_vport_send]. *)
Lemma send_snapshot_fields (h : host) (w : world) (skb : sk_buff) :
  (this_cpu h < length (percpu_stats (w_vport w)))%nat ->
  let sent := ops_send h w skb in
  let s := ovs_vport_get_stats (w_vport w) in
  let s' := ovs_vport_get_stats (w_vport (snd (__ovs_vport_send h w skb))) in
  rx_packets s' = rx_packets s /\ rx_bytes s' = rx_bytes s /\
  rx_errors s' = rx_errors s /\ rx_dropped s' = rx_dropped s /\
  tx_packets s' = (if 0 <? sent then wrap64 (tx_packets s + 1)
                   else tx_packets s) /\
  tx_bytes s' = (if 0 <? sent then wrap64 (tx_bytes s + sent)
                 else tx_bytes s) /\
  tx_errors s' = (if sent <? 0 then wrap64 (tx_errors s + 1)
                  else tx_errors s) /\
  tx_dropped s' = (if sent =? 0 then wrap64 (tx_dropped s + 1)
                   else tx_dropped s).
Proof.
  intros Hcpu. cbv zeta. rewrite send_vport.
  set (v := w_vport w) in *. set (sent := ops_send h w skb).
  destruct (Z.ltb_spec 0 sent) as [Hpos|Hle].
  - replace (sent <? 0) with false by (symmetry; apply Z.ltb_ge; lia).
    replace (sent =? 0) with false by (symmetry; apply Z.eqb_neq; lia).
    pose proof (get_stats_update v (this_cpu h) (tx_account sent)) as Hu.
    pose proof (Hu RX_PACKETS 0) as H1. pose proof (Hu RX_BYTES 0) as H2.
    pose proof (Hu TX_PACKETS 1) as H3. pose proof (Hu TX_BYTES sent) as H4.
    cbn [traffic_field traffic_cpu tx_account cpu_rx_packets cpu_rx_bytes
         cpu_tx_packets cpu_tx_bytes] in H1, H2, H3, H4.
    rewrite H1, H2, H3, H4;
      try exact Hcpu; try (intros p; rewrite ?wrap64_wrap64, ?Z.add_0_r;
                           reflexivity).
    pose proof (get_stats_update_err v
                  (update_nth (this_cpu h) (tx_account sent)
                              (percpu_stats v))) as He.
    pose proof (He VPORT_E_RX_ERROR) as E1.
    pose proof (He VPORT_E_RX_DROPPED) as E2.
    pose proof (He VPORT_E_TX_ERROR) as E3.
    pose proof (He VPORT_E_TX_DROPPED) as E4.
    cbn [err_field] in E1, E2, E3, E4. rewrite E1, E2, E3, E4.
    assert (Hw : forall k, wrap64 (traffic_field k (ovs_vport_get_stats v) + 0)
                           = traffic_field k (ovs_vport_get_stats v)).
    { intros k. rewrite Z.add_0_r. unfold ovs_vport_get_stats.
      rewrite fold_traffic_nonempty
        by (intros E; rewrite E in Hcpu; simpl in Hcpu; lia).
      apply wrap64_wrap64. }
    pose proof (Hw RX_PACKETS) as W1. pose proof (Hw RX_BYTES) as W2.
    cbn [traffic_field] in W1, W2. rewrite W1, W2.
    repeat split; reflexivity.
  - set (k := if sent <? 0 then VPORT_E_TX_ERROR else VPORT_E_TX_DROPPED).
    destruct (record_error_count_one v k) as (Hs & Ho & Ht).
    pose proof (Ht RX_PACKETS) as T1. pose proof (Ht RX_BYTES) as T2.
    pose proof (Ht TX_PACKETS) as T3. pose proof (Ht TX_BYTES) as T4.
    cbn [traffic_field] in T1, T2, T3, T4. rewrite T1, T2, T3, T4.
    subst k.
    destruct (Z.ltb_spec sent 0) as [Hneg|Hnn].
    + replace (sent =? 0) with false by (symmetry; apply Z.eqb_neq; lia).
      pose proof (Ho VPORT_E_RX_ERROR ltac:(discriminate)) as O1.
      pose proof (Ho VPORT_E_RX_DROPPED ltac:(discriminate)) as O2.
      pose proof (Ho VPORT_E_TX_DROPPED ltac:(discriminate)) as O3.
      cbn [err_field] in Hs, O1, O2, O3. rewrite Hs, O1, O2, O3.
      repeat split; reflexivity.
    + replace (sent =? 0) with true by (symmetry; apply Z.eqb_eq; lia).
      pose proof (Ho VPORT_E_RX_ERROR ltac:(discriminate)) as O1.
      pose proof (Ho VPORT_E_RX_DROPPED ltac:(discriminate)) as O2.
      pose proof (Ho VPORT_E_TX_ERROR ltac:(discriminate)) as O3.
      cbn [err_field] in Hs, O1, O2, O3. rewrite Hs, O1, O2, O3.
      repeat split; reflexivity.
Qed.

(** X9: what a direct send leaves in the snapshot of
    [ovs_vport_get_stats], whichever CPU it ran on: a positive result [n]
    is one more packet and [n] more bytes transmitted, a negative one is
    one more transmit error, zero is one more transmit drop; every other
    field of the snapshot is as before. *)
Theorem send_in_snapshot (h : host) (w : world) (skb : sk_buff) :
  (this_cpu h < length (percpu_stats (w_vport w)))%nat ->
  let sent := ops_send h w skb in
  let s := ovs_vport_get_stats (w_vport w) in
  let s' := ovs_vport_get_stats (w_vport (snd (__ovs_vport_send h w skb))) in
  rx_packets s' = rx_packets s /\ rx_bytes s' = rx_bytes s /\
  rx_errors s' = rx_errors s /\ rx_dropped s' = rx_dropped s /\
  tx_packets s' = (if 0 <? sent then wrap64 (tx_packets s + 1)
                   else tx_packets s) /\
  tx_bytes s' = (if 0 <? sent then wrap64 (tx_bytes s + sent)
                 else tx_bytes s) /\
  tx_errors s' = (if sent <? 0 then wrap64 (tx_errors s + 1)
                  else tx_errors s) /\
  tx_dropped s' = (if sent =? 0 then wrap64 (tx_dropped s + 1)
                   else tx_dropped s).
Proof. apply send_snapshot_fields. Qed.

Lemma send_in_snapshot_witness :
  let h := Sample.the_host in
  let w := Sample.a_world 1500 in
  let skb := Sample.plain 50 0 0 in
  tx_packets (ovs_vport_get_stats
                (w_vport (snd (__ovs_vport_send h w skb)))) = 1 /\
  tx_bytes (ovs_vport_get_stats
              (w_vport (snd (__ovs_vport_send h w skb)))) = 64.
Proof.
  intros h w skb.
  assert (Hcpu : (this_cpu h < length (percpu_stats (w_vport w)))%nat)
    by (simpl; lia).
  destruct (send_in_snapshot h w skb Hcpu)
    as (_ & _ & _ & _ & H5 & H6 & _).
  split; [rewrite H5|rewrite H6]; vm_compute; reflexivity.
Defined.

(** X10: [ovs_vport_receive] on any CPU adds one packet and the length of
    the packet to the receive counters of the snapshot, changes no other
    field of it, and passes the packet on unchanged together with the
    tunnel key. *)
Theorem receive_in_snapshot (h : host) (v : vport) (skb : sk_buff)
    (tun_key : Z) :
  (this_cpu h < length (percpu_stats v))%nat ->
  let s := ovs_vport_get_stats v in
  let s' := ovs_vport_get_stats (fst (ovs_vport_receive h v skb tun_key)) in
  rx_packets s' = wrap64 (rx_packets s + 1) /\
  rx_bytes s' = wrap64 (rx_bytes s + Z.of_nat (skb_len skb)) /\
  tx_packets s' = tx_packets s /\ tx_bytes s' = tx_bytes s /\
  (forall k, err_field k s' = err_field k s) /\
  snd (ovs_vport_receive h v skb tun_key) = (skb, tun_key).
Proof.
  intros Hcpu. cbv zeta. unfold ovs_vport_receive. cbn [fst snd].
  set (len := Z.of_nat (skb_len skb)).
  pose proof (get_stats_update v (this_cpu h) (rx_account len)) as Hu.
  pose proof (Hu RX_PACKETS 1) as H1. pose proof (Hu RX_BYTES len) as H2.
  pose proof (Hu TX_PACKETS 0) as H3. pose proof (Hu TX_BYTES 0) as H4.
  cbn [traffic_field traffic_cpu rx_account cpu_rx_packets cpu_rx_bytes
       cpu_tx_packets cpu_tx_bytes] in H1, H2, H3, H4.
  rewrite H1, H2, H3, H4;
    try exact Hcpu; try (intros p; rewrite ?wrap64_wrap64, ?Z.add_0_r;
                         reflexivity).
  assert (Hw : forall k, wrap64 (traffic_field k (ovs_vport_get_stats v) + 0)
                         = traffic_field k (ovs_vport_get_stats v)).
  { intros k. rewrite Z.add_0_r. unfold ovs_vport_get_stats.
    rewrite fold_traffic_nonempty
      by (intros E; rewrite E in Hcpu; simpl in Hcpu; lia).
    apply wrap64_wrap64. }
  pose proof (Hw TX_PACKETS) as W1. pose proof (Hw TX_BYTES) as W2.
  cbn [traffic_field] in W1, W2. rewrite W1, W2.
  repeat split; try reflexivity.
  intros k. apply get_stats_update_err.
Qed.

Lemma receive_in_snapshot_witness :
  let h := Sample.the_host in
  let v := Sample.a_port 1500 in
  let skb := Sample.plain 50 0 0 in
  rx_bytes (ovs_vport_get_stats (fst (ovs_vport_receive h v skb 0))) = 64.
Proof.
  intros h v skb.
  assert (Hcpu : (this_cpu h < length (percpu_stats v))%nat) by (simpl; lia).
  destruct (receive_in_snapshot h v skb 0 Hcpu) as (_ & H2 & _).
  rewrite H2. vm_compute. reflexivity.
Defined.

(** X11: the offset of [ovs_vport_set_stats] is purely additive: the
    snapshot after setting the offset [stats] is, field by field, [stats]
    plus the snapshot the port would give with a zero offset. *)
Theorem set_stats_additive (v : vport) (stats : ovs_vport_stats) :
  stats_ok stats ->
  let s := ovs_vport_get_stats (ovs_vport_set_stats v stats) in
  let s0 := ovs_vport_get_stats (ovs_vport_set_stats v zero_stats) in
  (forall k, traffic_field k s
             = wrap64 (traffic_field k stats + traffic_field k s0)) /\
  (forall k, err_field k s = wrap64 (err_field k stats + err_field k s0)).
Proof.
  intros Hok. cbv zeta.
  assert (Hz : stats_ok zero_stats)
    by (unfold stats_ok, u64_ok; simpl; lia).
  destruct (get_stats_is_sum_any (ovs_vport_set_stats v stats) Hok)
    as [Ht He].
  destruct (get_stats_is_sum_any (ovs_vport_set_stats v zero_stats) Hz)
    as [Ht0 He0].
  split; intros k.
  - rewrite Ht, Ht0. cbn [ovs_vport_set_stats set_offset_stats offset_stats
                          percpu_stats].
    rewrite wrap64_idem_r. f_equal.
    destruct k; reflexivity.
  - rewrite He, He0. cbn [ovs_vport_set_stats set_offset_stats offset_stats
                          err_stats].
    rewrite wrap64_idem_r. f_equal.
    destruct k; reflexivity.
Qed.

Lemma set_stats_additive_witness :
  let p := {| cpu_rx_packets := 3; cpu_rx_bytes := 300;
              cpu_tx_packets := 1; cpu_tx_bytes := 60 |} in
  let v := set_percpu_stats (Sample.a_port 1500) [p; p] in
  let stats := {| rx_packets := 100; tx_packets := 0; rx_bytes := 0;
                  tx_bytes := 0; rx_errors := 0; tx_errors := 0;
                  rx_dropped := 0; tx_dropped := 0 |} in
  rx_packets (ovs_vport_get_stats (ovs_vport_set_stats v stats)) = 106.
Proof.
  intros p v stats.
  assert (Hok : stats_ok stats) by (unfold stats_ok, u64_ok; simpl; lia).
  destruct (set_stats_additive v stats Hok) as [Ht _].
  pose proof (Ht RX_PACKETS) as H. cbn [traffic_field] in H.
  rewrite H. vm_compute. reflexivity.
Defined.

(** ** Allocation and release of ports *)

Lemma remove_one_head (a : nat) (l : list nat) : remove_one a (a :: l) = l.
Proof. simpl. rewrite Nat.eqb_refl. reflexivity. Qed.

(** X12: when [ovs_vport_alloc] fails, the error is [-ENOMEM] and no
    memory stays allocated: if the per-CPU counters cannot be had, the
    port just allocated is given back. *)
Theorem alloc_failure_no_leak (mh : mem_host) (m m' : kmem) (priv_size : Z)
    (ops : vport_ops) (parms : vport_parms) (err : Z) :
  ovs_vport_alloc mh m priv_size ops parms = (ALLOC_ERR err, m') ->
  err = - ENOMEM /\ km_live m' = km_live m.
Proof.
  unfold ovs_vport_alloc, kmalloc.
  destruct (kmalloc_ok mh (km_next m)); cbn [km_next km_live].
  - destruct (kmalloc_ok mh (S (km_next m))); intros H; [discriminate|].
    injection H as <- <-. split; [reflexivity|].
    unfold kfree. cbn [km_live]. apply remove_one_head.
  - intros H. injection H as <- <-. split; reflexivity.
Qed.

Lemma alloc_failure_no_leak_witness :
  let mh := {| kmalloc_ok := fun n => Nat.eqb n 4; nr_cpus := 2;
               sizeof_vport := 300 |} in
  let m := {| km_live := [1%nat; 3%nat]; km_next := 4 |} in
  let ops := {| vops_type := OVS_VPORT_TYPE_NETDEV;
                vops_create := fun p => ERR_PTR 0 |} in
  let parms := {| parms_name := []; parms_type := OVS_VPORT_TYPE_NETDEV;
                  parms_dp_net := 0; parms_port_no := 1;
                  parms_upcall_portid := 0 |} in
  km_live (snd (ovs_vport_alloc mh m 16 ops parms)) = [1%nat; 3%nat].
Proof.
  intros mh m ops parms.
  apply (alloc_failure_no_leak mh m (snd (ovs_vport_alloc mh m 16 ops parms))
           16 ops parms (- ENOMEM)).
  reflexivity.
Defined.

Lemma get_stats_zeroed (v : vport) (n : nat) :
  offset_stats v = zero_stats ->
  err_stats_zero (err_stats v) ->
  percpu_stats v = repeat zero_tstats n ->
  ovs_vport_get_stats v = zero_stats.
Proof.
  intros Ho He Hp. unfold ovs_vport_get_stats. rewrite Ho, Hp.
  rewrite add_err_stats_zero
    by (try exact He; unfold stats_ok, u64_ok; simpl; lia).
  clear Hp. induction n as [|n IH]; simpl; [reflexivity|exact IH].
Qed.

(** X13: a port that [ovs_vport_alloc] returns carries the datapath, port
    number, upcall id and type it was asked for, has one counter slot per
    possible CPU, and its snapshot is all zero; the port and its counters
    are two new objects, distinct from each other and from every object
    allocated before. *)
Theorem alloc_success_zeroed (mh : mem_host) (m m' : kmem) (priv_size : Z)
    (ops : vport_ops) (parms : vport_parms) (vm : vport_mem) :
  Forall (fun a => (a < km_next m)%nat) (km_live m) ->
  ovs_vport_alloc mh m priv_size ops parms = (ALLOC_OK vm, m') ->
  let v := vm_vport vm in
  dp_net v = parms_dp_net parms /\
  port_no v = parms_port_no parms /\
  upcall_portid v = parms_upcall_portid parms /\
  ops_type v = vops_type ops /\
  length (percpu_stats v) = nr_cpus mh /\
  ovs_vport_get_stats v = zero_stats /\
  vm_size vm = vport_alloc_size mh priv_size /\
  km_live m' = vm_percpu vm :: vm_addr vm :: km_live m /\
  vm_addr vm <> vm_percpu vm /\
  ~ In (vm_addr vm) (km_live m) /\ ~ In (vm_percpu vm) (km_live m) /\
  Forall (fun a => (a < km_next m')%nat) (km_live m').
Proof.
  intros Hlive. unfold ovs_vport_alloc, kmalloc.
  destruct (kmalloc_ok mh (km_next m)); cbn [km_next km_live];
    [|discriminate].
  destruct (kmalloc_ok mh (S (km_next m))); [|discriminate].
  intros H. injection H as <- <-. cbv zeta.
  cbn [vm_vport vm_addr vm_percpu vm_size dp_net port_no upcall_portid
       ops_type percpu_stats km_live km_next].
  rewrite repeat_length.
  assert (Hfresh : forall a, (km_next m <= a)%nat -> ~ In a (km_live m)).
  { intros a Ha Hin. rewrite Forall_forall in Hlive.
    specialize (Hlive a Hin). lia. }
  repeat split; try reflexivity.
  - apply (get_stats_zeroed _ (nr_cpus mh)); try reflexivity.
    unfold err_stats_zero. simpl. auto.
  - lia.
  - apply Hfresh. lia.
  - apply Hfresh. lia.
  - constructor; [lia|]. constructor; [lia|].
    eapply Forall_impl; [|exact Hlive]. simpl. intros a Ha. lia.
Qed.

Lemma alloc_success_zeroed_witness :
  let mh := {| kmalloc_ok := fun n => true; nr_cpus := 2;
               sizeof_vport := 300 |} in
  let m := {| km_live := [1%nat; 3%nat]; km_next := 4 |} in
  let ops := {| vops_type := OVS_VPORT_TYPE_NETDEV;
                vops_create := fun p => ERR_PTR 0 |} in
  let parms := {| parms_name := []; parms_type := OVS_VPORT_TYPE_NETDEV;
                  parms_dp_net := 7; parms_port_no := 1;
                  parms_upcall_portid := 0 |} in
  exists vm m',
    ovs_vport_alloc mh m 16 ops parms = (ALLOC_OK vm, m') /\
    ovs_vport_get_stats (vm_vport vm) = zero_stats /\
    vm_size vm = 320.
Proof.
  intros mh m ops parms.
  destruct (ovs_vport_alloc mh m 16 ops parms) as [[e|vm] m'] eqn:Hrun;
    [discriminate|].
  exists vm, m'.
  assert (Hlive : Forall (fun a => (a < km_next m)%nat) (km_live m))
    by (simpl; repeat constructor; lia).
  destruct (alloc_success_zeroed mh m m' 16 ops parms vm Hlive Hrun)
    as (_ & _ & _ & _ & _ & Hz & Hs & _).
  split; [reflexivity|]. split; [exact Hz|].
  rewrite Hs. vm_compute. reflexivity.
Defined.

(** X14: [ovs_vport_free] gives back exactly what [ovs_vport_alloc] took:
    after allocation and release the allocated objects are those of
    before.  The same holds when the release goes through
    [ovs_vport_deferred_free] and a grace period, until which nothing is
    released; deferring a NULL pointer queues nothing. *)
Theorem alloc_free_round_trip (mh : mem_host) (m m' : kmem) (priv_size : Z)
    (ops : vport_ops) (parms : vport_parms) (vm : vport_mem)
    (pending : list vport_mem) :
  ovs_vport_alloc mh m priv_size ops parms = (ALLOC_OK vm, m') ->
  km_live (ovs_vport_free m' vm) = km_live m /\
  km_live (rcu_grace_period m' (ovs_vport_deferred_free [] (Some vm)))
  = km_live m /\
  In (vm_addr vm) (km_live m') /\ In (vm_percpu vm) (km_live m') /\
  ovs_vport_deferred_free pending None = pending.
Proof.
  unfold ovs_vport_alloc, kmalloc.
  destruct (kmalloc_ok mh (km_next m)); cbn [km_next km_live];
    [|discriminate].
  destruct (kmalloc_ok mh (S (km_next m))); [|discriminate].
  intros H. injection H as <- <-.
  unfold rcu_grace_period, ovs_vport_deferred_free, ovs_vport_free, kfree.
  cbn [app fold_left vm_addr vm_percpu km_live km_next].
  rewrite !remove_one_head. cbn [In].
  split; [reflexivity|]. split; [reflexivity|].
  split; [right; left; reflexivity|].
  split; [left; reflexivity|]. destruct pending; reflexivity.
Qed.

Lemma alloc_free_round_trip_witness :
  let mh := {| kmalloc_ok := fun n => true; nr_cpus := 2;
               sizeof_vport := 300 |} in
  let m := {| km_live := [1%nat; 3%nat]; km_next := 4 |} in
  let ops := {| vops_type := OVS_VPORT_TYPE_NETDEV;
                vops_create := fun p => ERR_PTR 0 |} in
  let parms := {| parms_name := []; parms_type := OVS_VPORT_TYPE_NETDEV;
                  parms_dp_net := 7; parms_port_no := 1;
                  parms_upcall_portid := 0 |} in
  exists vm m',
    ovs_vport_alloc mh m 0 ops parms = (ALLOC_OK vm, m') /\
    km_live (ovs_vport_free m' vm) = [1%nat; 3%nat].
Proof.
  intros mh m ops parms.
  destruct (ovs_vport_alloc mh m 0 ops parms) as [[e|vm] m'] eqn:Hrun;
    [discriminate|].
  exists vm, m'. split; [reflexivity|].
  destruct (alloc_free_round_trip mh m m' 0 ops parms vm [] Hrun)
    as (H1 & _). exact H1.
Defined.

Lemma align8 (x : Z) :
  0 <= x < 2 ^ 63 ->
  ALIGN x VPORT_ALIGN = 8 * ((x + 7) / 8).
Proof.
  intros Hx. unfold ALIGN, VPORT_ALIGN. change (8 - 1) with 7.
  assert (Hr : 0 <= x + 7 < 2 ^ 64)
    by (change (2 ^ 63) with 9223372036854775808 in Hx;
        change (2 ^ 64) with 18446744073709551616; lia).
  rewrite (wrap64_small (x + 7)) by exact Hr.
  unfold wrap64. rewrite <- (Z.land_ones (Z.lnot 7)) by lia.
  rewrite (Z.land_comm (Z.lnot 7)), Z.land_assoc, Z.land_ones by lia.
  rewrite Z.mod_small by exact Hr.
  rewrite <- Z.ldiff_land. change 7 with (Z.ones 3) at 2.
  rewrite Z.ldiff_ones_r by lia.
  rewrite Z.shiftl_mul_pow2, Z.shiftr_div_pow2 by lia.
  change (2 ^ 3) with 8. lia.
Qed.

(** X15: the size [ovs_vport_alloc] asks for.  Without private data it is
    the size of [struct vport].  With private data, the structure is
    rounded up to the next multiple of [VPORT_ALIGN], by less than
    [VPORT_ALIGN] bytes, and the private size is added, so that the private
    area starts aligned, behind the structure, and fits. *)
Theorem alloc_size_aligned (mh : mem_host) (priv_size : Z) :
  0 <= sizeof_vport mh < 2 ^ 62 ->
  0 <= priv_size < 2 ^ 31 ->
  let base := ALIGN (sizeof_vport mh) VPORT_ALIGN in
  vport_alloc_size mh 0 = sizeof_vport mh /\
  base mod VPORT_ALIGN = 0 /\
  sizeof_vport mh <= base < sizeof_vport mh + VPORT_ALIGN /\
  (0 < priv_size -> vport_alloc_size mh priv_size = base + priv_size).
Proof.
  intros Hs Hp. cbv zeta.
  assert (Hs' : 0 <= sizeof_vport mh < 2 ^ 63)
    by (change (2 ^ 62) with 4611686018427387904 in Hs;
        change (2 ^ 63) with 9223372036854775808; lia).
  rewrite (align8 _ Hs'). unfold VPORT_ALIGN.
  split; [reflexivity|]. split; [|split].
  - Z.div_mod_to_equations. lia.
  - Z.div_mod_to_equations. lia.
  - intros Hpos. unfold vport_alloc_size.
    replace (priv_size =? 0) with false by (symmetry; apply Z.eqb_neq; lia).
    rewrite (align8 _ Hs'). apply wrap64_small. unfold u64_ok.
    change (2 ^ 62) with 4611686018427387904 in Hs.
    change (2 ^ 31) with 2147483648 in Hp.
    change (2 ^ 64) with 18446744073709551616.
    Z.div_mod_to_equations. lia.
Qed.

Lemma alloc_size_aligned_witness :
  let mh := {| kmalloc_ok := fun n => true; nr_cpus := 2;
               sizeof_vport := 300 |} in
  ALIGN 300 VPORT_ALIGN = 304 /\ vport_alloc_size mh 16 = 320.
Proof.
  intros mh.
  destruct (alloc_size_aligned mh 16) as (_ & _ & _ & H4).
  - simpl. lia.
  - lia.
  - split; [vm_compute; reflexivity|].
    rewrite H4 by lia. vm_compute. reflexivity.
Defined.

(** ** Options over netlink *)

Lemma firstn_mem_write (d : list byte) (off : nat) (src : list byte)
    (n : nat) :
  (off + length src <= length d)%nat -> (n <= off)%nat ->
  firstn n (mem_write d off src) = firstn n d.
Proof.
  intros Hin Hn. rewrite mem_write_in by exact Hin.
  rewrite firstn_app, length_firstn, firstn_firstn.
  replace (n - Nat.min off (length d))%nat with 0%nat by lia.
  rewrite Nat.min_l by lia. simpl. apply app_nil_r.
Qed.

Lemma firstn_store16 (h : host) (d : list byte) (off n : nat) (v : Z) :
  (off + 2 <= length d)%nat -> (n <= off)%nat ->
  firstn n (store16 h d off v) = firstn n d.
Proof.
  intros Hin Hn. destruct (store16_write h d off v) as (x & y & ->).
  apply firstn_mem_write; simpl; lia.
Qed.

Lemma load16_store16_other (h : host) (d : list byte) (off i : nat) (v : Z) :
  (off + 2 <= length d)%nat ->
  (i + 2 <= off \/ off + 2 <= i)%nat ->
  load16 h (store16 h d off v) i = load16 h d i.
Proof.
  intros Hin Hi. rewrite <- !htons_be16.
  rewrite be16_store16_other by assumption. reflexivity.
Qed.

(** The message after [nla_nest_start] succeeded. *)
Lemma nla_nest_start_ok (h : host) (skb : nl_skb) (attrtype : Z) :
  (NLA_HDRLEN <= nl_tailroom skb)%nat ->
  exists hdr,
    nla_nest_start h skb attrtype
    = (Some (length (nl_data skb)),
       {| nl_data := nl_data skb ++ hdr;
          nl_tailroom := nl_tailroom skb - NLA_HDRLEN |}) /\
    length hdr = NLA_HDRLEN /\
    load16 h (nl_data skb ++ hdr) (length (nl_data skb) + 2)
    = wrap16 attrtype.
Proof.
  intros Hroom. unfold nla_nest_start.
  replace (nl_tailroom skb <? NLA_HDRLEN)%nat with false
    by (symmetry; apply Nat.ltb_ge; exact Hroom).
  cbv zeta. set (d := nl_data skb). set (n := length d).
  set (d1 := store16 h (d ++ repeat x00 NLA_HDRLEN) n (Z.of_nat NLA_HDRLEN)).
  set (d2 := store16 h d1 (n + 2) attrtype).
  assert (Hl0 : length (d ++ repeat x00 NLA_HDRLEN) = (n + 4)%nat)
    by (rewrite length_app, repeat_length; reflexivity).
  assert (Hl1 : length d1 = (n + 4)%nat)
    by (subst d1; rewrite store16_length; exact Hl0).
  assert (Hl2 : length d2 = (n + 4)%nat)
    by (subst d2; rewrite store16_length; exact Hl1).
  assert (Hpre : firstn n d2 = d).
  { subst d2 d1. rewrite !firstn_store16 by (rewrite ?store16_length; lia).
    rewrite firstn_app. unfold n. rewrite Nat.sub_diag, firstn_all.
    simpl. apply app_nil_r. }
  exists (skipn n d2).
  assert (Hd2 : d ++ skipn n d2 = d2)
    by (rewrite <- Hpre at 1; apply firstn_skipn).
  rewrite Hd2. split; [reflexivity|]. split.
  - rewrite length_skipn, Hl2. unfold NLA_HDRLEN. lia.
  - subst d2. apply load16_store16. lia.
Qed.

(** X16: [ovs_vport_get_options] leaves the message as it was whenever it
    returns an error, as its description promises: without room for the
    attribute header it returns [-EMSGSIZE] at once, and an error of the
    back end is returned after the message is cut back to where it ended
    before.  This needs of the back end only that it appends to the
    message.  Without a [get_options] operation the result is 0 and the
    message is untouched. *)
Theorem get_options_error_unmodified (h : host) (ops : vport_opt_ops)
    (v : vport) (skb : nl_skb) :
  (forall g, vops_get_options ops = Some g ->
             forall s, exists app,
               nl_data (snd (g v s)) = nl_data s ++ app /\
               (nl_tailroom (snd (g v s)) + length app = nl_tailroom s)%nat) ->
  let res := ovs_vport_get_options h ops v skb in
  (fst res <> 0 -> snd res = skb) /\
  ((nl_tailroom skb < NLA_HDRLEN)%nat -> vops_get_options ops <> None ->
   fst res = - EMSGSIZE) /\
  (vops_get_options ops = None -> res = (0, skb)).
Proof.
  intros Happ. cbv zeta. unfold ovs_vport_get_options.
  destruct (vops_get_options ops) as [g|]; [|repeat split; congruence].
  specialize (Happ g eq_refl).
  destruct (Nat.ltb_spec (nl_tailroom skb) NLA_HDRLEN) as [Hfull|Hroom].
  - unfold nla_nest_start.
    replace (nl_tailroom skb <? NLA_HDRLEN)%nat with true
      by (symmetry; apply Nat.ltb_lt; exact Hfull).
    cbn [fst snd]. split; [intros _; reflexivity|].
    split; [intros _ _; reflexivity|]. intros H. discriminate H.
  - destruct (nla_nest_start_ok h skb OVS_VPORT_ATTR_OPTIONS Hroom)
      as (hdr & -> & Hhdr & _).
    set (s1 := {| nl_data := nl_data skb ++ hdr;
                  nl_tailroom := nl_tailroom skb - NLA_HDRLEN |}).
    destruct (Happ s1) as (app & Hdata & Hroom').
    destruct (g v s1) as [err s2]. cbn [snd] in Hdata, Hroom'.
    split; [|split; [lia|discriminate]].
    destruct (err =? 0) eqn:He; cbn [negb fst snd]; [congruence|].
    intros _. unfold nla_nest_cancel. rewrite Hdata.
    subst s1. cbn [nl_data nl_tailroom] in *.
    replace (length (nl_data skb) <=? length ((nl_data skb ++ hdr) ++ app))%nat
      with true by (symmetry; apply Nat.leb_le; rewrite !length_app; lia).
    rewrite <- app_assoc, firstn_app, Nat.sub_diag, firstn_all.
    simpl. rewrite app_nil_r, !length_app.
    destruct skb as [d room]. cbn [nl_data nl_tailroom] in *.
    f_equal. lia.
Qed.

Lemma get_options_error_unmodified_witness :
  let g := fun (v : vport) (s : nl_skb) =>
             if (nl_tailroom s <? 2)%nat then (- EMSGSIZE, s)
             else (- 22, {| nl_data := nl_data s ++ [x01; x02];
                            nl_tailroom := nl_tailroom s - 2 |}) in
  let ops := {| vops_set_options := None; vops_get_options := Some g |} in
  let skb := {| nl_data := [x0a; x0b]; nl_tailroom := 16 |} in
  ovs_vport_get_options Sample.the_host ops (Sample.a_port 1500) skb
  = (- 22, skb).
Proof.
  intros g ops skb.
  assert (Happ : forall g', vops_get_options ops = Some g' ->
            forall s, exists app,
              nl_data (snd (g' (Sample.a_port 1500) s)) = nl_data s ++ app /\
              (nl_tailroom (snd (g' (Sample.a_port 1500) s)) + length app
               = nl_tailroom s)%nat).
  { intros g' Hg. injection Hg as <-. intros s. subst g. cbv beta.
    destruct (Nat.ltb_spec (nl_tailroom s) 2) as [Hr|Hr].
    - exists []. simpl. split; [symmetry; apply app_nil_r|lia].
    - exists [x01; x02]. simpl. split; [reflexivity|lia]. }
  destruct (get_options_error_unmodified Sample.the_host ops
              (Sample.a_port 1500) skb Happ) as (H1 & _).
  rewrite (surjective_pairing (ovs_vport_get_options _ _ _ _)).
  rewrite H1 by (vm_compute; discriminate).
  reflexivity.
Defined.

Lemma skipn_mem_write (d : list byte) (off : nat) (src : list byte)
    (n : nat) :
  (off + length src <= length d)%nat -> (off + length src <= n)%nat ->
  skipn n (mem_write d off src) = skipn n d.
Proof.
  intros Hin Hn. rewrite mem_write_in by exact Hin.
  assert (Hf : length (firstn off d) = off) by (rewrite length_firstn; lia).
  rewrite skipn_app, Hf, (@skipn_all2 _ _ (firstn off d)) by lia.
  rewrite skipn_app, (@skipn_all2 _ _ src) by lia.
  simpl. rewrite skipn_skipn. f_equal. lia.
Qed.

Lemma skipn_store16 (h : host) (d : list byte) (off n : nat) (v : Z) :
  (off + 2 <= length d)%nat -> (off + 2 <= n)%nat ->
  skipn n (store16 h d off v) = skipn n d.
Proof.
  intros Hin Hn. destruct (store16_write h d off v) as (x & y & ->).
  apply skipn_mem_write; simpl; lia.
Qed.

(** X17: when there is room and the back end reports its options without
    error, [ovs_vport_get_options] returns 0 and has appended one
    attribute: what the message held is untouched, behind it stands a
    header of type [OVS_VPORT_ATTR_OPTIONS] whose length covers the header
    and all the back end wrote, and behind that what the back end wrote. *)
Theorem get_options_nests (h : host) (ops : vport_opt_ops) (v : vport)
    (skb : nl_skb) (g : vport -> nl_skb -> Z * nl_skb) (app : list byte) :
  vops_get_options ops = Some g ->
  (NLA_HDRLEN <= nl_tailroom skb)%nat ->
  let s1 := snd (nla_nest_start h skb OVS_VPORT_ATTR_OPTIONS) in
  fst (g v s1) = 0 ->
  nl_data (snd (g v s1)) = nl_data s1 ++ app ->
  Z.of_nat (NLA_HDRLEN + length app) < 65536 ->
  let res := ovs_vport_get_options h ops v skb in
  let d' := nl_data (snd res) in
  let start := length (nl_data skb) in
  fst res = 0 /\
  firstn start d' = nl_data skb /\
  length d' = (start + NLA_HDRLEN + length app)%nat /\
  skipn (start + NLA_HDRLEN) d' = app /\
  nla_len h d' start = Z.of_nat (NLA_HDRLEN + length app) /\
  nla_type h d' start = OVS_VPORT_ATTR_OPTIONS.
Proof.
  intros Hg Hroom. cbv zeta. unfold ovs_vport_get_options. rewrite Hg.
  destruct (nla_nest_start_ok h skb OVS_VPORT_ATTR_OPTIONS Hroom)
    as (hdr & -> & Hhdr & Hty).
  cbn [snd]. set (d := nl_data skb) in *.
  set (s1 := {| nl_data := d ++ hdr;
                nl_tailroom := nl_tailroom skb - NLA_HDRLEN |}).
  destruct (g v s1) as [err s2]. cbn [fst snd nl_data].
  intros -> Hdata Hlen. cbn [Z.eqb negb fst snd].
  unfold nla_nest_end, nla_len, nla_type. cbn [nl_data].
  rewrite Hdata. subst s1. cbn [nl_data].
  unfold NLA_HDRLEN in *.
  assert (Hl : length ((d ++ hdr) ++ app) = (length d + 4 + length app)%nat)
    by (rewrite !length_app; lia).
  rewrite Hl.
  split; [reflexivity|]. split; [|split; [|split; [|split]]].
  - rewrite firstn_store16 by lia.
    rewrite <- app_assoc, firstn_app, Nat.sub_diag, firstn_all.
    simpl. apply app_nil_r.
  - rewrite store16_length. exact Hl.
  - rewrite skipn_store16 by lia.
    rewrite skipn_app, skipn_all2 by (rewrite length_app; lia).
    rewrite length_app, Hhdr, Nat.sub_diag. reflexivity.
  - rewrite load16_store16 by lia.
    replace (length d + 4 + length app - length d)%nat
      with (4 + length app)%nat by lia.
    apply wrap16_small. change (2 ^ 16) with 65536. lia.
  - rewrite load16_store16_other by lia.
    rewrite load16_app_l by (rewrite length_app; lia).
    rewrite Hty. reflexivity.
Qed.

Lemma get_options_nests_witness :
  let g := fun (v : vport) (s : nl_skb) =>
             (0, {| nl_data := nl_data s ++ [x01; x02];
                    nl_tailroom := nl_tailroom s - 2 |}) in
  let ops := {| vops_set_options := None; vops_get_options := Some g |} in
  let skb := {| nl_data := [x0a; x0b]; nl_tailroom := 16 |} in
  let res := ovs_vport_get_options Sample.the_host ops (Sample.a_port 1500)
               skb in
  fst res = 0 /\ nla_len Sample.the_host (nl_data (snd res)) 2 = 6.
Proof.
  intros g ops skb res.
  destruct (get_options_nests Sample.the_host ops (Sample.a_port 1500) skb g
              [x01; x02] eq_refl) as (H1 & _ & _ & _ & H5 & _).
  - simpl. unfold NLA_HDRLEN. lia.
  - reflexivity.
  - reflexivity.
  - simpl. unfold NLA_HDRLEN. lia.
  - split; [exact H1|exact H5].
Defined.

(** ** Sizes and number of the fragments *)

Section ChainSizes.

Variable d : list byte.
Variables ip_hlen frag_max dfv : Z.

Hypothesis Hihl : ip_hlen = wire_ihl d ETH_HLEN * 4.
Hypothesis Hfmax : 0 < frag_max.
Hypothesis Hfmax8 : frag_max mod 8 = 0.
Hypothesis Hdfv : dfv = 0 \/ dfv = IP_DF.

Local Abbreviation chain := (frag_chain d ip_hlen frag_max dfv).

(** No fragment of a chain is empty or carries more than [frag_max]
    bytes. *)
Lemma chain_sizes (frs : list sk_buff) :
  forall off left,
    chain off left frs -> 0 <= off -> 0 <= left -> off + left < 65536 ->
    Forall (fun f => 0 < Z.of_nat (length (payload_of f)) <= frag_max /\
                     wire_tot_len (skb_data f) ETH_HLEN <= ip_hlen + frag_max)
           frs.
Proof.
  induction frs as [|f rest IH]; intros off left Hc Ho Hl Hsum.
  - constructor.
  - destruct (chain_head d ip_hlen frag_max dfv Hihl Hfmax Hfmax8 Hdfv
                off left f rest Hc Ho Hsum)
      as (Hn & _ & Ht & _ & Hlen & _ & _ & _ & _ & Hrest).
    set (n := if frag_max <? left then frag_max else left) in *.
    assert (Hnm : n <= frag_max)
      by (subst n; destruct (Z.ltb_spec frag_max left); lia).
    constructor.
    + rewrite Ht, Hlen. lia.
    + apply (IH _ _ Hrest); lia.
Qed.

(** A chain has as many fragments as pieces of [frag_max] bytes are needed
    for what is left. *)
Lemma chain_count (frs : list sk_buff) :
  forall off left,
    chain off left frs -> 0 <= off -> 0 <= left -> off + left < 65536 ->
    Z.of_nat (length frs) = div_round_up left frag_max.
Proof.
  unfold div_round_up.
  induction frs as [|f rest IH]; intros off left Hc Ho Hl Hsum.
  - cbn [frag_chain] in Hc. simpl.
    replace left with 0 by lia. symmetry. apply Z.div_small. lia.
  - destruct (chain_head d ip_hlen frag_max dfv Hihl Hfmax Hfmax8 Hdfv
                off left f rest Hc Ho Hsum)
      as (Hn & _ & _ & _ & _ & _ & _ & _ & _ & Hrest).
    cbn [length]. rewrite Nat2Z.inj_succ, (IH _ _ Hrest) by lia.
    destruct (Z.ltb_spec frag_max left) as [Hlt|Hge].
    + replace (left + frag_max - 1)
        with (left - frag_max + frag_max - 1 + 1 * frag_max) by lia.
      rewrite Z.div_add by lia. lia.
    + replace (left - left + frag_max - 1) with (frag_max - 1) by lia.
      rewrite Z.div_small by lia.
      apply Z.div_unique with (r := left - 1); lia.
Qed.

End ChainSizes.

(** X18: no fragment is larger than the ceiling allows, when the ceiling
    has room for at least eight bytes of payload behind the IPv4 header
    (below that the loop makes no progress or, with a ceiling below the
    header length, sends the packet in one piece).  For an untagged packet
    with a header of at least 20 bytes whose buffer holds the datagram,
    and buffers to be had, every frame [ovs_vport_fragment] hands to the
    back end has an IPv4 total length of at most the ceiling, holds the
    Ethernet header and that many bytes, and carries at least one byte of
    payload. *)
Theorem fragments_fit_ceiling (h : host) (fuel : nat) (w : world)
    (skb : sk_buff) (frag_max_size mtu : Z) :
  let d := skb_data skb in
  let ip_hlen := wire_ihl d ETH_HLEN * 4 in
  let tot := wire_tot_len d ETH_HLEN in
  let ceiling := frag_ceiling frag_max_size mtu in
  (forall n, alloc_ok h n = true) ->
  network_header skb = ETH_HLEN ->
  20 <= ip_hlen -> ip_hlen + 8 <= ceiling -> ceiling < 2 ^ 32 ->
  ip_hlen <= tot ->
  (ETH_HLEN + Z.to_nat tot <= skb_len skb)%nat ->
  tot < Z.of_nat fuel ->
  exists ret w',
    ovs_vport_fragment h fuel w skb frag_max_size mtu = Some (ret, w') /\
    Forall (fun f =>
              wire_tot_len (skb_data f) ETH_HLEN <= ceiling /\
              Z.of_nat (skb_len f)
              = Z.of_nat ETH_HLEN + wire_tot_len (skb_data f) ETH_HLEN /\
              0 < Z.of_nat (length (payload_of f)))
           (emitted w w').
Proof.
  intros d ip_hlen tot ceiling Halloc Hnh Hh Hc Hc32 Htot Hlen Hfuel.
  pose proof (be16_range d (ETH_HLEN + 2)) as Hr.
  fold (wire_tot_len d ETH_HLEN) in Hr. fold tot in Hr.
  destruct (fragment_run h fuel w skb frag_max_size mtu Halloc Hnh Hh Hc
              Hc32 Htot Hlen Hfuel)
    as (ret & w' & Hrun & Hchain & _).
  fold d ip_hlen tot ceiling in Hchain.
  set (frag_unit := 8 * ((ceiling - ip_hlen) / 8)) in Hchain.
  set (dfv := Z.land (be16 d (ETH_HLEN + 6)) IP_DF) in *.
  assert (Hdfv : dfv = 0 \/ dfv = IP_DF).
  { subst dfv. change IP_DF with (2 ^ 14). rewrite land_pow2 by lia.
    destruct (Z.testbit (be16 d (ETH_HLEN + 6)) 14); auto. }
  assert (Hu : 0 < frag_unit /\ frag_unit mod 8 = 0
               /\ ip_hlen + frag_unit <= ceiling)
    by (subst frag_unit; Z.div_mod_to_equations; lia).
  destruct Hu as (Hu & Hu8 & Hfit).
  exists ret, w'. split; [exact Hrun|].
  pose proof (chain_sizes d ip_hlen frag_unit dfv eq_refl Hu Hu8 Hdfv
                (emitted w w') 0 (tot - ip_hlen) Hchain
                ltac:(lia) ltac:(lia) ltac:(lia)) as Hs.
  pose proof (chain_each d ip_hlen frag_unit dfv eq_refl Hu Hu8 Hdfv
                (emitted w w') 0 (tot - ip_hlen) Hchain
                ltac:(lia) ltac:(lia) ltac:(lia)) as He.
  rewrite Forall_forall in *. intros f Hin.
  destruct (Hs f Hin) as (Hp & Ht). destruct (He f Hin) as (_ & _ & Hl & _).
  split; [lia|]. split; [exact Hl|lia].
Qed.

Lemma fragments_fit_ceiling_witness :
  let h := Sample.the_host in
  let w := Sample.a_world 36 in
  let skb := Sample.plain 50 0 0 in
  exists ret w',
    ovs_vport_fragment h 60 w skb 0 36 = Some (ret, w') /\
    Forall (fun f => wire_tot_len (skb_data f) ETH_HLEN <= 36) (emitted w w').
Proof.
  intros h w skb.
  destruct (fragments_fit_ceiling h 60 w skb 0 36)
    as (ret & w' & Hrun & Hall).
  - intros n. reflexivity.
  - reflexivity.
  - vm_compute. discriminate.
  - vm_compute. discriminate.
  - vm_compute. reflexivity.
  - vm_compute. discriminate.
  - apply Nat.leb_le. vm_compute. reflexivity.
  - vm_compute. reflexivity.
  - exists ret, w'. split; [exact Hrun|].
    eapply Forall_impl; [|exact Hall]. intros f (H1 & _). exact H1.
Defined.



(** ** When [ovs_vport_send] sends directly *)

(** X20: without a per-packet override, [ovs_vport_send] sends the packet
    as it is in each of these cases: the port has no MTU (any type but the
    two device-backed ones, or a device MTU of 0); the frame is neither
    IPv4 nor IPv4 behind one VLAN tag; the don't-fragment bit is set; the
    total length is within the MTU.  Only an oversize IPv4 packet without
    that bit is ever fragmented by MTU. *)
Theorem send_direct_cases (h : host) (fuel : nat) (w : world) (skb : sk_buff) :
  cb_frag_max_size (skb_cb skb) = 0 ->
  let d := skb_data skb in
  let mtu := send_mtu (w_vport w) in
  let plain := be16 d (mac_header skb + 12) =? ETH_P_IP in
  let tagged := (be16 d (mac_header skb + 12) =? ETH_P_8021Q)
                && (be16 d (mac_header skb + 16) =? ETH_P_IP) in
  (mtu = 0 \/ plain || tagged = false \/
   wire_df d (network_header skb) = true \/
   wire_tot_len d (network_header skb) <= mtu) ->
  ovs_vport_send h fuel w skb = Some (__ovs_vport_send h w skb).
Proof.
  intros Hfms. cbv zeta. intros Hcase. unfold ovs_vport_send.
  rewrite Hfms. simpl (0 <? 0).
  destruct (Z.eqb_spec (send_mtu (w_vport w)) 0) as [Hz|Hnz];
    [reflexivity|].
  unfold eth_h_proto, h_vlan_encapsulated_proto, ntohs, ip_frag_off,
    ip_tot_len.
  rewrite !load16_eqb_htons by (unfold ETH_P_IP, ETH_P_8021Q; lia).
  rewrite df_test. fold (ntohs h). rewrite ntohs_load16.
  fold (wire_tot_len (skb_data skb) (network_header skb)).
  assert (Hfit : wire_df (skb_data skb) (network_header skb) = false ->
                 (send_mtu (w_vport w)
                  <? wire_tot_len (skb_data skb) (network_header skb)) = true ->
                 (be16 (skb_data skb) (mac_header skb + 12) =? ETH_P_IP)
                 || (be16 (skb_data skb) (mac_header skb + 12) =? ETH_P_8021Q)
                    && (be16 (skb_data skb) (mac_header skb + 16) =? ETH_P_IP)
                 = false).
  { intros Hdf Hbig. apply Z.ltb_lt in Hbig.
    destruct Hcase as [H|[H|[H|H]]]; [lia|exact H|congruence|lia]. }
  destruct (be16 (skb_data skb) (mac_header skb + 12) =? ETH_P_IP).
  - destruct (wire_df (skb_data skb) (network_header skb)); [reflexivity|].
    destruct (send_mtu (w_vport w)
              <? wire_tot_len (skb_data skb) (network_header skb));
      [|reflexivity].
    discriminate (Hfit eq_refl eq_refl).
  - destruct (be16 (skb_data skb) (mac_header skb + 12) =? ETH_P_8021Q);
      [|reflexivity].
    destruct (be16 (skb_data skb) (mac_header skb + 16) =? ETH_P_IP);
      [|reflexivity].
    destruct (wire_df (skb_data skb) (network_header skb)); [reflexivity|].
    destruct (send_mtu (w_vport w)
              <? wire_tot_len (skb_data skb) (network_header skb));
      [|reflexivity].
    discriminate (Hfit eq_refl eq_refl).
Qed.

(** An ARP frame of 2000 bytes on a port with MTU 1500 goes out whole. *)
Lemma send_direct_cases_witness :
  let h := Sample.the_host in
  let w := Sample.a_world 1500 in
  let skb := Sample.a_packet (Sample.eth_addrs ++ [0x08; 0x06]
                              ++ Sample.payload 1986) 14 0 in
  ovs_vport_send h 9 w skb = Some (__ovs_vport_send h w skb).
Proof.
  intros h w skb.
  apply (send_direct_cases h 9 w skb).
  - reflexivity.
  - right. left. vm_compute. reflexivity.
Defined.

(** ** [ovs_vlan_untag] *)

(** The buffer [ovs_vlan_untag] returns for a tagged frame whose head can
    be written. *)
Lemma vlan_untag_ok (h : host) (skb : sk_buff) :
  be16 (skb_data skb) (mac_header skb + 12) = ETH_P_8021Q ->
  cow_head_ok h skb = true ->
  ovs_vlan_untag h skb
  = Some {| skb_id := skb_id skb;
            skb_data := skipn VLAN_HLEN
                          (mem_write (skb_data skb)
                             (mac_header skb + VLAN_HLEN)
                             (firstn (ETH_ALEN * 2) (skb_data skb)));
            mac_header := 0;
            network_header := network_header skb - VLAN_HLEN;
            vlan_proto := htons h ETH_P_8021Q;
            vlan_tci := Z.lor VLAN_TAG_PRESENT
                              (be16 (skb_data skb) (mac_header skb + 14));
            skb_cb := skb_cb skb |}.
Proof.
  intros Hq Hcow. unfold ovs_vlan_untag, eth_h_proto, h_vlan_TCI.
  rewrite load16_eqb_htons by (unfold ETH_P_8021Q; lia).
  rewrite Hq, Z.eqb_refl, Hcow. cbn [negb].
  unfold __vlan_hwaccel_put_tag, skb_reset_mac_header, skb_pull, set_data.
  cbn [skb_id skb_data mac_header network_header skb_cb].
  rewrite ntohs_load16, <- htons_be16, Hq.
  rewrite wrap16_small
    by (pose proof (be16_range (skb_data skb) (mac_header skb + 14));
        change (2 ^ 16) with 65536; lia).
  reflexivity.
Qed.

Lemma tag_get_put (x : Z) :
  Z.land (Z.lor VLAN_TAG_PRESENT x)
         (Z.land (Z.lnot VLAN_TAG_PRESENT) 0xFFFF)
  = Z.land x 0xEFFF.
Proof.
  rewrite Z.land_lor_distr_l.
  change (Z.land VLAN_TAG_PRESENT
                 (Z.land (Z.lnot VLAN_TAG_PRESENT) 65535)) with 0.
  reflexivity.
Qed.

(** X21: on a frame that is not tagged, [ovs_vlan_untag] returns NULL.  On
    a tagged frame whose head can be written it returns the same buffer,
    four bytes shorter: the two addresses are kept, the four bytes of the
    tag are gone, so that the encapsulated type and all behind it follow
    the addresses; a network header that lay at least four bytes into the
    data is where it was in memory, four bytes nearer to the start of the
    data; and the tag is recorded out of band, with the priority and VLAN
    of the frame. *)
Theorem vlan_untag_strips (h : host) (skb : sk_buff) :
  let d := skb_data skb in
  (be16 d (mac_header skb + 12) <> ETH_P_8021Q ->
   ovs_vlan_untag h skb = None) /\
  (be16 d (mac_header skb + 12) = ETH_P_8021Q ->
   cow_head_ok h skb = true ->
   mac_header skb = 0%nat -> (16 <= skb_len skb)%nat ->
   exists skb',
     ovs_vlan_untag h skb = Some skb' /\
     skb_id skb' = skb_id skb /\ skb_cb skb' = skb_cb skb /\
     skb_data skb' = firstn 12 d ++ skipn 16 d /\
     (skb_len skb' + 4 = skb_len skb)%nat /\
     mac_header skb' = 0%nat /\
     ((VLAN_HLEN <= network_header skb)%nat ->
      (network_header skb' + VLAN_HLEN)%nat = network_header skb) /\
     vlan_tx_tag_present skb' = true /\
     vlan_tx_tag_get skb' = Z.land (be16 d 14) 0xEFFF /\
     vlan_proto skb' = htons h ETH_P_8021Q).
Proof.
  cbv zeta. split.
  - intros Hne. unfold ovs_vlan_untag, eth_h_proto.
    rewrite load16_eqb_htons by (unfold ETH_P_8021Q; lia).
    apply Z.eqb_neq in Hne. rewrite Hne. reflexivity.
  - intros Hq Hcow Hmac Hlen.
    rewrite (vlan_untag_ok h skb Hq Hcow). eexists. split; [reflexivity|].
    cbn [skb_id skb_cb skb_data mac_header network_header vlan_proto].
    rewrite Hmac.
    assert (Hd : skipn VLAN_HLEN
                   (mem_write (skb_data skb) (0 + VLAN_HLEN)
                      (firstn (ETH_ALEN * 2) (skb_data skb)))
                 = firstn 12 (skb_data skb) ++ skipn 16 (skb_data skb))
      by (apply untag_bytes; exact Hlen).
    rewrite Hd.
    split; [reflexivity|]. split; [reflexivity|]. split; [reflexivity|].
    split.
    { unfold skb_len in *. cbn [skb_data].
      rewrite length_app, length_firstn, length_skipn. lia. }
    split; [reflexivity|]. split; [intros Hnh; unfold VLAN_HLEN in *; lia|].
    split; [|split].
    + unfold vlan_tx_tag_present. cbn [vlan_tci].
      change VLAN_TAG_PRESENT with (2 ^ 12).
      rewrite land_pow2 by lia. rewrite Z.lor_spec.
      rewrite Z.pow2_bits_true by lia. reflexivity.
    + unfold vlan_tx_tag_get. cbn [vlan_tci]. apply tag_get_put.
    + reflexivity.
Qed.

Lemma vlan_untag_strips_witness :
  let h := Sample.the_host in
  let skb := Sample.tagged 50 0 in
  exists skb',
    ovs_vlan_untag h skb = Some skb' /\
    vlan_tx_tag_get skb' = 5 /\
    be16 (skb_data skb') 12 = ETH_P_IP.
Proof.
  intros h skb.
  destruct (vlan_untag_strips h skb) as [_ Hok].
  destruct Hok as (skb' & Hrun & _ & _ & Hd & _ & _ & _ & _ & Htag & _).
  - vm_compute. reflexivity.
  - reflexivity.
  - reflexivity.
  - apply Nat.leb_le. vm_compute. reflexivity.
  - exists skb'. split; [exact Hrun|]. split.
    + rewrite Htag. vm_compute. reflexivity.
    + rewrite Hd. vm_compute. reflexivity.
Defined.

(** ** What every run of the loop hands to the back end *)

Lemma tag_get_idem (tci : Z) :
  Z.land (wrap16 (Z.land tci (Z.land (Z.lnot VLAN_TAG_PRESENT) 0xFFFF)))
         0xEFFF
  = Z.land tci (Z.land (Z.lnot VLAN_TAG_PRESENT) 0xFFFF).
Proof.
  rewrite wrap16_land.
  change (Z.land (Z.lnot VLAN_TAG_PRESENT) 65535) with 0xEFFF.
  rewrite <- !Z.land_assoc. reflexivity.
Qed.

(** What a fragment takes over from the packet besides bytes: the control
    block and the out-of-band tag. *)
Lemma build_frag_meta (h : host) (skb frag : sk_buff)
    (ip_hlen flag frag_off frag_len : Z) :
  vlan_tci frag = 0 ->
  let f := build_frag h skb frag ip_hlen flag frag_off frag_len in
  skb_cb f = skb_cb skb /\
  mac_header f = 0%nat /\ network_header f = ETH_HLEN /\
  vlan_tx_tag_present f = vlan_tx_tag_present skb /\
  (vlan_tx_tag_present skb = true ->
   vlan_tx_tag_get f = vlan_tx_tag_get skb /\ vlan_proto f = vlan_proto skb).
Proof.
  intros Hz. cbv zeta. unfold build_frag, skb_copy_bits. cbv zeta.
  destruct (vlan_tx_tag_present skb) eqn:Htag.
  - repeat match goal with
           | |- context [if ?c then _ else _] => destruct c
           end;
      (split; [reflexivity|]); (split; [reflexivity|]);
      (split; [reflexivity|]); (split; [apply put_tag_present|]);
      intros _; (split; [|reflexivity]);
      unfold vlan_tx_tag_get at 1, __vlan_hwaccel_put_tag; cbn [vlan_tci];
      rewrite tag_get_put; unfold vlan_tx_tag_get; apply tag_get_idem.
  - repeat match goal with
           | |- context [if ?c then _ else _] => destruct c
           end;
      (split; [reflexivity|]); (split; [reflexivity|]);
      (split; [reflexivity|]);
      (split; [unfold vlan_tx_tag_present; cbn [vlan_tci skb_push set_data
                 skb_reset_network_header skb_reset_mac_header set_cb];
               rewrite Hz; reflexivity|]);
      intros H; discriminate H.
Qed.

Lemma send_result (h : host) (w : world) (skb : sk_buff) :
  fst (__ovs_vport_send h w skb) = ops_send h w skb.
Proof.
  unfold __ovs_vport_send.
  destruct (0 <? ops_send h w skb); [reflexivity|].
  destruct (ops_send h w skb <? 0); reflexivity.
Qed.

(** Any run of the loop that returns: the frames handed to the back end
    were built from the packet, and the value returned is the back end's
    for the last of them, or the one the loop started with. *)
Lemma fragment_loop_trace (h : host) (skb : sk_buff) (ip_hlen frag_max : Z)
    (fuel : nat) :
  forall (w : world) (flag left off sent ret : Z) (w' : world),
    fragment_loop h fuel w skb ip_hlen frag_max flag left off sent
    = Some (ret, w') ->
    exists frs,
      w_sent w' = w_sent w ++ frs /\
      Forall (fun f => exists frag fl o n,
                  vlan_tci frag = 0 /\
                  f = build_frag h skb frag ip_hlen fl o n) frs /\
      match frs with
      | [] => ret = sent
      | _ => exists w0, ret = ops_send h w0 (last frs skb)
      end.
Proof.
  induction fuel as [|fuel IH]; intros w flag left off sent ret w' Hrun.
  - discriminate.
  - cbn [fragment_loop] in Hrun.
    destruct (0 <? left).
    + unfold alloc_skb in Hrun.
      destruct (alloc_ok h (w_allocs w)).
      * match type of Hrun with
        | context [__ovs_vport_send h ?ww ?ff] =>
            set (frag := ff) in *; set (w1 := ww) in *
        end.
        pose proof (send_result h w1 frag) as Hres.
        destruct (send_frame h w1 frag) as (Hsent & _ & _).
        destruct (__ovs_vport_send h w1 frag) as [s w2].
        cbn [fst snd] in Hres, Hsent.
        destruct (IH _ _ _ _ _ _ _ Hrun) as (frs & Hfrs & Hall & Hret).
        exists (frag :: frs). split; [|split].
        -- rewrite Hfrs, Hsent. subst w1. cbn [w_sent].
           rewrite <- app_assoc. reflexivity.
        -- constructor; [|exact Hall].
           subst frag. eexists. eexists. eexists. eexists.
           split; [|reflexivity]. reflexivity.
        -- destruct frs as [|f2 frs].
           ++ exists w1. cbn [last]. congruence.
           ++ destruct Hret as [w0 Hw0]. exists w0.
              rewrite Hw0. reflexivity.
      * injection Hrun as <- <-. exists []. cbn [w_sent].
        rewrite app_nil_r. repeat split. constructor.
    + injection Hrun as <- <-. exists []. cbn [kfree_skb w_sent].
      rewrite app_nil_r. repeat split. constructor.
Qed.

(** X22: every frame [ovs_vport_fragment] hands to the back end carries
    the control block of the packet and its out-of-band VLAN tag: tagged
    exactly when the packet is, and then with the same tag and tag
    protocol.  This holds for every run that returns, also one cut short
    by a failed allocation. *)
Theorem fragments_inherit_tag (h : host) (fuel : nat) (w w' : world)
    (skb : sk_buff) (frag_max_size mtu ret : Z) :
  ovs_vport_fragment h fuel w skb frag_max_size mtu = Some (ret, w') ->
  Forall (fun f =>
            skb_cb f = skb_cb skb /\
            vlan_tx_tag_present f = vlan_tx_tag_present skb /\
            (vlan_tx_tag_present skb = true ->
             vlan_tx_tag_get f = vlan_tx_tag_get skb /\
             vlan_proto f = vlan_proto skb))
         (emitted w w').
Proof.
  unfold ovs_vport_fragment. intros Hrun.
  destruct (fragment_loop_trace _ _ _ _ _ _ _ _ _ _ _ _ Hrun)
    as (frs & Hfrs & Hall & _).
  rewrite (emitted_app w w' frs Hfrs).
  eapply Forall_impl; [|exact Hall].
  intros f (frag & fl & o & n & Hz & ->).
  destruct (build_frag_meta h skb frag (ip_hdrlen skb) fl o n Hz)
    as (H1 & _ & _ & H4 & H5).
  auto.
Qed.

(** The 50-byte packet with VLAN 5 recorded out of band: both fragments
    carry VLAN 5. *)
Lemma fragments_inherit_tag_witness :
  exists ret w',
    ovs_vport_fragment Sample.the_host 9 (Sample.a_world 36)
      (__vlan_hwaccel_put_tag (Sample.plain 50 0 0) 0x81 5) 0 36
    = Some (ret, w') /\
    Forall (fun f => vlan_tx_tag_get f = 5) (emitted (Sample.a_world 36) w').
Proof.
  let r := eval vm_compute in
    (ovs_vport_fragment Sample.the_host 9 (Sample.a_world 36)
       (__vlan_hwaccel_put_tag (Sample.plain 50 0 0) 0x81 5) 0 36) in
  match r with
  | Some (?R, ?W) =>
      assert (Hrun : ovs_vport_fragment Sample.the_host 9 (Sample.a_world 36)
                       (__vlan_hwaccel_put_tag (Sample.plain 50 0 0) 0x81 5)
                       0 36 = Some (R, W))
        by (vm_compute; reflexivity);
      exists R, W; split; [exact Hrun|];
      pose proof (fragments_inherit_tag _ _ _ _ _ _ _ _ Hrun) as Hall
  end.
  eapply Forall_impl; [|exact Hall].
  intros f (_ & _ & H3). apply H3. reflexivity.
Defined.

(** The run of the loop ends right behind its last send: by the exit of
    the loop, which releases the packet, or by an allocation that fails. *)
Lemma fragment_loop_last (h : host) (skb : sk_buff) (ip_hlen frag_max : Z)
    (fuel : nat) :
  forall (w : world) (flag left off sent ret : Z) (w' : world),
    fragment_loop h fuel w skb ip_hlen frag_max flag left off sent
    = Some (ret, w') ->
    exists frs,
      w_sent w' = w_sent w ++ frs /\
      match frs with
      | [] =>
          ret = sent /\
          (w' = kfree_skb w skb \/
           alloc_ok h (w_allocs w) = false /\
           exists len, w' = snd (alloc_skb h w len))
      | _ =>
          exists w0,
            w_sent w0 = w_sent w ++ removelast frs /\
            ret = ops_send h w0 (last frs skb) /\
            let w2 := snd (__ovs_vport_send h w0 (last frs skb)) in
            w' = kfree_skb w2 skb \/
            alloc_ok h (w_allocs w2) = false /\
            exists len, w' = snd (alloc_skb h w2 len)
      end.
Proof.
  induction fuel as [|fuel IH]; intros w flag left off sent ret w' Hrun.
  - discriminate.
  - cbn [fragment_loop] in Hrun.
    destruct (0 <? left).
    + unfold alloc_skb in Hrun.
      destruct (alloc_ok h (w_allocs w)) eqn:Hal.
      * match type of Hrun with
        | context [__ovs_vport_send h ?ww ?ff] =>
            set (frag := ff) in *; set (w1 := ww) in *
        end.
        pose proof (send_result h w1 frag) as Hres.
        destruct (send_frame h w1 frag) as (Hsent & _ & _).
        destruct (__ovs_vport_send h w1 frag) as [s w2] eqn:Hsend.
        cbn [fst snd] in Hres, Hsent.
        destruct (IH _ _ _ _ _ _ _ Hrun) as (frs & Hfrs & Hret).
        exists (frag :: frs). split.
        -- rewrite Hfrs, Hsent. subst w1. cbn [w_sent].
           rewrite <- app_assoc. reflexivity.
        -- destruct frs as [|f2 frs].
           ++ destruct Hret as [-> Hend]. exists w1.
              cbn [removelast last]. rewrite app_nil_r.
              split; [reflexivity|]. split; [exact Hres|].
              rewrite Hsend. exact Hend.
           ++ destruct Hret as (w0 & Hs0 & Hr0 & Hend). exists w0.
              split; [|split; [exact Hr0|exact Hend]].
              rewrite Hs0, Hsent. subst w1. cbn [w_sent].
              rewrite <- app_assoc. reflexivity.
      * injection Hrun as <- <-. exists []. cbn [w_sent].
        rewrite app_nil_r. split; [reflexivity|]. split; [reflexivity|].
        right. split; [reflexivity|]. exists 0. unfold alloc_skb.
        rewrite Hal. reflexivity.
    + injection Hrun as <- <-. exists []. cbn [kfree_skb w_sent].
      rewrite app_nil_r. split; [reflexivity|]. split; [reflexivity|].
      left. reflexivity.
Qed.

(** X23: what [ovs_vport_fragment] returns is the result of the back end
    for the last frame handed to it, not a total: it is what the back end
    answered, in the state it was called in behind the frames before, to
    the send right behind which the run ended, by the exit of the loop or
    by an allocation that failed.  It is 0 when no frame was handed
    over. *)
Theorem fragment_returns_last (h : host) (fuel : nat) (w w' : world)
    (skb : sk_buff) (frag_max_size mtu ret : Z) :
  ovs_vport_fragment h fuel w skb frag_max_size mtu = Some (ret, w') ->
  match emitted w w' with
  | [] => ret = 0
  | _ =>
      exists w0,
        w_sent w0 = w_sent w ++ removelast (emitted w w') /\
        ret = ops_send h w0 (last (emitted w w') skb) /\
        let w2 := snd (__ovs_vport_send h w0 (last (emitted w w') skb)) in
        w' = kfree_skb w2 skb \/
        alloc_ok h (w_allocs w2) = false /\
        exists len, w' = snd (alloc_skb h w2 len)
  end.
Proof.
  unfold ovs_vport_fragment. intros Hrun.
  destruct (fragment_loop_last _ _ _ _ _ _ _ _ _ _ _ _ Hrun)
    as (frs & Hfrs & Hret).
  rewrite (emitted_app w w' frs Hfrs).
  destruct frs as [|f frs]; [apply Hret|exact Hret].
Qed.

(** The 50-byte packet in frames of 50 and 48 bytes, to a back end that
    answers with the length of the frame: the result is 48, not 98. *)
Lemma fragment_returns_last_witness :
  exists w',
    ovs_vport_fragment Sample.the_host 9 (Sample.a_world 36)
      (Sample.plain 50 0 0) 0 36 = Some (48, w') /\
    map skb_len (emitted (Sample.a_world 36) w') = [50%nat; 48%nat] /\
    exists w0,
      w_sent w0 = removelast (emitted (Sample.a_world 36) w') /\
      48 = ops_send Sample.the_host w0
             (last (emitted (Sample.a_world 36) w') (Sample.plain 50 0 0)).
Proof.
  let r := eval vm_compute in
    (ovs_vport_fragment Sample.the_host 9 (Sample.a_world 36)
       (Sample.plain 50 0 0) 0 36) in
  match r with
  | Some (?R, ?W) =>
      assert (Hrun : ovs_vport_fragment Sample.the_host 9 (Sample.a_world 36)
                       (Sample.plain 50 0 0) 0 36 = Some (R, W))
        by (vm_compute; reflexivity);
      exists W; split; [exact Hrun|]; split; [vm_compute; reflexivity|];
      pose proof (fragment_returns_last _ _ _ _ _ _ _ _ Hrun) as Hlast
  end.
  destruct Hlast as (w0 & Hs & Hr & _). exists w0.
  split; [exact Hs|exact Hr].
Defined.

(** ** Oversize packets through [ovs_vport_send] *)

(** The branch of [ovs_vport_send] for an oversize untagged IPv4 packet
    without the don't-fragment bit. *)
Lemma send_plain_oversize (h : host) (fuel : nat) (w : world) (skb : sk_buff) :
  cb_frag_max_size (skb_cb skb) = 0 ->
  send_mtu (w_vport w) <> 0 ->
  be16 (skb_data skb) (mac_header skb + 12) = ETH_P_IP ->
  wire_df (skb_data skb) (network_header skb) = false ->
  send_mtu (w_vport w) < wire_tot_len (skb_data skb) (network_header skb) ->
  ovs_vport_send h fuel w skb
  = ovs_vport_fragment h fuel w skb 0 (send_mtu (w_vport w)).
Proof.
  intros Hfms Hmtu Hip Hdf Hbig. unfold ovs_vport_send.
  rewrite Hfms. simpl (0 <? 0).
  apply Z.eqb_neq in Hmtu. rewrite Hmtu.
  unfold eth_h_proto. rewrite load16_eqb_htons by (unfold ETH_P_IP; lia).
  rewrite Hip, Z.eqb_refl.
  unfold ip_frag_off. rewrite df_test, Hdf.
  unfold ip_tot_len. rewrite ntohs_load16.
  apply Z.ltb_lt in Hbig. unfold wire_tot_len in Hbig. rewrite Hbig.
  reflexivity.
Qed.

Lemma dfv_at_cases (d : list byte) (off : nat) :
  Z.land (be16 d off) IP_DF = 0 \/ Z.land (be16 d off) IP_DF = IP_DF.
Proof.
  change IP_DF with (2 ^ 14). rewrite land_pow2 by lia.
  destruct (Z.testbit (be16 d off) 14); auto.
Qed.

Lemma dfv_cases (d : list byte) :
  Z.land (be16 d (ETH_HLEN + 6)) IP_DF = 0
  \/ Z.land (be16 d (ETH_HLEN + 6)) IP_DF = IP_DF.
Proof.
  change IP_DF with (2 ^ 14). rewrite land_pow2 by lia.
  destruct (Z.testbit (be16 d (ETH_HLEN + 6)) 14); auto.
Qed.

(** X24: an oversize untagged IPv4 packet without the don't-fragment bit,
    sent with [ovs_vport_send] on a port whose MTU leaves room for eight
    bytes of payload: the back end gets at least two frames, each with a
    total length within the MTU, whose payloads in order are the payload of
    the packet, and the packet is released exactly once. *)
Theorem send_oversize_plain (h : host) (fuel : nat) (w : world)
    (skb : sk_buff) :
  let d := skb_data skb in
  let ip_hlen := wire_ihl d ETH_HLEN * 4 in
  let tot := wire_tot_len d ETH_HLEN in
  let mtu := send_mtu (w_vport w) in
  (forall n, alloc_ok h n = true) ->
  cb_frag_max_size (skb_cb skb) = 0 ->
  be16 d (mac_header skb + 12) = ETH_P_IP ->
  network_header skb = ETH_HLEN ->
  wire_df d ETH_HLEN = false ->
  20 <= ip_hlen -> ip_hlen + 8 <= mtu -> mtu < tot ->
  (ETH_HLEN + Z.to_nat tot <= skb_len skb)%nat ->
  tot < Z.of_nat fuel ->
  (skb_id skb < w_allocs w)%nat ->
  exists ret w',
    ovs_vport_send h fuel w skb = Some (ret, w') /\
    (2 <= length (emitted w w'))%nat /\
    Forall (fun f => wire_tot_len (skb_data f) ETH_HLEN <= mtu)
           (emitted w w') /\
    concat (map payload_of (emitted w w')) = ip_payload d /\
    released w' skb = S (released w skb).
Proof.
  intros d ip_hlen tot mtu Halloc Hfms Hip Hnh Hdf Hh Hc Hbig Hlen Hfuel Hid.
  pose proof (be16_range d (ETH_HLEN + 2)) as Hr.
  fold (wire_tot_len d ETH_HLEN) in Hr. fold tot in Hr.
  rewrite send_plain_oversize;
    try assumption; try (rewrite Hnh; assumption); try (fold mtu; lia).
  fold mtu.
  assert (Hceil : frag_ceiling 0 mtu = mtu) by reflexivity.
  assert (Hc' : ip_hlen + 8 <= frag_ceiling 0 mtu) by (rewrite Hceil; lia).
  assert (Hc32 : frag_ceiling 0 mtu < 2 ^ 32)
    by (rewrite Hceil; change (2 ^ 32) with 4294967296; lia).
  assert (Htot : ip_hlen <= tot) by lia.
  destruct (fragment_run h fuel w skb 0 mtu Halloc Hnh Hh Hc' Hc32 Htot
              Hlen Hfuel)
    as (ret & w' & Hrun & Hchain & Hrel).
  fold d ip_hlen tot in Hchain. rewrite Hceil in Hchain.
  set (frag_unit := 8 * ((mtu - ip_hlen) / 8)) in Hchain.
  set (dfv := Z.land (be16 d (ETH_HLEN + 6)) IP_DF) in *.
  pose proof (dfv_cases d) as Hdfv. fold dfv in Hdfv.
  assert (Hu : 0 < frag_unit /\ frag_unit mod 8 = 0
               /\ ip_hlen + frag_unit <= mtu)
    by (subst frag_unit; Z.div_mod_to_equations; lia).
  destruct Hu as (Hu & Hu8 & Hfit).
  exists ret, w'. split; [exact Hrun|]. split; [|split; [|split]].
  - pose proof (chain_count d ip_hlen frag_unit dfv eq_refl Hu Hu8 Hdfv
                  (emitted w w') 0 (tot - ip_hlen) Hchain
                  ltac:(lia) ltac:(lia) ltac:(lia)) as Hcount.
    assert (H2 : 2 <= div_round_up (tot - ip_hlen) frag_unit)
      by (unfold div_round_up; apply Z.div_le_lower_bound; lia).
    lia.
  - pose proof (chain_sizes d ip_hlen frag_unit dfv eq_refl Hu Hu8 Hdfv
                  (emitted w w') 0 (tot - ip_hlen) Hchain
                  ltac:(lia) ltac:(lia) ltac:(lia)) as Hs.
    eapply Forall_impl; [|exact Hs]. intros f (_ & Ht). lia.
  - rewrite (chain_concat d ip_hlen frag_unit dfv eq_refl Hu Hu8 Hdfv
               (emitted w w') 0 (tot - ip_hlen) Hchain) by lia.
    unfold ip_payload. fold tot. fold ip_hlen.
    rewrite Nat.add_0_r. reflexivity.
  - apply Hrel. exact Hid.
Qed.

Lemma send_oversize_plain_witness :
  let h := Sample.the_host in
  let w := Sample.a_world 36 in
  let skb := Sample.plain 50 0 0 in
  exists ret w',
    ovs_vport_send h 60 w skb = Some (ret, w') /\
    concat (map payload_of (emitted w w')) = ip_payload (skb_data skb) /\
    released w' skb = 1%nat.
Proof.
  intros h w skb.
  destruct (send_oversize_plain h 60 w skb)
    as (ret & w' & Hrun & _ & _ & Hcat & Hrel).
  - intros n. reflexivity.
  - reflexivity.
  - vm_compute. reflexivity.
  - reflexivity.
  - vm_compute. reflexivity.
  - vm_compute. discriminate.
  - vm_compute. discriminate.
  - vm_compute. reflexivity.
  - apply Nat.leb_le. vm_compute. reflexivity.
  - vm_compute. reflexivity.
  - simpl. lia.
  - exists ret, w'. split; [exact Hrun|]. split; [exact Hcat|exact Hrel].
Defined.

(** Bytes of a frame whose 802.1Q header was cut out. *)
Lemma untagged_byte (d : list byte) (i : nat) :
  (16 <= length d)%nat -> (12 <= i)%nat ->
  byte_at (firstn 12 d ++ skipn 16 d) i = byte_at d (i + 4).
Proof.
  intros Hlen Hi.
  replace i with (length (firstn 12 d) + (i - 12))%nat at 1
    by (rewrite length_firstn; lia).
  rewrite byte_at_app_r. unfold byte_at. rewrite nth_skipn.
  do 2 f_equal. lia.
Qed.

Lemma untagged_be16 (d : list byte) (i : nat) :
  (16 <= length d)%nat -> (12 <= i)%nat ->
  be16 (firstn 12 d ++ skipn 16 d) i = be16 d (i + 4).
Proof.
  intros Hlen Hi. unfold be16.
  rewrite !untagged_byte by lia. reflexivity.
Qed.

Lemma untagged_skipn (d : list byte) (k : nat) :
  (16 <= length d)%nat -> (12 <= k)%nat ->
  skipn k (firstn 12 d ++ skipn 16 d) = skipn (k + 4) d.
Proof.
  intros Hlen Hk.
  rewrite skipn_app, length_firstn, (Nat.min_l 12) by lia.
  rewrite skipn_all2 by (rewrite length_firstn; lia).
  rewrite skipn_skipn. cbn [app]. f_equal. lia.
Qed.

Lemma be16_firstn (d : list byte) (n i : nat) :
  (i + 2 <= n)%nat -> (n <= length d)%nat ->
  be16 (firstn n d) i = be16 d i.
Proof.
  intros Hi Hn.
  rewrite <- (firstn_skipn n d) at 2.
  rewrite be16_app_l by (rewrite length_firstn; lia). reflexivity.
Qed.

Lemma untagged_firstn (d : list byte) :
  (16 <= length d)%nat ->
  firstn 12 (firstn 12 d ++ skipn 16 d) = firstn 12 d.
Proof.
  intros Hlen. rewrite firstn_app.
  replace (12 - length (firstn 12 d))%nat with 0%nat
    by (rewrite length_firstn; lia).
  rewrite firstn_O, app_nil_r, firstn_firstn, Nat.min_id. reflexivity.
Qed.

(** X25: an oversize 802.1Q-tagged IPv4 packet without the don't-fragment
    bit and without a per-packet override, sent with [ovs_vport_send] on a
    port whose MTU leaves room for at least eight bytes of payload behind
    the inner IPv4 header, when the head can be written and buffers are to
    be had: the tag is cut out of the frame before fragmentation, so every
    frame the back end gets is an untagged IPv4 frame with the addresses
    of the packet, a total length within the MTU and the tag of the packet
    out of band; the payloads of the frames in order are the payload of
    the inner datagram, and the packet is released exactly once.  (With an
    override [ovs_vport_send] fragments without cutting the tag out, which
    this statement does not cover.) *)
Theorem send_oversize_tagged (h : host) (fuel : nat) (w : world)
    (skb : sk_buff) :
  let d := skb_data skb in
  let iph := (ETH_HLEN + VLAN_HLEN)%nat in
  let ip_hlen := wire_ihl d iph * 4 in
  let tot := wire_tot_len d iph in
  let mtu := send_mtu (w_vport w) in
  (forall n, alloc_ok h n = true) ->
  cow_head_ok h skb = true ->
  cb_frag_max_size (skb_cb skb) = 0 ->
  mac_header skb = 0%nat ->
  network_header skb = iph ->
  be16 d 12 = ETH_P_8021Q ->
  be16 d 16 = ETH_P_IP ->
  wire_df d iph = false ->
  20 <= ip_hlen -> ip_hlen + 8 <= mtu -> mtu < tot ->
  (iph + Z.to_nat tot <= skb_len skb)%nat ->
  tot < Z.of_nat fuel ->
  (skb_id skb < w_allocs w)%nat ->
  exists ret w',
    ovs_vport_send h fuel w skb = Some (ret, w') /\
    Forall (fun f =>
              firstn 12 (skb_data f) = firstn 12 d /\
              be16 (skb_data f) 12 = ETH_P_IP /\
              wire_tot_len (skb_data f) ETH_HLEN <= mtu /\
              vlan_tx_tag_present f = true /\
              vlan_tx_tag_get f
              = Z.land (be16 d 14) 0xEFFF)
           (emitted w w') /\
    concat (map payload_of (emitted w w'))
    = firstn (Z.to_nat (tot - ip_hlen)) (skipn (iph + Z.to_nat ip_hlen) d) /\
    released w' skb = S (released w skb).
Proof.
  intros d iph ip_hlen tot mtu Halloc Hcow Hfms Hmac Hnh Hq Hip Hdf Hh Hc
    Hbig Hlen Hfuel Hid.
  pose proof (be16_range d (iph + 2)) as Hr.
  fold (wire_tot_len d iph) in Hr. fold tot in Hr.
  assert (Hl18 : (18 <= length d)%nat)
    by (unfold skb_len in Hlen; fold d in Hlen; subst iph;
        unfold ETH_HLEN, VLAN_HLEN in Hlen; lia).
  assert (Hl16 : (16 <= length d)%nat) by lia.
  rewrite send_tagged_ipv4;
    try assumption; try (rewrite Hnh; assumption);
    try (rewrite Hmac; assumption); try (fold mtu; lia).
  rewrite vlan_untag_ok by (rewrite ?Hmac; assumption).
  rewrite Hmac, Hnh. fold d. fold mtu.
  change (0 + VLAN_HLEN)%nat with 4%nat. change VLAN_HLEN with 4%nat.
  change (ETH_ALEN * 2)%nat with 12%nat.
  rewrite untag_bytes by exact Hl16.
  change (0 + 14)%nat with 14%nat.
  set (d' := firstn 12 d ++ skipn 16 d).
  set (skb' := {| skb_id := skb_id skb; skb_data := d'; mac_header := 0;
                  network_header := iph - 4;
                  vlan_proto := htons h ETH_P_8021Q;
                  vlan_tci := Z.lor VLAN_TAG_PRESENT (be16 d 14);
                  skb_cb := skb_cb skb |}).
  assert (Hihl : wire_ihl d' ETH_HLEN = wire_ihl d iph)
    by (unfold wire_ihl, d'; rewrite untagged_byte by (unfold ETH_HLEN; lia);
        reflexivity).
  assert (Htl : wire_tot_len d' ETH_HLEN = wire_tot_len d iph)
    by (unfold wire_tot_len, d';
        rewrite untagged_be16 by (unfold ETH_HLEN; lia); reflexivity).
  assert (Hty : be16 d' 12 = ETH_P_IP)
    by (unfold d'; rewrite untagged_be16 by lia; exact Hip).
  assert (Hlen' : length d' = (length d - 4)%nat)
    by (unfold d'; rewrite length_app, length_firstn, length_skipn; lia).
  assert (Hceil : frag_ceiling 0 mtu = mtu) by reflexivity.
  destruct (fragment_run h fuel w skb' 0 mtu Halloc) as
    (ret & w' & Hrun & Hchain & Hrel).
  { reflexivity. }
  { cbn [skb_data skb']. rewrite Hihl. exact Hh. }
  { cbn [skb_data skb']. rewrite Hihl, Hceil. exact Hc. }
  { rewrite Hceil. change (2 ^ 32) with 4294967296. lia. }
  { cbn [skb_data skb']. rewrite Hihl, Htl. fold ip_hlen tot. lia. }
  { unfold skb_len in *. cbn [skb_data skb']. rewrite Htl, Hlen'.
    fold d tot in Hlen. subst iph. unfold ETH_HLEN, VLAN_HLEN in *. lia. }
  { cbn [skb_data skb']. rewrite Htl. exact Hfuel. }
  cbn [skb_data skb'] in Hchain. rewrite Hihl, Htl, Hceil in Hchain.
  fold ip_hlen tot in Hchain.
  set (frag_unit := 8 * ((mtu - ip_hlen) / 8)) in Hchain.
  set (dfv := Z.land (be16 d' (ETH_HLEN + 6)) IP_DF) in *.
  pose proof (dfv_cases d') as Hdfv. fold dfv in Hdfv.
  assert (Hu : 0 < frag_unit /\ frag_unit mod 8 = 0
               /\ ip_hlen + frag_unit <= mtu)
    by (subst frag_unit; Z.div_mod_to_equations; lia).
  destruct Hu as (Hu & Hu8 & Hfit).
  assert (Hihl' : ip_hlen = wire_ihl d' ETH_HLEN * 4)
    by (rewrite Hihl; reflexivity).
  exists ret, w'. split; [exact Hrun|]. split; [|split].
  - pose proof (chain_sizes d' ip_hlen frag_unit dfv Hihl' Hu Hu8 Hdfv
                  (emitted w w') 0 (tot - ip_hlen) Hchain
                  ltac:(lia) ltac:(lia) ltac:(lia)) as Hs.
    pose proof (chain_each d' ip_hlen frag_unit dfv Hihl' Hu Hu8 Hdfv
                  (emitted w w') 0 (tot - ip_hlen) Hchain
                  ltac:(lia) ltac:(lia) ltac:(lia)) as He.
    unfold ovs_vport_fragment in Hrun.
    destruct (fragment_loop_trace _ _ _ _ _ _ _ _ _ _ _ _ Hrun)
      as (frs & Hfrs & Hall & _).
    rewrite (emitted_app w w' frs Hfrs) in *.
    rewrite Forall_forall in *. intros f Hin.
    destruct (Hs f Hin) as (_ & Ht).
    destruct (He f Hin) as (_ & _ & Hfl & Heth & _).
    destruct (Hall f Hin) as (frag & fl & o & n & Hz & Hf).
    destruct (build_frag_meta h skb' frag (ip_hdrlen skb') fl o n Hz)
      as (_ & _ & _ & H4 & H5).
    rewrite <- Hf in H4, H5.
    assert (Hp : vlan_tx_tag_present skb' = true)
      by (unfold vlan_tx_tag_present; cbn [vlan_tci skb'];
          change VLAN_TAG_PRESENT with (2 ^ 12);
          rewrite land_pow2 by lia; rewrite Z.lor_spec;
          rewrite Z.pow2_bits_true by lia; reflexivity).
    assert (Hfl14 : (14 <= length (skb_data f))%nat)
      by (unfold skb_len, ETH_HLEN in Hfl;
          pose proof (be16_range (skb_data f) (14 + 2)) as Hr';
          unfold wire_tot_len, ETH_HLEN in Hfl; lia).
    split; [|split; [|split; [|split]]].
    + transitivity (firstn 12 (firstn ETH_HLEN (skb_data f))).
      { rewrite firstn_firstn. reflexivity. }
      rewrite Heth, firstn_firstn. change (Nat.min 12 ETH_HLEN) with 12%nat.
      apply untagged_firstn. exact Hl16.
    + rewrite <- (be16_firstn (skb_data f) ETH_HLEN 12)
        by (unfold ETH_HLEN; lia).
      rewrite Heth, be16_firstn by (unfold ETH_HLEN; lia). exact Hty.
    + lia.
    + rewrite H4. exact Hp.
    + destruct (H5 Hp) as (H6 & _). rewrite H6.
      unfold vlan_tx_tag_get. cbn [vlan_tci skb']. apply tag_get_put.
  - rewrite (chain_concat d' ip_hlen frag_unit dfv Hihl' Hu Hu8 Hdfv
               (emitted w w') 0 (tot - ip_hlen) Hchain) by lia.
    rewrite Nat.add_0_r. unfold d'.
    rewrite untagged_skipn by (unfold ETH_HLEN; lia).
    do 2 f_equal. subst iph. unfold ETH_HLEN, VLAN_HLEN. lia.
  - apply Hrel. exact Hid.
Qed.

Lemma send_oversize_tagged_witness :
  let h := Sample.the_host in
  let w := Sample.a_world 36 in
  let skb := Sample.tagged 50 0 in
  exists ret w',
    ovs_vport_send h 60 w skb = Some (ret, w') /\
    Forall (fun f => be16 (skb_data f) 12 = ETH_P_IP /\
                     vlan_tx_tag_get f = 5) (emitted w w') /\
    released w' skb = 1%nat.
Proof.
  intros h w skb.
  destruct (send_oversize_tagged h 60 w skb)
    as (ret & w' & Hrun & Hall & _ & Hrel).
  - intros n. reflexivity.
  - reflexivity.
  - reflexivity.
  - reflexivity.
  - reflexivity.
  - vm_compute. reflexivity.
  - vm_compute. reflexivity.
  - vm_compute. reflexivity.
  - vm_compute. discriminate.
  - vm_compute. discriminate.
  - vm_compute. reflexivity.
  - apply Nat.leb_le. vm_compute. reflexivity.
  - vm_compute. reflexivity.
  - simpl. lia.
  - exists ret, w'. split; [exact Hrun|]. split; [|exact Hrel].
    eapply Forall_impl; [|exact Hall].
    intros f (_ & H2 & _ & _ & H5). split; [exact H2|].
    rewrite H5. vm_compute. reflexivity.
Defined.

(** ** The header checksum of the fragments *)

Lemma sum16_app (b : list byte) (n : nat) :
  forall a, length a = (2 * n)%nat -> sum16 (a ++ b) = sum16 a + sum16 b.
Proof.
  induction n as [|n IH]; intros a Ha.
  - destruct a; [reflexivity|discriminate].
  - destruct a as [|x [|y a]]; try (simpl in Ha; lia).
    cbn [app sum16]. rewrite IH by (simpl in Ha; lia). lia.
Qed.

Lemma sum16_bound (n : nat) :
  forall d, (length d <= 2 * n)%nat -> 0 <= sum16 d <= 65535 * Z.of_nat n.
Proof.
  induction n as [|n IH]; intros d Hd.
  - destruct d; [simpl; lia|simpl in Hd; lia].
  - destruct d as [|x [|y d]].
    + simpl. lia.
    + cbn [sum16]. pose proof (byte_val_range x). lia.
    + cbn [sum16]. pose proof (byte_val_range x).
      pose proof (byte_val_range y).
      pose proof (IH d ltac:(simpl in Hd; lia)). lia.
Qed.

(** The one's-complement sum of a header that carries its own folded
    checksum folds to zero. *)
Lemma csum_fold_verify (s : Z) :
  0 <= s < 65536 * 64 -> csum_fold (s + csum_fold s) = 0.
Proof.
  intros Hs. unfold csum_fold. cbv zeta.
  Z.div_mod_to_equations. lia.
Qed.

Lemma csum_fold_range (s : Z) : 0 <= csum_fold s < 65536.
Proof. unfold csum_fold. cbv zeta. Z.div_mod_to_equations. lia. Qed.

Lemma firstn_mem_write_in (d : list byte) (off : nat) (src : list byte)
    (n : nat) :
  (off + length src <= n)%nat -> (n <= length d)%nat ->
  firstn n (mem_write d off src)
  = firstn off d ++ src
    ++ firstn (n - off - length src) (skipn (off + length src) d).
Proof.
  intros Hn Hd. rewrite mem_write_in by lia.
  assert (Hf : length (firstn off d) = off) by (rewrite length_firstn; lia).
  rewrite firstn_app, Hf, (@firstn_all2 _ n (firstn off d)) by lia.
  rewrite firstn_app, (@firstn_all2 _ (n - off) src) by lia.
  reflexivity.
Qed.

Lemma ip_send_check_valid (X : list byte) :
  12 <= wire_ihl X 0 * 4 ->
  (Z.to_nat (wire_ihl X 0 * 4) <= length X)%nat ->
  ip_csum_ok (ip_send_check X 0) 0 = true.
Proof.
  intros H12 Hlen.
  assert (Hi : wire_ihl X 0 < 16)
    by (unfold wire_ihl; Z.div_mod_to_equations; lia).
  set (L := Z.to_nat (wire_ihl X 0 * 4)) in *.
  assert (HL : (12 <= L <= 60)%nat) by (subst L; lia).
  unfold ip_csum_ok, ip_send_check. cbv zeta.
  change (0 + 10)%nat with 10%nat.
  set (d0 := mem_write X 10 [x00; x00]).
  assert (Hb0 : byte_at d0 0 = byte_at X 0)
    by (subst d0; apply byte_at_mem_write_other; simpl; lia).
  rewrite Hb0.
  set (c := ip_fast_csum d0 0 (byte_at X 0 mod 16)).
  subst d0. rewrite mem_write_twice by (simpl; lia).
  assert (Hw : wire_ihl (mem_write X 10 [byte_of (c / 256); byte_of c]) 0
               = wire_ihl X 0)
    by (unfold wire_ihl; rewrite byte_at_mem_write_other by (simpl; lia);
        reflexivity).
  rewrite Hw. unfold ip_fast_csum at 1. fold L. cbn [skipn].
  rewrite firstn_mem_write_in by (simpl; lia). cbn [length].
  set (A := firstn 10 X).
  set (B := firstn (L - 10 - 2) (skipn (10 + 2) X)).
  assert (HA : length A = (2 * 5)%nat)
    by (subst A; rewrite length_firstn; lia).
  assert (HB : (length B <= 2 * 24)%nat)
    by (subst B; rewrite length_firstn; lia).
  assert (Hc : c = csum_fold (sum16 A + sum16 B)).
  { unfold c, ip_fast_csum. fold (wire_ihl X 0). fold L.
    cbn [skipn]. rewrite firstn_mem_write_in by (simpl; lia).
    cbn [length]. fold A. fold B. rewrite (sum16_app _ 5 A HA).
    change ([x00; x00] ++ B) with (x00 :: x00 :: B). cbn [sum16].
    f_equal. }
  rewrite (sum16_app _ 5 A HA).
  change ([byte_of (c / 256); byte_of c] ++ B)
    with (byte_of (c / 256) :: byte_of c :: B).
  cbn [sum16]. rewrite !byte_val_of.
  pose proof (csum_fold_range (sum16 A + sum16 B)) as Hcr.
  rewrite <- Hc in Hcr.
  pose proof (sum16_bound 5 A ltac:(lia)) as HsA.
  pose proof (sum16_bound 24 B HB) as HsB.
  replace (sum16 A + ((c / 256) mod 256 * 256 + c mod 256 + sum16 B))
    with (sum16 A + sum16 B + c) by (Z.div_mod_to_equations; lia).
  rewrite Hc at 1.
  rewrite csum_fold_verify by lia.
  reflexivity.
Qed.

Lemma ip_csum_ok_frame (eth Y : list byte) :
  ip_csum_ok (eth ++ Y) (length eth) = ip_csum_ok Y 0.
Proof.
  unfold ip_csum_ok, ip_fast_csum, wire_ihl.
  pose proof (byte_at_app_r eth Y 0) as Hb.
  rewrite Nat.add_0_r in Hb. rewrite Hb.
  rewrite skipn_app, skipn_all, Nat.sub_diag. reflexivity.
Qed.

(** The data of a fragment: the Ethernet header of the packet, then what
    [ip_send_check] made of the patched header and the payload. *)
Lemma build_frag_checked (h : host) (skb frag : sk_buff)
    (ip_hlen flag frag_off frag_len : Z) :
  20 <= ip_hlen -> 0 <= frag_off -> 0 <= frag_len ->
  (ETH_HLEN + Z.to_nat ip_hlen + Z.to_nat frag_off + Z.to_nat frag_len
   <= skb_len skb)%nat ->
  skb_data frag = [] ->
  exists X,
    skb_data (build_frag h skb frag ip_hlen flag frag_off frag_len)
    = firstn ETH_HLEN (skb_data skb) ++ ip_send_check X 0 /\
    (Z.to_nat ip_hlen <= length X)%nat /\
    byte_at X 0 = byte_at (skb_data skb) ETH_HLEN.
Proof.
  intros Hh Ho Hn Hlen Hempty.
  unfold build_frag. cbv zeta.
  rewrite !skb_copy_bits_ok by lia.
  assert (Hd : forall s,
             skb_data (if vlan_tx_tag_present skb
                       then __vlan_hwaccel_put_tag s (vlan_proto skb)
                                                   (vlan_tx_tag_get skb)
                       else s) = skb_data s)
    by (intros s; destruct (vlan_tx_tag_present skb); reflexivity).
  rewrite Hd. clear Hd.
  cbn [skb_data set_data skb_push skb_reset_network_header
       skb_reset_mac_header set_cb network_header].
  rewrite Hempty. unfold skb_len in Hlen.
  change (0 + 2)%nat with 2%nat. change (0 + 6)%nat with 6%nat.
  change (skipn 0 (skb_data skb)) with (skb_data skb).
  set (d := skb_data skb) in *.
  set (pay := firstn (Z.to_nat frag_len)
                (skipn (ETH_HLEN + Z.to_nat ip_hlen + Z.to_nat frag_off) d)).
  set (hdr0 := firstn (Z.to_nat ip_hlen) (skipn ETH_HLEN d)).
  assert (Hpay : length pay = Z.to_nat frag_len)
    by (subst pay; rewrite length_firstn, length_skipn; lia).
  assert (Hhdr0 : length hdr0 = Z.to_nat ip_hlen)
    by (subst hdr0; rewrite length_firstn, length_skipn; lia).
  assert (Heth : length (firstn ETH_HLEN d) = ETH_HLEN)
    by (rewrite length_firstn; lia).
  rewrite (mem_write_pushed _ [] pay Hpay), app_nil_r.
  rewrite (mem_write_pushed _ pay hdr0 Hhdr0).
  set (v1 := htons h (wrap32 (ip_hlen + frag_len))).
  set (a := Z.land (Z.shiftr frag_off 3) IP_OFFSET).
  set (x2 := store16 h hdr0 2 v1).
  assert (Hx2 : length x2 = Z.to_nat ip_hlen)
    by (subst x2; rewrite store16_length; exact Hhdr0).
  rewrite (store16_app_l h hdr0 pay 2 v1) by lia. fold x2.
  rewrite (store16_app_l h x2 pay 6 (htons h a)) by lia.
  set (x3 := store16 h x2 6 (htons h a)).
  assert (Hx3 : length x3 = Z.to_nat ip_hlen)
    by (subst x3; rewrite store16_length; exact Hx2).
  rewrite (load16_app_l h x3 pay 6) by lia.
  rewrite (store16_app_l h x3 pay 6) by lia.
  set (x4 := store16 h x3 6 (Z.lor (load16 h x3 6) (htons h flag))).
  assert (Hx4 : length x4 = Z.to_nat ip_hlen)
    by (subst x4; rewrite store16_length; exact Hx3).
  rewrite (mem_write_pushed _ _ (firstn ETH_HLEN d) Heth).
  exists (x4 ++ pay).
  split; [reflexivity|]. split.
  - rewrite length_app. lia.
  - rewrite byte_at_app_l by lia.
    subst x4 x3 x2. rewrite !byte_at_store16_other
      by (rewrite ?store16_length; lia).
    subst hdr0. unfold byte_at. rewrite nth_firstn, nth_skipn.
    replace (0 <? Z.to_nat ip_hlen)%nat with true
      by (symmetry; apply Nat.ltb_lt; lia).
    rewrite Nat.add_0_r. reflexivity.
Qed.

Lemma build_frag_csum (h : host) (skb frag : sk_buff)
    (flag frag_off frag_len : Z) :
  let ip_hlen := wire_ihl (skb_data skb) ETH_HLEN * 4 in
  20 <= ip_hlen -> 0 <= frag_off -> 0 <= frag_len ->
  (ETH_HLEN + Z.to_nat ip_hlen + Z.to_nat frag_off + Z.to_nat frag_len
   <= skb_len skb)%nat ->
  skb_data frag = [] ->
  ip_csum_ok (skb_data (build_frag h skb frag ip_hlen flag frag_off frag_len))
             ETH_HLEN = true.
Proof.
  intros ip_hlen Hh Ho Hn Hlen Hempty.
  destruct (build_frag_checked h skb frag ip_hlen flag frag_off frag_len
              Hh Ho Hn Hlen Hempty) as (X & -> & HX & Hb).
  assert (Heth : length (firstn ETH_HLEN (skb_data skb)) = ETH_HLEN)
    by (rewrite length_firstn; unfold skb_len in Hlen; lia).
  rewrite <- Heth at 2. rewrite ip_csum_ok_frame.
  assert (Hw : wire_ihl X 0 = wire_ihl (skb_data skb) ETH_HLEN)
    by (unfold wire_ihl; rewrite Hb; reflexivity).
  apply ip_send_check_valid; rewrite Hw; fold ip_hlen; lia.
Qed.

Section FragmentFrames.

Variable h : host.
Variable skb : sk_buff.
Variables ip_hlen frag_max : Z.
Variable P : sk_buff -> Prop.

Hypothesis Hfmax : 0 < frag_max.
Hypothesis HP :
  forall frag flag off n,
    skb_data frag = [] -> 0 <= off -> 0 < n ->
    (ETH_HLEN + Z.to_nat ip_hlen + Z.to_nat off + Z.to_nat n
     <= skb_len skb)%nat ->
    P (build_frag h skb frag ip_hlen flag off n).

(** Whether or not buffers are to be had, the loop ends when a fragment
    has room for payload, and every frame it hands to the back end was
    built from a part of the payload that the packet has. *)
Lemma fragment_loop_all (fuel : nat) :
  forall (w : world) (flag left off sent : Z),
    0 <= left -> 0 <= off -> off + left < 2 ^ 32 ->
    (ETH_HLEN + Z.to_nat ip_hlen + Z.to_nat off + Z.to_nat left
     <= skb_len skb)%nat ->
    left < Z.of_nat fuel ->
    exists ret w' frs,
      fragment_loop h fuel w skb ip_hlen frag_max flag left off sent
      = Some (ret, w') /\
      w_sent w' = w_sent w ++ frs /\
      Forall P frs.
Proof.
  induction fuel as [|fuel IH]; intros w flag left off sent Hl Ho Hsum Hlen
                                       Hfuel.
  - simpl in Hfuel. lia.
  - cbn [fragment_loop].
    destruct (Z.ltb_spec 0 left) as [Hpos|Hzero].
    + unfold alloc_skb.
      destruct (alloc_ok h (w_allocs w)).
      * set (more := frag_max <? left).
        set (n := if more then frag_max else left).
        assert (Hn : 0 < n <= left)
          by (subst n more; destruct (Z.ltb_spec frag_max left); lia).
        match goal with
        | |- context [__ovs_vport_send h ?ww ?ff] =>
            set (frag := ff) in *; set (w1 := ww) in *
        end.
        destruct (send_frame h w1 frag) as (Hsent & _ & _).
        destruct (__ovs_vport_send h w1 frag) as [s w2].
        cbn [snd] in Hsent.
        rewrite (wrap32_small (left - n)), (wrap32_small (off + n)) by lia.
        match goal with
        | |- context [fragment_loop h fuel w2 skb ip_hlen frag_max ?fl _ _ _] =>
            destruct (IH w2 fl (left - n) (off + n) s)
              as (ret & w' & frs & Hrun & Hfrs & Hall); try lia
        end.
        exists ret, w', (frag :: frs).
        split; [exact Hrun|]. split.
        -- rewrite Hfrs, Hsent. subst w1. cbn [w_sent].
           rewrite <- app_assoc. reflexivity.
        -- constructor; [|exact Hall].
           subst frag. apply HP; try lia. reflexivity.
      * exists sent. eexists. exists []. split; [reflexivity|].
        cbn [w_sent]. rewrite app_nil_r. split; [reflexivity|constructor].
    + exists sent, (kfree_skb w skb), [].
      split; [reflexivity|]. split; [|constructor].
      simpl. rewrite app_nil_r. reflexivity.
Qed.

End FragmentFrames.

(** X26: for an untagged packet with a header of at least 20 bytes whose
    buffer holds the datagram, under a ceiling with room for at least eight
    bytes of payload behind the header, [ovs_vport_fragment] returns,
    whether or not buffers for all fragments are to be had, and every frame
    it handed to the back end has an IPv4 header whose checksum verifies:
    the one's-complement sum of the header words, check field included,
    folds to zero. *)
Theorem fragments_checksum (h : host) (fuel : nat) (w : world)
    (skb : sk_buff) (frag_max_size mtu : Z) :
  let d := skb_data skb in
  let ip_hlen := wire_ihl d ETH_HLEN * 4 in
  let tot := wire_tot_len d ETH_HLEN in
  let ceiling := frag_ceiling frag_max_size mtu in
  network_header skb = ETH_HLEN ->
  20 <= ip_hlen -> ip_hlen + 8 <= ceiling -> ceiling < 2 ^ 32 ->
  ip_hlen <= tot ->
  (ETH_HLEN + Z.to_nat tot <= skb_len skb)%nat ->
  tot < Z.of_nat fuel ->
  exists ret w',
    ovs_vport_fragment h fuel w skb frag_max_size mtu = Some (ret, w') /\
    Forall (fun f => ip_csum_ok (skb_data f) ETH_HLEN = true)
           (emitted w w').
Proof.
  intros d ip_hlen tot ceiling Hnh Hh Hc Hc32 Htot Hlen Hfuel.
  pose proof (be16_range d (ETH_HLEN + 2)) as Hr.
  fold (wire_tot_len d ETH_HLEN) in Hr. fold tot in Hr.
  unfold ovs_vport_fragment, ip_hdrlen, ip_tot_len, ip_frag_off.
  rewrite !ntohs_load16, Hnh.
  fold d. fold (wire_ihl d ETH_HLEN). fold ip_hlen.
  fold (wire_tot_len d ETH_HLEN). fold tot. fold ceiling.
  rewrite frag_max_round by lia.
  rewrite (wrap32_small (tot - ip_hlen))
    by (change (2 ^ 32) with 4294967296; lia).
  assert (Hfm : 0 < 8 * ((ceiling - ip_hlen) / 8))
    by (Z.div_mod_to_equations; lia).
  assert (HP : forall frag flag off n,
             skb_data frag = [] -> 0 <= off -> 0 < n ->
             (ETH_HLEN + Z.to_nat ip_hlen + Z.to_nat off + Z.to_nat n
              <= skb_len skb)%nat ->
             ip_csum_ok (skb_data (build_frag h skb frag ip_hlen flag off n))
                        ETH_HLEN = true).
  { intros frag fl o n He Ho Hn Hb.
    apply (build_frag_csum h skb frag fl o n Hh Ho (Z.lt_le_incl _ _ Hn)
             Hb He). }
  assert (H32 : 0 + (tot - ip_hlen) < 2 ^ 32)
    by (change (2 ^ 32) with 4294967296; lia).
  assert (Hdata : (ETH_HLEN + Z.to_nat ip_hlen + Z.to_nat 0
                   + Z.to_nat (tot - ip_hlen) <= skb_len skb)%nat) by lia.
  destruct (fragment_loop_all h skb ip_hlen (8 * ((ceiling - ip_hlen) / 8))
              (fun f => ip_csum_ok (skb_data f) ETH_HLEN = true)
              Hfm HP fuel w (Z.land (be16 d (ETH_HLEN + 6)) IP_DF)
              (tot - ip_hlen) 0 0 ltac:(lia) (Z.le_refl 0) H32 Hdata
              ltac:(lia))
    as (ret & w' & frs & Hrun & Hfrs & Hall).
  exists ret, w'. split; [exact Hrun|].
  rewrite (emitted_app w w' frs Hfrs). exact Hall.
Qed.

Lemma fragments_checksum_witness :
  let h := Sample.a_host (fun n => Nat.ltb n 2) true in
  let w := Sample.a_world 36 in
  let skb := Sample.plain 50 0 0 in
  exists ret w',
    ovs_vport_fragment h 60 w skb 0 36 = Some (ret, w') /\
    Forall (fun f => ip_csum_ok (skb_data f) ETH_HLEN = true)
           (emitted w w').
Proof.
  intros h w skb.
  apply (fragments_checksum h 60 w skb 0 36).
  - reflexivity.
  - vm_compute. discriminate.
  - vm_compute. discriminate.
  - vm_compute. reflexivity.
  - vm_compute. discriminate.
  - apply Nat.leb_le. vm_compute. reflexivity.
  - vm_compute. reflexivity.
Defined.

(** ** Every frame is counted *)

Lemma send_keeps_cpus (h : host) (w : world) (skb : sk_buff) :
  length (percpu_stats (w_vport (snd (__ovs_vport_send h w skb))))
  = length (percpu_stats (w_vport w)).
Proof.
  rewrite send_vport.
  destruct (0 <? ops_send h w skb).
  - cbn [percpu_stats set_percpu_stats]. apply update_nth_length.
  - destruct (ops_send h w skb <? 0); reflexivity.
Qed.

Lemma wrap64_add_l (a b : Z) : wrap64 (wrap64 a + b) = wrap64 (a + b).
Proof. unfold wrap64. apply Z.add_mod_idemp_l. lia. Qed.

(** One frame through [__ovs_vport_send] is one more transmit outcome, and
    nothing on the receive side. *)
Lemma send_counts_one (h : host) (w : world) (skb : sk_buff) :
  (this_cpu h < length (percpu_stats (w_vport w)))%nat ->
  let s := ovs_vport_get_stats (w_vport w) in
  let s' := ovs_vport_get_stats (w_vport (snd (__ovs_vport_send h w skb))) in
  wrap64 (tx_outcomes s') = wrap64 (tx_outcomes s + 1) /\
  rx_packets s' = rx_packets s /\ rx_bytes s' = rx_bytes s /\
  rx_errors s' = rx_errors s /\ rx_dropped s' = rx_dropped s.
Proof.
  intros Hcpu s s'.
  destruct (send_snapshot_fields h w skb Hcpu)
    as (H1 & H2 & H3 & H4 & H5 & _ & H7 & H8).
  fold s s' in H1, H2, H3, H4, H5, H7, H8.
  split; [|repeat split; assumption].
  unfold tx_outcomes. rewrite H5, H7, H8.
  set (sent := ops_send h w skb).
  destruct (Z.ltb_spec 0 sent) as [Hp|Hp].
  - replace (sent <? 0) with false by (symmetry; apply Z.ltb_ge; lia).
    replace (sent =? 0) with false by (symmetry; apply Z.eqb_neq; lia).
    rewrite <- !Z.add_assoc, wrap64_add_l. f_equal. lia.
  - destruct (Z.ltb_spec sent 0) as [Hn|Hn].
    + replace (sent =? 0) with false by (symmetry; apply Z.eqb_neq; lia).
      rewrite (Z.add_comm (tx_packets s)), <- !Z.add_assoc, wrap64_add_l.
      f_equal. lia.
    + replace (sent =? 0) with true by (symmetry; apply Z.eqb_eq; lia).
      rewrite (Z.add_comm _ (wrap64 _)), wrap64_add_l. f_equal. lia.
Qed.

Lemma fragment_loop_counts (h : host) (skb : sk_buff) (ip_hlen frag_max : Z)
    (fuel : nat) :
  forall (w : world) (flag left off sent ret : Z) (w' : world),
    (this_cpu h < length (percpu_stats (w_vport w)))%nat ->
    fragment_loop h fuel w skb ip_hlen frag_max flag left off sent
    = Some (ret, w') ->
    let s := ovs_vport_get_stats (w_vport w) in
    let s' := ovs_vport_get_stats (w_vport w') in
    exists frs,
      w_sent w' = w_sent w ++ frs /\
      wrap64 (tx_outcomes s')
      = wrap64 (tx_outcomes s + Z.of_nat (length frs)) /\
      rx_packets s' = rx_packets s /\ rx_bytes s' = rx_bytes s /\
      rx_errors s' = rx_errors s /\ rx_dropped s' = rx_dropped s.
Proof.
  induction fuel as [|fuel IH]; intros w flag left off sent ret w' Hcpu Hrun.
  - discriminate.
  - cbn [fragment_loop] in Hrun.
    destruct (0 <? left).
    + unfold alloc_skb in Hrun.
      destruct (alloc_ok h (w_allocs w)).
      * match type of Hrun with
        | context [__ovs_vport_send h ?ww ?ff] =>
            set (frag := ff) in *; set (w1 := ww) in *
        end.
        assert (Hcpu1 : (this_cpu h < length (percpu_stats (w_vport w1)))%nat)
          by exact Hcpu.
        pose proof (send_counts_one h w1 frag Hcpu1) as Hone.
        pose proof (send_keeps_cpus h w1 frag) as Hkeep.
        destruct (send_frame h w1 frag) as (Hsent & _ & _).
        destruct (__ovs_vport_send h w1 frag) as [s w2].
        cbn [fst snd] in Hone, Hkeep, Hsent. cbv zeta in Hone.
        destruct Hone as (Ht & R1 & R2 & R3 & R4).
        destruct (IH _ _ _ _ _ _ _ ltac:(rewrite Hkeep; exact Hcpu1) Hrun)
          as (frs & Hfrs & Htx & Q1 & Q2 & Q3 & Q4).
        exists (frag :: frs). split; [|split].
        -- rewrite Hfrs, Hsent. subst w1. cbn [w_sent].
           rewrite <- app_assoc. reflexivity.
        -- rewrite Htx, <- wrap64_add_l, Ht, wrap64_add_l.
           change (w_vport w1) with (w_vport w).
           f_equal. cbn [length]. lia.
        -- change (w_vport w1) with (w_vport w) in R1, R2, R3, R4.
           repeat split; congruence.
      * injection Hrun as <- <-. exists []. cbn [w_sent w_vport length].
        rewrite app_nil_r, Z.add_0_r. repeat split.
    + injection Hrun as <- <-. exists [].
      cbn [kfree_skb w_sent w_vport length].
      rewrite app_nil_r, Z.add_0_r. repeat split.
Qed.

Lemma untag_id (h : host) (skb skb' : sk_buff) :
  ovs_vlan_untag h skb = Some skb' -> skb_id skb' = skb_id skb.
Proof.
  unfold ovs_vlan_untag.
  destruct (negb (eth_h_proto h skb =? htons h ETH_P_8021Q));
    [discriminate|].
  destruct (negb (cow_head_ok h skb)); [discriminate|].
  intros H. injection H as <-. reflexivity.
Qed.

(** The three ways [ovs_vport_send] ends. *)
Lemma send_cases (h : host) (fuel : nat) (w : world) (skb : sk_buff) :
  ovs_vport_send h fuel w skb = Some (__ovs_vport_send h w skb) \/
  ovs_vport_send h fuel w skb = Some (0, w) \/
  exists skb',
    skb_id skb' = skb_id skb /\
    ovs_vport_send h fuel w skb
    = ovs_vport_fragment h fuel w skb' (cb_frag_max_size (skb_cb skb))
                         (send_mtu (w_vport w)).
Proof.
  unfold ovs_vport_send. cbv zeta.
  destruct (ovs_vlan_untag h skb) as [skb'|] eqn:Hu;
    [apply untag_id in Hu|];
    repeat match goal with
           | |- context [if ?c then _ else _] => destruct c
           end;
    try (left; reflexivity); try (right; left; reflexivity);
    right; right;
    solve [exists skb; split; reflexivity
          |exists skb'; split; [exact Hu|reflexivity]].
Qed.

(** X27: every frame [ovs_vport_send] hands to the back end, whole or as
    fragments, is counted exactly once on the transmit side of the
    snapshot (as a packet sent, a transmit error or a transmit drop, modulo
    2^64), and the receive side of the snapshot is untouched. *)
Theorem send_counts_every_frame (h : host) (fuel : nat) (w w' : world)
    (skb : sk_buff) (ret : Z) :
  (this_cpu h < length (percpu_stats (w_vport w)))%nat ->
  ovs_vport_send h fuel w skb = Some (ret, w') ->
  let s := ovs_vport_get_stats (w_vport w) in
  let s' := ovs_vport_get_stats (w_vport w') in
  wrap64 (tx_outcomes s')
  = wrap64 (tx_outcomes s + Z.of_nat (length (emitted w w'))) /\
  rx_packets s' = rx_packets s /\ rx_bytes s' = rx_bytes s /\
  rx_errors s' = rx_errors s /\ rx_dropped s' = rx_dropped s.
Proof.
  intros Hcpu Hrun s s'.
  destruct (send_cases h fuel w skb) as [E|[E|(skb' & _ & E)]];
    rewrite E in Hrun.
  - pose proof (send_counts_one h w skb Hcpu) as Hone.
    destruct (send_frame h w skb) as (Hsent & _ & _).
    destruct (__ovs_vport_send h w skb) as [r w2].
    injection Hrun as <- <-. cbn [snd] in Hone, Hsent.
    rewrite (emitted_app w w2 [skb] Hsent). exact Hone.
  - injection Hrun as <- <-.
    rewrite (emitted_app w w [] ltac:(rewrite app_nil_r; reflexivity)).
    subst s'. fold s. cbn [length]. rewrite Z.add_0_r. repeat split.
  - unfold ovs_vport_fragment in Hrun.
    destruct (fragment_loop_counts _ _ _ _ _ _ _ _ _ _ _ _ Hcpu Hrun)
      as (frs & Hfrs & Hall).
    rewrite (emitted_app w w' frs Hfrs). exact Hall.
Qed.

Lemma send_counts_every_frame_witness :
  let h := Sample.the_host in
  let w := Sample.a_world 36 in
  exists ret w',
    ovs_vport_send h 60 w (Sample.plain 50 0 0) = Some (ret, w') /\
    length (emitted w w') = 2%nat /\
    wrap64 (tx_outcomes (ovs_vport_get_stats (w_vport w'))) = 2.
Proof.
  intros h w.
  let r := eval vm_compute in
             (ovs_vport_send h 60 w (Sample.plain 50 0 0)) in
  match r with
  | Some (?R, ?W) =>
      assert (Hrun : ovs_vport_send h 60 w (Sample.plain 50 0 0)
                     = Some (R, W)) by (vm_compute; reflexivity);
      exists R, W; split; [exact Hrun|]; split; [vm_compute; reflexivity|];
      destruct (send_counts_every_frame h 60 w W (Sample.plain 50 0 0) R
                  ltac:(simpl; lia) Hrun) as (Htx & _)
  end.
  rewrite Htx. vm_compute. reflexivity.
Defined.

(** ** No buffer is released twice *)

Lemma fragment_loop_frees (h : host) (skb : sk_buff) (ip_hlen frag_max : Z)
    (fuel : nat) :
  forall (w : world) (flag left off sent ret : Z) (w' : world),
    (skb_id skb < w_allocs w)%nat ->
    fragment_loop h fuel w skb ip_hlen frag_max flag left off sent
    = Some (ret, w') ->
    exists new,
      w_freed w' = new ++ w_freed w /\ NoDup new /\
      Forall (fun i => i = skb_id skb \/ (w_allocs w <= i < w_allocs w')%nat)
             new /\
      (w_allocs w <= w_allocs w')%nat.
Proof.
  induction fuel as [|fuel IH]; intros w flag left off sent ret w' Hid Hrun.
  - discriminate.
  - cbn [fragment_loop] in Hrun.
    destruct (0 <? left).
    + unfold alloc_skb in Hrun.
      destruct (alloc_ok h (w_allocs w)).
      * match type of Hrun with
        | context [__ovs_vport_send h ?ww ?ff] =>
            set (frag := ff) in *; set (w1 := ww) in *
        end.
        assert (Hfid : skb_id frag = w_allocs w)
          by (subst frag; rewrite build_frag_id; reflexivity).
        destruct (send_frame h w1 frag) as (_ & Hallocs & Hfreed).
        destruct (__ovs_vport_send h w1 frag) as [s w2].
        cbn [snd] in Hallocs, Hfreed.
        change (w_allocs w1) with (S (w_allocs w)) in Hallocs.
        change (w_freed w1) with (w_freed w) in Hfreed.
        destruct (IH _ _ _ _ _ _ _ ltac:(rewrite Hallocs; lia) Hrun)
          as (new & Hnew & Hnd & Hall & Hle).
        rewrite Hallocs in Hall, Hle.
        destruct Hfreed as [Hf|Hf]; rewrite Hf in Hnew.
        -- exists new. split; [exact Hnew|]. split; [exact Hnd|].
           split; [|lia].
           eapply Forall_impl; [|exact Hall]. intros i [Hi|Hi]; [left|right];
             (assumption || lia).
        -- exists (new ++ [skb_id frag]).
           split; [rewrite <- app_assoc; exact Hnew|]. split; [|split; [|lia]].
           ++ apply NoDup_app; [exact Hnd|repeat constructor; intros []|].
              intros i Hin [Hi|[]]. subst i.
              rewrite Forall_forall in Hall.
              destruct (Hall _ Hin) as [E|E]; lia.
           ++ apply Forall_app. split.
              ** eapply Forall_impl; [|exact Hall].
                 intros i [Hi|Hi]; [left|right]; (assumption || lia).
              ** constructor; [right; lia|constructor].
      * injection Hrun as <- <-. exists []. cbn [w_freed w_allocs app].
        split; [reflexivity|]. split; [constructor|].
        split; [constructor|lia].
    + injection Hrun as <- <-. exists [skb_id skb].
      cbn [kfree_skb w_freed w_allocs app].
      split; [reflexivity|]. split; [repeat constructor; intros []|].
      split; [|lia]. constructor; [left; reflexivity|constructor].
Qed.

(** X28: a run of [ovs_vport_send] on an allocated packet never releases a
    buffer twice: the buffers it releases are pairwise distinct, and each
    is the packet itself or a fragment buffer allocated during the run. *)
Theorem send_never_frees_twice (h : host) (fuel : nat) (w w' : world)
    (skb : sk_buff) (ret : Z) :
  (skb_id skb < w_allocs w)%nat ->
  ovs_vport_send h fuel w skb = Some (ret, w') ->
  exists new,
    w_freed w' = new ++ w_freed w /\ NoDup new /\
    Forall (fun i => i = skb_id skb \/ (w_allocs w <= i < w_allocs w')%nat)
           new.
Proof.
  intros Hid Hrun.
  destruct (send_cases h fuel w skb) as [E|[E|(skb' & Hid' & E)]];
    rewrite E in Hrun.
  - destruct (send_frame h w skb) as (_ & _ & Hfreed).
    destruct (__ovs_vport_send h w skb) as [r w2].
    injection Hrun as <- <-. cbn [snd] in Hfreed.
    destruct Hfreed as [Hf|Hf]; rewrite Hf.
    + exists []. split; [reflexivity|]. split; constructor.
    + exists [skb_id skb]. split; [reflexivity|].
      split; [repeat constructor; intros []|].
      constructor; [left; reflexivity|constructor].
  - injection Hrun as <- <-. exists [].
    split; [reflexivity|]. split; constructor.
  - unfold ovs_vport_fragment in Hrun.
    destruct (fragment_loop_frees _ _ _ _ _ _ _ _ _ _ _ _
                ltac:(rewrite Hid'; exact Hid) Hrun)
      as (new & Hnew & Hnd & Hall & _).
    rewrite Hid' in Hall. exists new. auto.
Qed.

Lemma send_never_frees_twice_witness :
  let h := Sample.a_host (fun _ => true) true in
  let h' := {| little_endian := little_endian h;
               NET_IP_ALIGN := NET_IP_ALIGN h; this_cpu := this_cpu h;
               ops_send := fun _ _ => -5;
               alloc_ok := alloc_ok h; cow_head_ok := cow_head_ok h |} in
  let w := Sample.a_world 36 in
  exists ret w',
    ovs_vport_send h' 60 w (Sample.plain 50 0 0) = Some (ret, w') /\
    length (w_freed w') = 3%nat /\ NoDup (w_freed w').
Proof.
  intros h h' w.
  let r := eval vm_compute in
             (ovs_vport_send h' 60 w (Sample.plain 50 0 0)) in
  match r with
  | Some (?R, ?W) =>
      assert (Hrun : ovs_vport_send h' 60 w (Sample.plain 50 0 0)
                     = Some (R, W)) by (vm_compute; reflexivity);
      exists R, W; split; [exact Hrun|]; split; [vm_compute; reflexivity|];
      destruct (send_never_frees_twice h' 60 w W (Sample.plain 50 0 0) R
                  ltac:(simpl; lia) Hrun) as (new & Hnew & Hnd & _)
  end.
  rewrite Hnew. cbn [w_freed w Sample.a_world]. rewrite app_nil_r.
  exact Hnd.
Defined.

(** ** The flags-and-offset field of the fragments *)

Section FieldRun.

Variable h : host.
Variable skb : sk_buff.
Variables ip_hlen frag_max dfv : Z.

Hypothesis Hhlen : 20 <= ip_hlen.
Hypothesis Hfmax : 0 <= frag_max.
Hypothesis Hdfv : dfv = 0 \/ dfv = IP_DF.

(** Whatever the room under the ceiling is and whenever the buffers run
    out, the frames of a run that returns carry in their flags-and-offset
    field the payload bytes handed out before them, the don't-fragment bit
    the loop started with, and the more-fragments bit when payload is left
    behind them. *)
Lemma fragment_loop_fields (fuel : nat) :
  forall (w : world) (flag left off sent ret : Z) (w' : world),
    0 <= left -> 0 <= off -> off + left < 65536 ->
    (ETH_HLEN + Z.to_nat ip_hlen + Z.to_nat off + Z.to_nat left
     <= skb_len skb)%nat ->
    flag = dfv \/ flag = Z.lor dfv IP_MF ->
    fragment_loop h fuel w skb ip_hlen frag_max flag left off sent
    = Some (ret, w') ->
    exists frs,
      w_sent w' = w_sent w ++ frs /\
      forall i f,
        nth_error frs i = Some f ->
        let count := handed_out ip_hlen (firstn i frs) in
        be16 (skb_data f) (ETH_HLEN + 6)
        = Z.lor ((off + count) / 8)
                (Z.lor dfv (if frag_max <? left - count then IP_MF else 0)).
Proof.
  induction fuel as [|fuel IH];
    intros w flag left off sent ret w' Hl Ho Hsum Hlen Hflag Hrun.
  - discriminate.
  - cbn [fragment_loop] in Hrun.
    destruct (Z.ltb_spec 0 left) as [Hpos|Hzero].
    + unfold alloc_skb in Hrun.
      destruct (alloc_ok h (w_allocs w)).
      * set (more := frag_max <? left) in *.
        set (n := if more then frag_max else left) in *.
        assert (Hn : 0 <= n <= left)
          by (subst n more; destruct (Z.ltb_spec frag_max left); lia).
        rewrite (flag_update dfv flag more Hdfv Hflag) in Hrun.
        set (flag' := Z.lor dfv (if more then IP_MF else 0)) in *.
        match type of Hrun with
        | context [__ovs_vport_send h ?ww (build_frag h skb ?f0 _ _ _ _)] =>
            set (frag0 := f0) in *; set (w1 := ww) in *
        end.
        set (frag := build_frag h skb frag0 ip_hlen flag' off n) in *.
        destruct (send_frame h w1 frag) as (Hsent & _ & _).
        destruct (__ovs_vport_send h w1 frag) as [s w2].
        cbn [snd] in Hsent.
        rewrite (wrap32_small (left - n)), (wrap32_small (off + n)) in Hrun
          by (change (2 ^ 32) with 4294967296; lia).
        assert (Hflag' : flag' = dfv \/ flag' = Z.lor dfv IP_MF).
        { subst flag'. destruct more; [right|left]; try reflexivity.
          destruct Hdfv as [-> | ->]; reflexivity. }
        destruct (IH w2 flag' (left - n) (off + n) s ret w')
          as (frs & Hfrs & Hall); try lia; try assumption.
        destruct (build_frag_data h skb frag0 ip_hlen flag' off n)
          as (hdr & Hdata & Hhdr & _ & _ & Hoff); try lia; [reflexivity|].
        fold frag in Hdata.
        assert (Heth : length (firstn ETH_HLEN (skb_data skb)) = ETH_HLEN)
          by (rewrite length_firstn; unfold skb_len in Hlen; lia).
        assert (Hroom : frame_room ip_hlen frag = n).
        { unfold frame_room, skb_len. rewrite Hdata.
          rewrite !length_app, Heth, Hhdr, length_firstn, length_skipn.
          unfold skb_len in Hlen. lia. }
        exists (frag :: frs). split.
        -- rewrite Hfrs, Hsent. subst w1. cbn [w_sent].
           rewrite <- app_assoc. reflexivity.
        -- intros i f Hnth. destruct i as [|i].
           ++ injection Hnth as <-. cbv zeta.
              cbn [firstn handed_out map fold_right].
              rewrite Z.add_0_r, Z.sub_0_r. fold more.
              rewrite Hdata, frame_be16 by (exact Heth || lia).
              rewrite Hoff, offset_field by lia. f_equal.
              subst flag'. apply wrap16_small.
              change (2 ^ 16) with 65536.
              destruct Hdfv as [-> | ->]; destruct more;
                unfold IP_DF, IP_MF; cbn; lia.
           ++ cbn [nth_error] in Hnth. specialize (Hall i f Hnth).
              cbv zeta in Hall |- *.
              cbn [firstn]. unfold handed_out. cbn [map fold_right].
              fold (handed_out ip_hlen (firstn i frs)). rewrite Hroom.
              replace (off + (n + handed_out ip_hlen (firstn i frs)))
                with (off + n + handed_out ip_hlen (firstn i frs)) by lia.
              replace (left - (n + handed_out ip_hlen (firstn i frs)))
                with (left - n - handed_out ip_hlen (firstn i frs)) by lia.
              exact Hall.
      * injection Hrun as <- <-. exists []. cbn [w_sent].
        rewrite app_nil_r. split; [reflexivity|].
        intros [|i] f Hnth; discriminate.
    + injection Hrun as <- <-. exists []. cbn [kfree_skb w_sent].
      rewrite app_nil_r. split; [reflexivity|].
      intros [|i] f Hnth; discriminate.
Qed.

End FieldRun.

Lemma frag_max_nonneg (x : Z) :
  0 <= Z.land (wrap32 x) (wrap32 (Z.lnot 7)).
Proof.
  apply Z.land_nonneg. left. unfold wrap32. apply Z.mod_pos_bound. lia.
Qed.

(** C10: the fragment-offset field of the packet does not enter the
    fragments of [ovs_vport_fragment].  For a packet whose buffer holds the
    datagram that its IPv4 header (of at least 20 bytes) announces:

    - in every run that returns, whatever the ceiling and whether or not
      the buffers for all fragments were to be had, the 16-bit
      flags-and-offset field of the frame at position [i] is made of the
      payload bytes handed out in the frames before it, divided by eight,
      of the don't-fragment bit of the packet, and of the more-fragments
      bit recomputed from what is left to hand out: the offset and the
      more-fragments bit of the packet are in no frame;

    - and frames there are: for an untagged packet with payload, a ceiling
      with room for eight bytes of payload and buffers to be had, the run
      returns and hands over as many frames as the payload needs pieces,
      at least one, the first with offset 0, each with the offset that the
      payloads before it make up, the don't-fragment bit of the packet and
      the more-fragments bit exactly when a frame follows. *)
Theorem fragment_offsets_renumbered (h : host) (fuel : nat) (w : world)
    (skb : sk_buff) (frag_max_size mtu : Z) :
  let d := skb_data skb in
  let nh := network_header skb in
  let ip_hlen := wire_ihl d nh * 4 in
  let tot := wire_tot_len d nh in
  let ceiling := frag_ceiling frag_max_size mtu in
  let frag_max := Z.land (wrap32 (ceiling - ip_hlen)) (wrap32 (Z.lnot 7)) in
  let dfv := Z.land (be16 d (nh + 6)) IP_DF in
  20 <= ip_hlen -> ip_hlen <= tot ->
  (ETH_HLEN + Z.to_nat tot <= skb_len skb)%nat ->
  (forall ret w',
      ovs_vport_fragment h fuel w skb frag_max_size mtu = Some (ret, w') ->
      forall i f,
        nth_error (emitted w w') i = Some f ->
        let count := handed_out ip_hlen (firstn i (emitted w w')) in
        be16 (skb_data f) (ETH_HLEN + 6)
        = Z.lor (count / 8)
                (Z.lor dfv (if frag_max <? tot - ip_hlen - count
                            then IP_MF else 0))) /\
  ((forall n, alloc_ok h n = true) ->
   nh = ETH_HLEN ->
   ip_hlen + 8 <= ceiling -> ceiling < 2 ^ 32 -> ip_hlen < tot ->
   tot < Z.of_nat fuel ->
   exists ret w',
     ovs_vport_fragment h fuel w skb frag_max_size mtu = Some (ret, w') /\
     Z.of_nat (length (emitted w w'))
     = div_round_up (tot - ip_hlen) frag_max /\
     (0 < length (emitted w w'))%nat /\
     forall i f,
       nth_error (emitted w w') i = Some f ->
       let count :=
         Z.of_nat (length (concat (map payload_of
                                       (firstn i (emitted w w'))))) in
       let more := (S i <? length (emitted w w'))%nat in
       be16 (skb_data f) (ETH_HLEN + 6)
       = Z.lor (count / 8) (Z.lor dfv (if more then IP_MF else 0)) /\
       wire_frag_offset (skb_data f) ETH_HLEN * 8 = count /\
       wire_df (skb_data f) ETH_HLEN = wire_df d ETH_HLEN /\
       wire_mf (skb_data f) ETH_HLEN = more).
Proof.
  intros d nh ip_hlen tot ceiling frag_max dfv Hh Htot Hlen.
  pose proof (be16_range d (nh + 2)) as Hr.
  fold (wire_tot_len d nh) in Hr. fold tot in Hr.
  assert (Hdfv : dfv = 0 \/ dfv = IP_DF) by apply dfv_at_cases.
  split.
  - intros ret w' Hrun i f Hnth.
    unfold ovs_vport_fragment, ip_hdrlen, ip_tot_len, ip_frag_off in Hrun.
    rewrite !ntohs_load16 in Hrun.
    change (fragment_loop h fuel w skb ip_hlen frag_max dfv
              (wrap32 (tot - ip_hlen)) 0 0 = Some (ret, w')) in Hrun.
    rewrite (wrap32_small (tot - ip_hlen)) in Hrun
      by (change (2 ^ 32) with 4294967296; lia).
    destruct (fragment_loop_fields h skb ip_hlen frag_max dfv Hh
                (frag_max_nonneg _) Hdfv fuel w dfv (tot - ip_hlen) 0 0
                ret w')
      as (frs & Hfrs & Hall); try lia; try (left; reflexivity);
      try exact Hrun.
    rewrite (emitted_app w w' frs Hfrs) in *.
    specialize (Hall i f Hnth). cbv zeta in Hall |- *.
    rewrite Z.add_0_l in Hall. exact Hall.
  - intros Halloc Hnh Hc Hc32 Hpay Hfuel.
    subst dfv frag_max tot ip_hlen nh. rewrite Hnh in *.
    set (ip_hlen := wire_ihl d ETH_HLEN * 4) in *.
    set (tot := wire_tot_len d ETH_HLEN) in *.
    set (frag_max := Z.land (wrap32 (ceiling - ip_hlen))
                            (wrap32 (Z.lnot 7))).
    set (dfv := Z.land (be16 d (ETH_HLEN + 6)) IP_DF) in *.
    destruct (fragment_run h fuel w skb frag_max_size mtu Halloc Hnh Hh Hc
                Hc32 Htot Hlen Hfuel)
      as (ret & w' & Hrun & Hchain & _).
    fold d ip_hlen tot ceiling in Hchain.
    assert (Hfm : frag_max = 8 * ((ceiling - ip_hlen) / 8))
      by (subst frag_max; apply frag_max_round; lia).
    rewrite <- Hfm in Hchain.
    fold dfv in Hchain.
    assert (Hdf : negb (dfv =? 0) = wire_df d ETH_HLEN).
    { subst dfv. unfold wire_df. rewrite be16_testbit by lia.
      change IP_DF with (2 ^ 14). rewrite land_pow2 by lia.
      change (6 + 8) with 14.
      destruct (Z.testbit (be16 d (ETH_HLEN + 6)) 14); reflexivity. }
    assert (Hu : 0 < frag_max /\ frag_max mod 8 = 0)
      by (rewrite Hfm; Z.div_mod_to_equations; lia).
    destruct Hu as [Hu Hu8].
    pose proof (chain_count d ip_hlen frag_max dfv eq_refl Hu Hu8 Hdfv
                  (emitted w w') 0 (tot - ip_hlen) Hchain
                  ltac:(lia) ltac:(lia) ltac:(lia)) as Hcount.
    exists ret, w'. split; [exact Hrun|]. split; [exact Hcount|].
    split.
    { assert (H1 : 1 <= div_round_up (tot - ip_hlen) frag_max)
        by (unfold div_round_up; apply Z.div_le_lower_bound; lia).
      lia. }
    intros i f Hnth.
    destruct (chain_nth d ip_hlen frag_max dfv eq_refl Hu Hu8 Hdfv
                (emitted w w') 0 (tot - ip_hlen) i f Hchain
                ltac:(lia) eq_refl ltac:(lia) ltac:(lia) Hnth)
      as (H1 & H2 & H3 & H4).
    cbv zeta in H1, H2, H3, H4 |- *. rewrite Z.add_0_l in H1, H2.
    rewrite <- Hdf. auto.
Qed.

(** A packet that is itself a fragment (offset 5, more-fragments set),
    fragmented again: two frames, the first with offset 0 and the
    more-fragments bit. *)
Lemma fragment_offsets_renumbered_witness :
  let h := Sample.the_host in
  let w := Sample.a_world 36 in
  let skb := Sample.plain 50 0x2005 0 in
  wire_frag_offset (skb_data skb) ETH_HLEN = 5 /\
  exists ret w' f,
    ovs_vport_fragment h 60 w skb 0 36 = Some (ret, w') /\
    length (emitted w w') = 2%nat /\
    nth_error (emitted w w') 0 = Some f /\
    wire_frag_offset (skb_data f) ETH_HLEN * 8 = 0 /\
    wire_mf (skb_data f) ETH_HLEN = true.
Proof.
  intros h w skb. split; [vm_compute; reflexivity|].
  destruct (fragment_offsets_renumbered h 60 w skb 0 36) as [_ HB].
  - vm_compute. discriminate.
  - vm_compute. discriminate.
  - apply Nat.leb_le. vm_compute. reflexivity.
  - destruct HB as (ret & w' & Hrun & Hcount & _ & Hall).
    + intros n. reflexivity.
    + reflexivity.
    + vm_compute. discriminate.
    + vm_compute. reflexivity.
    + vm_compute. reflexivity.
    + vm_compute. reflexivity.
    + assert (Hlen : length (emitted w w') = 2%nat).
      { apply Nat2Z.inj. rewrite Hcount. vm_compute. reflexivity. }
      destruct (emitted w w') as [|f rest] eqn:He; [discriminate|].
      exists ret, w', f. split; [exact Hrun|]. rewrite He.
      split; [exact Hlen|]. split; [reflexivity|].
      destruct (Hall 0%nat f eq_refl) as (_ & H2 & _ & H4).
      split; [exact H2|]. rewrite H4, Hlen. reflexivity.
Defined.
